(** * GlobalProtect SSL tunnel (gpst.c): a shallow embedding and its properties

    The development follows src/gpst.c function by function:
    the 16-byte frame header (the store_* / load_* blocks of the main
    loop), [parse_javascript], [gpst_xml_or_error], [calculate_mtu],
    [gpst_parse_config_xml], [gpst_get_config], [gpst_connect],
    [gpst_setup] and [gpst_mainloop].

    Conventions.
    - [struct openconnect_info] is a record of the fields gpst.c uses;
      a [char *] that may be NULL is an [option]; an [int] is a [Z].
    - Collaborators that live outside gpst.c (the TLS stream, the HTTPS
      executor, libxml2, [malloc], the timer oracle, [ssl_reconnect],
      the clock) are inputs: for the main loop, scripts of answers
      consumed in call order; for the other functions, one record of
      answers per call.
    - What a function does to the outside and a claim talks about is
      recorded: the writes, dequeues, frees and reconnects of the main
      loop, the lists handed to [free_optlist], the calls of
      [gpst_connect].
    - Left out: [vpn_progress] and the hex dumps (no state), the
      [monitor_*_fd] bookkeeping, the [timeout] pointer (owned by the
      timer oracle), and the text of the two HTTP requests
      ([filter_opts], [append_opt]); only [buf_error] of the request is
      kept.
    - A NULL dereference is a result of its own ([Fault], [GcFault],
      [RxFault]). *)

From Stdlib Require Import ZArith List String Ascii Bool Lia.
From Stdlib Require Import Strings.Byte.
Import ListNotations.
Local Open Scope Z_scope.

(* ------------------------------------------------------------------ *)
(** ** errno values used by gpst.c (Linux numbering) *)

Definition EPERM  : Z := 1.
Definition ENOENT : Z := 2.
Definition EINTR  : Z := 4.
Definition EAGAIN : Z := 11.
Definition EACCES : Z := 13.
Definition EEXIST : Z := 17.
Definition EINVAL : Z := 22.
Definition EPIPE  : Z := 32.
Definition EBADMSG : Z := 74.

(* ------------------------------------------------------------------ *)
(** ** Bytes and the header accessors *)

Module Wire.

Definition Z_of_byte (b : byte) : Z := Z.of_N (Byte.to_N b).

(** The low eight bits of [z], as a byte (what a C store of an
    [unsigned char] keeps). *)
Definition byte_of_Z (z : Z) : byte :=
  match Byte.of_N (Z.to_N (z mod 256)) with
  | Some b => b
  | None => x00
  end.

(** Modelled from the spec: [store_be32], [store_be16], [store_le32],
    [load_be32], [load_be16] and [load_le32] are declared in
    openconnect-internal.h, which is not part of src/.  They write and read
    an integer at a byte pointer, most significant byte first (be) or
    least significant byte first (le). *)
Definition store_be32 (d : Z) : list byte :=
  [ byte_of_Z (Z.shiftr d 24); byte_of_Z (Z.shiftr d 16);
    byte_of_Z (Z.shiftr d 8);  byte_of_Z d ].

Definition store_be16 (d : Z) : list byte :=
  [ byte_of_Z (Z.shiftr d 8); byte_of_Z d ].

Definition store_le32 (d : Z) : list byte :=
  [ byte_of_Z d; byte_of_Z (Z.shiftr d 8);
    byte_of_Z (Z.shiftr d 16); byte_of_Z (Z.shiftr d 24) ].

Definition byte_at (p : list byte) (i : nat) : Z := Z_of_byte (nth i p x00).

Definition load_be32 (p : list byte) : Z :=
  Z.lor (Z.shiftl (byte_at p 0) 24)
   (Z.lor (Z.shiftl (byte_at p 1) 16)
     (Z.lor (Z.shiftl (byte_at p 2) 8) (byte_at p 3))).

Definition load_be16 (p : list byte) : Z :=
  Z.lor (Z.shiftl (byte_at p 0) 8) (byte_at p 1).

Definition load_le32 (p : list byte) : Z :=
  Z.lor (Z.shiftl (byte_at p 3) 24)
   (Z.lor (Z.shiftl (byte_at p 2) 16)
     (Z.lor (Z.shiftl (byte_at p 1) 8) (byte_at p 0))).

End Wire.

Import Wire.

(* ------------------------------------------------------------------ *)
(** ** Data model: packets, option list, [oc_ip_info], [keepalive_info] *)

(** Where a [struct pkt] lives: the file-scope [dpd_pkt] or a heap block.
    The main loop compares against [&dpd_pkt] before it frees. *)
Inductive pkt_ptr : Type :=
| Static_dpd
| Heap (a : Z).

Definition pkt_ptr_eqb (x y : pkt_ptr) : bool :=
  match x, y with
  | Static_dpd, Static_dpd => true
  | Heap a, Heap b => Z.eqb a b
  | _, _ => false
  end.

(** [struct pkt]: [len], the 16-byte [gpst.hdr] and the payload [data]
    that follows it in memory.  [pkt_at] is the address of the struct;
    queues are lists, so [next] is not a field. *)
Record pkt : Type := mk_pkt {
  pkt_at   : pkt_ptr;
  pkt_len  : Z;
  pkt_hdr  : list byte;
  pkt_data : list byte
}.

(** [static const struct pkt dpd_pkt]: magic in the first four header
    bytes, everything else zero-initialised. *)
Definition dpd_pkt : pkt :=
  mk_pkt Static_dpd 0
    [ x1a; x2b; x3c; x4d; x00; x00; x00; x00;
      x00; x00; x00; x00; x00; x00; x00; x00 ] [].

(** [struct oc_vpn_option]: an (option, value) node of the list headed by
    [vpninfo->cstp_options]. *)
Record oc_vpn_option : Type := mk_opt {
  option_name  : string;
  option_value : string
}.

Inductive rekey_method_t : Type := REKEY_NONE | REKEY_TUNNEL.

(** [struct keepalive_info] ([vpninfo->ssl_times]). *)
Record keepalive_info : Type := mk_times {
  last_rekey : Z;
  last_rx : Z;
  last_tx : Z;
  dpd : Z;
  keepalive : Z;
  rekey : Z;
  rekey_method : rekey_method_t
}.

(** [struct oc_ip_info].  A [char *] that may be NULL is an [option];
    [dns] and [nbns] are the three-slot arrays; [split_includes] is the
    linked list read from its head. *)
Record oc_ip_info : Type := mk_ip_info {
  addr : option string;
  netmask : option string;
  addr6 : option string;
  netmask6 : option string;
  domain : option string;
  mtu : Z;
  dns : list (option string);
  nbns : list (option string);
  split_includes : list string;
  gateway_addr : string
}.

Inductive dtls_state_t : Type := DTLS_NOSECRET | DTLS_SECRET | DTLS_DISABLED
                               | DTLS_SLEEPING | DTLS_CONNECTING | DTLS_CONNECTED.

Inductive sa_family_t : Type := AF_INET | AF_INET6 | AF_OTHER.

(** The fields of [struct openconnect_info] that gpst.c reads or writes. *)
Record openconnect_info : Type := mk_vpninfo {
  ssl_fd : Z;
  ip_info : oc_ip_info;
  cstp_options : list oc_vpn_option;
  ssl_times : keepalive_info;
  cstp_pkt : option pkt;
  current_ssl_pkt : option pkt;
  incoming_queue : list pkt;
  outgoing_queue : list pkt;
  dtls_state : dtls_state_t;
  quit_reason : option string;
  urlpath : option string;
  cookie : string;
  platname : string;
  reqmtu : Z;
  basemtu : Z;
  peer_family : sa_family_t;
  disable_ipv6 : bool
}.

(** *** Field updates *)

Definition set_ip_info (f : oc_ip_info -> oc_ip_info) (v : openconnect_info) :=
  mk_vpninfo v.(ssl_fd) (f v.(ip_info)) v.(cstp_options) v.(ssl_times)
    v.(cstp_pkt) v.(current_ssl_pkt) v.(incoming_queue) v.(outgoing_queue)
    v.(dtls_state) v.(quit_reason) v.(urlpath) v.(cookie) v.(platname)
    v.(reqmtu) v.(basemtu) v.(peer_family) v.(disable_ipv6).

Definition set_cstp_options (o : list oc_vpn_option) (v : openconnect_info) :=
  mk_vpninfo v.(ssl_fd) v.(ip_info) o v.(ssl_times)
    v.(cstp_pkt) v.(current_ssl_pkt) v.(incoming_queue) v.(outgoing_queue)
    v.(dtls_state) v.(quit_reason) v.(urlpath) v.(cookie) v.(platname)
    v.(reqmtu) v.(basemtu) v.(peer_family) v.(disable_ipv6).

Definition set_ssl_times (f : keepalive_info -> keepalive_info)
    (v : openconnect_info) :=
  mk_vpninfo v.(ssl_fd) v.(ip_info) v.(cstp_options) (f v.(ssl_times))
    v.(cstp_pkt) v.(current_ssl_pkt) v.(incoming_queue) v.(outgoing_queue)
    v.(dtls_state) v.(quit_reason) v.(urlpath) v.(cookie) v.(platname)
    v.(reqmtu) v.(basemtu) v.(peer_family) v.(disable_ipv6).

Definition set_cstp_pkt (p : option pkt) (v : openconnect_info) :=
  mk_vpninfo v.(ssl_fd) v.(ip_info) v.(cstp_options) v.(ssl_times)
    p v.(current_ssl_pkt) v.(incoming_queue) v.(outgoing_queue)
    v.(dtls_state) v.(quit_reason) v.(urlpath) v.(cookie) v.(platname)
    v.(reqmtu) v.(basemtu) v.(peer_family) v.(disable_ipv6).

Definition set_current_ssl_pkt (p : option pkt) (v : openconnect_info) :=
  mk_vpninfo v.(ssl_fd) v.(ip_info) v.(cstp_options) v.(ssl_times)
    v.(cstp_pkt) p v.(incoming_queue) v.(outgoing_queue)
    v.(dtls_state) v.(quit_reason) v.(urlpath) v.(cookie) v.(platname)
    v.(reqmtu) v.(basemtu) v.(peer_family) v.(disable_ipv6).

Definition set_incoming_queue (q : list pkt) (v : openconnect_info) :=
  mk_vpninfo v.(ssl_fd) v.(ip_info) v.(cstp_options) v.(ssl_times)
    v.(cstp_pkt) v.(current_ssl_pkt) q v.(outgoing_queue)
    v.(dtls_state) v.(quit_reason) v.(urlpath) v.(cookie) v.(platname)
    v.(reqmtu) v.(basemtu) v.(peer_family) v.(disable_ipv6).

Definition set_outgoing_queue (q : list pkt) (v : openconnect_info) :=
  mk_vpninfo v.(ssl_fd) v.(ip_info) v.(cstp_options) v.(ssl_times)
    v.(cstp_pkt) v.(current_ssl_pkt) v.(incoming_queue) q
    v.(dtls_state) v.(quit_reason) v.(urlpath) v.(cookie) v.(platname)
    v.(reqmtu) v.(basemtu) v.(peer_family) v.(disable_ipv6).

Definition set_quit_reason (r : string) (v : openconnect_info) :=
  mk_vpninfo v.(ssl_fd) v.(ip_info) v.(cstp_options) v.(ssl_times)
    v.(cstp_pkt) v.(current_ssl_pkt) v.(incoming_queue) v.(outgoing_queue)
    v.(dtls_state) (Some r) v.(urlpath) v.(cookie) v.(platname)
    v.(reqmtu) v.(basemtu) v.(peer_family) v.(disable_ipv6).

Definition set_urlpath (u : option string) (v : openconnect_info) :=
  mk_vpninfo v.(ssl_fd) v.(ip_info) v.(cstp_options) v.(ssl_times)
    v.(cstp_pkt) v.(current_ssl_pkt) v.(incoming_queue) v.(outgoing_queue)
    v.(dtls_state) v.(quit_reason) u v.(cookie) v.(platname)
    v.(reqmtu) v.(basemtu) v.(peer_family) v.(disable_ipv6).

Definition set_disable_ipv6 (b : bool) (v : openconnect_info) :=
  mk_vpninfo v.(ssl_fd) v.(ip_info) v.(cstp_options) v.(ssl_times)
    v.(cstp_pkt) v.(current_ssl_pkt) v.(incoming_queue) v.(outgoing_queue)
    v.(dtls_state) v.(quit_reason) v.(urlpath) v.(cookie) v.(platname)
    v.(reqmtu) v.(basemtu) v.(peer_family) b.

Definition set_last_rx (t : Z) (k : keepalive_info) :=
  mk_times k.(last_rekey) t k.(last_tx) k.(dpd) k.(keepalive) k.(rekey)
    k.(rekey_method).

Definition set_last_tx (t : Z) (k : keepalive_info) :=
  mk_times k.(last_rekey) k.(last_rx) t k.(dpd) k.(keepalive) k.(rekey)
    k.(rekey_method).

Definition set_last_rekey (t : Z) (k : keepalive_info) :=
  mk_times t k.(last_rx) k.(last_tx) k.(dpd) k.(keepalive) k.(rekey)
    k.(rekey_method).

Definition set_rekey (r : Z) (k : keepalive_info) :=
  mk_times k.(last_rekey) k.(last_rx) k.(last_tx) k.(dpd) k.(keepalive) r
    k.(rekey_method).

Definition set_rekey_method (m : rekey_method_t) (k : keepalive_info) :=
  mk_times k.(last_rekey) k.(last_rx) k.(last_tx) k.(dpd) k.(keepalive)
    k.(rekey) m.

Definition set_dpd (d : Z) (k : keepalive_info) :=
  mk_times k.(last_rekey) k.(last_rx) k.(last_tx) d k.(keepalive) k.(rekey)
    k.(rekey_method).

Definition set_keepalive (d : Z) (k : keepalive_info) :=
  mk_times k.(last_rekey) k.(last_rx) k.(last_tx) k.(dpd) d k.(rekey)
    k.(rekey_method).

Definition set_addr (a : option string) (i : oc_ip_info) :=
  mk_ip_info a i.(netmask) i.(addr6) i.(netmask6) i.(domain) i.(mtu)
    i.(dns) i.(nbns) i.(split_includes) i.(gateway_addr).

Definition set_netmask (a : option string) (i : oc_ip_info) :=
  mk_ip_info i.(addr) a i.(addr6) i.(netmask6) i.(domain) i.(mtu)
    i.(dns) i.(nbns) i.(split_includes) i.(gateway_addr).

Definition set_domain (a : option string) (i : oc_ip_info) :=
  mk_ip_info i.(addr) i.(netmask) i.(addr6) i.(netmask6) a i.(mtu)
    i.(dns) i.(nbns) i.(split_includes) i.(gateway_addr).

Definition set_mtu (m : Z) (i : oc_ip_info) :=
  mk_ip_info i.(addr) i.(netmask) i.(addr6) i.(netmask6) i.(domain) m
    i.(dns) i.(nbns) i.(split_includes) i.(gateway_addr).

Definition set_dns (l : list (option string)) (i : oc_ip_info) :=
  mk_ip_info i.(addr) i.(netmask) i.(addr6) i.(netmask6) i.(domain) i.(mtu)
    l i.(nbns) i.(split_includes) i.(gateway_addr).

Definition set_nbns (l : list (option string)) (i : oc_ip_info) :=
  mk_ip_info i.(addr) i.(netmask) i.(addr6) i.(netmask6) i.(domain) i.(mtu)
    i.(dns) l i.(split_includes) i.(gateway_addr).

Definition set_split_includes (l : list string) (i : oc_ip_info) :=
  mk_ip_info i.(addr) i.(netmask) i.(addr6) i.(netmask6) i.(domain) i.(mtu)
    i.(dns) i.(nbns) l i.(gateway_addr).

(* ------------------------------------------------------------------ *)
(** ** The 16-byte frame header *)

Module Frame.

Inductive frame_kind : Type := Data | Dpd.

Definition GPST_MAGIC : Z := 0x1a2b3c4d.
Definition ETH_IPV4 : Z := 0x0800.

(** The "store header" block of the outgoing-queue loop:
    magic, EtherType 0x0800, [this->len], 1 and 0. *)
Definition stamp_header (this : pkt) : pkt :=
  mk_pkt this.(pkt_at) this.(pkt_len)
    (store_be32 GPST_MAGIC ++ store_be16 ETH_IPV4
       ++ store_be16 this.(pkt_len) ++ store_le32 1 ++ store_le32 0)
    this.(pkt_data).

(** The bytes [ssl_nonblock_write] is handed for a packet: [len + 16]
    bytes starting at [gpst.hdr]; the payload follows the header in the
    struct. *)
Definition frame_bytes (p : pkt) : list byte :=
  firstn (Z.to_nat (p.(pkt_len) + 16)) (p.(pkt_hdr) ++ p.(pkt_data)).

(** The five header fields the receive loop loads ("check packet header"). *)
Record gpst_hdr : Type := mk_hdr {
  magic : Z;
  ethertype : Z;
  payload_len : Z;
  one : Z;
  zero : Z
}.

Definition load_header (h : list byte) : gpst_hdr :=
  mk_hdr (load_be32 h) (load_be16 (skipn 4 h)) (load_be16 (skipn 6 h))
         (load_le32 (skipn 8 h)) (load_le32 (skipn 12 h)).

(** What the receive loop decides about the [len] bytes one read left in
    the buffer, in the order of its tests: short read, magic, length,
    then the switch on the EtherType.  For a DPD frame nothing is
    delivered by the loop; [payload] is what the buffer holds after the
    header.  [anomaly] is the test on the two trailing words. *)
Inductive decode_result : Type :=
| ShortFrame
| MalformedFrame
| LengthMismatch
| UnknownEthertype
| Decoded (k : frame_kind) (payload : list byte) (anomaly : bool).

Definition gpst_decode (buf : list byte) : decode_result :=
  let len := Z.of_nat (List.length buf) in
  if len <? 16 then ShortFrame
  else
    let h := load_header buf in
    if negb (h.(magic) =? GPST_MAGIC) then MalformedFrame
    else if negb (len =? 16 + h.(payload_len)) then LengthMismatch
    else if h.(ethertype) =? 0 then
      Decoded Dpd (skipn 16 buf)
        (negb (h.(one) =? 0) || negb (h.(zero) =? 0))
    else if h.(ethertype) =? ETH_IPV4 then
      Decoded Data (skipn 16 buf)
        (negb (h.(one) =? 1) || negb (h.(zero) =? 0))
    else UnknownEthertype.

(** The encoder as the specification words it: one header layout for both
    kinds, followed by the payload.  [encode_data] and [encode_dpd] below
    relate it to what the main loop really sends. *)
Definition spec_encode (k : frame_kind) (p : list byte) : list byte :=
  store_be32 GPST_MAGIC
    ++ store_be16 (match k with Data => ETH_IPV4 | Dpd => 0 end)
    ++ store_be16 (Z.of_nat (List.length p))
    ++ store_le32 (match k with Data => 1 | Dpd => 0 end)
    ++ store_le32 0
    ++ p.

End Frame.

Import Frame.

(* ------------------------------------------------------------------ *)
(** ** Answers of the TLS stream *)

(** One answer of a TLS read ([ssl_nonblock_read], [ssl_read]): a
    negative errno [- e], or the bytes stored in the caller's buffer;
    their count is the return value. *)
Inductive rd_result : Type :=
| Rd_err (e : positive)
| Rd_bytes (buf : list byte).


(* ------------------------------------------------------------------ *)
(** ** C strings and [parse_javascript] *)

Module CStr.

(** A [const char *] into a NUL-terminated buffer: the bytes before the
    pointer (nearest first) and the bytes from the pointer up to the
    terminating NUL. *)
Record cptr : Type := mk_cptr {
  before : list ascii;
  after : list ascii
}.

Definition NUL : ascii := Ascii.zero.

(** [*p], [p[-1]] and [p[-2]] *)
Definition deref (p : cptr) : ascii := hd NUL p.(after).
Definition at_m1 (p : cptr) : ascii := nth 0 p.(before) NUL.
Definition at_m2 (p : cptr) : ascii := nth 1 p.(before) NUL.

(** [p + n], for [n] no larger than what is left *)
Fixpoint advance (n : nat) (p : cptr) : cptr :=
  match n, p.(after) with
  | S n', c :: r => advance n' (mk_cptr (c :: p.(before)) r)
  | _, _ => p
  end.

(** [q - p] for two pointers into the same buffer *)
Definition ptr_diff (q p : cptr) : Z :=
  Z.of_nat (List.length q.(before)) - Z.of_nat (List.length p.(before)).

(** [isspace] in the C locale *)
Definition isspace (c : ascii) : bool :=
  let n := nat_of_ascii c in
  Nat.eqb n 32 || (Nat.leb 9 n && Nat.leb n 13).

(** The loop that steps [end] over white space; it stops at the NUL. *)
Fixpoint skip_space_from (b a : list ascii) : cptr :=
  match a with
  | c :: r => if isspace c then skip_space_from (c :: b) r else mk_cptr b a
  | [] => mk_cptr b []
  end.
Definition skip_space (p : cptr) : cptr := skip_space_from p.(before) p.(after).

(** [strchr(p, c)], [c] not NUL *)
Fixpoint strchr_from (b a : list ascii) (c : ascii) : option cptr :=
  match a with
  | x :: r => if Ascii.eqb x c then Some (mk_cptr b a)
              else strchr_from (x :: b) r c
  | [] => None
  end.
Definition strchr (p : cptr) (c : ascii) : option cptr :=
  strchr_from p.(before) p.(after) c.

(** [strncmp(a, b, n) == 0] on NUL-terminated strings *)
Fixpoint strncmp0 (a b : list ascii) (n : nat) {struct n} : bool :=
  match n with
  | O => true
  | S n' =>
      match a, b with
      | [], [] => true
      | x :: a', y :: b' => Ascii.eqb x y && strncmp0 a' b' n'
      | _, _ => false
      end
  end.

(** [strcmp(a, b) == 0] *)
Definition streq (a b : string) : bool := String.eqb a b.

(** [strndup(p, n)] *)
Definition strndup (p : cptr) (n : Z) : list ascii :=
  firstn (Z.to_nat n) p.(after).

End CStr.

Module Js.
Import CStr.

Definition chars (s : string) : list ascii := list_ascii_of_string s.

Definition newline : ascii := ascii_of_nat 10.
Definition semicolon : ascii := ascii_of_nat 59.
Definition dquote : ascii := ascii_of_nat 34.

(** The three literal prefixes; each ends with a double quote. *)
Definition pre_status : list ascii := chars "var respStatus = " ++ [dquote].
Definition pre_prompt : list ascii := chars "var respMsg = " ++ [dquote].
Definition pre_inputStr : list ascii :=
  chars "thisForm.inputStr.value = " ++ [dquote].

(** The test made on every line once its newline is found: the byte
    before the newline is not a semicolon, or the one before that is not
    a double quote. *)
Definition bad_line_end (end_ : cptr) : bool :=
  negb (Ascii.eqb (at_m1 end_) semicolon)
  || negb (Ascii.eqb (at_m2 end_) dquote).

(** The result of [parse_javascript]: the returned int, and the strings
    left in [*prompt] and [*inputStr] when it returns a status. *)
Record js_result : Type := mk_js {
  js_ret : Z;
  js_prompt : option (list ascii);
  js_inputStr : option (list ascii)
}.

Definition js_err : js_result := mk_js (- EINVAL) None None.

Definition parse_javascript (buf : list ascii) : js_result :=
  (* Status *)
  let end_ := skip_space (mk_cptr [] buf) in
  if negb (strncmp0 end_.(after) pre_status (List.length pre_status))
  then js_err else
  let start := advance (List.length pre_status) end_ in
  match strchr start newline with
  | None => js_err
  | Some end_ =>
  if bad_line_end end_ then js_err else
  match (if strncmp0 start.(after) (chars "Challenge") 8 then Some 0
         else if strncmp0 start.(after) (chars "Error") 5 then Some 1
         else None) with
  | None => js_err
  | Some status =>
  (* Prompt *)
  let end_ := skip_space end_ in
  if negb (strncmp0 end_.(after) pre_prompt (List.length pre_prompt))
  then js_err else
  let start := advance (List.length pre_prompt) end_ in
  match strchr start newline with
  | None => js_err
  | Some end_ =>
  if bad_line_end end_ || (ptr_diff end_ start <? 2) then js_err else
  let prompt := strndup start (ptr_diff end_ start - 2) in
  (* inputStr *)
  let end_ := skip_space end_ in
  if negb (strncmp0 end_.(after) pre_inputStr (List.length pre_inputStr))
  then js_err (* err2 *) else
  let start := advance (List.length pre_inputStr) end_ in
  match strchr start newline with
  | None => js_err (* err2 *)
  | Some end_ =>
  if bad_line_end end_ || (ptr_diff end_ start <? 2) then js_err else
  let inputStr := strndup start (ptr_diff end_ start - 2) in
  let end_ := skip_space end_ in
  if negb (Ascii.eqb (deref end_) NUL) then js_err (* err3 *)
  else mk_js status (Some prompt) (Some inputStr)
  end end end end.

End Js.

(* ------------------------------------------------------------------ *)
(** ** libxml2 nodes and the helpers gpst.c calls on them *)

(** What gpst.c looks at in an [xmlNode]: its name, its attributes, what
    [xmlNodeGetContent] returns for it (NULL or a string) and its children
    in document order ([children], then [next]). *)
Unset Elimination Schemes.
Inductive xmlNode : Type :=
| XmlNode (name : string) (props : list (string * string))
          (content : option string) (children : list xmlNode).
Set Elimination Schemes.

Definition node_name (n : xmlNode) : string :=
  match n with XmlNode nm _ _ _ => nm end.
Definition node_props (n : xmlNode) : list (string * string) :=
  match n with XmlNode _ p _ _ => p end.
Definition node_content (n : xmlNode) : option string :=
  match n with XmlNode _ _ c _ => c end.
Definition node_children (n : xmlNode) : list xmlNode :=
  match n with XmlNode _ _ _ ch => ch end.

(** Modelled from the spec: [xmlnode_is_named] and [xmlnode_match_prop]
    are defined outside gpst.c.  The first compares the element name; the
    second returns 0 when the attribute exists and equals [m], [-ENOENT]
    when it is missing and [-EEXIST] when it differs. *)
Definition xmlnode_is_named (n : xmlNode) (name : string) : bool :=
  String.eqb (node_name n) name.

Fixpoint xmlGetProp (props : list (string * string)) (name : string)
  : option string :=
  match props with
  | [] => None
  | (k, v) :: r => if String.eqb k name then Some v else xmlGetProp r name
  end.

Definition xmlnode_match_prop (n : xmlNode) (name m : string) : Z :=
  match xmlGetProp (node_props n) name with
  | None => - ENOENT
  | Some s => if String.eqb s m then 0 else - EEXIST
  end.

(** A call that returns 0 and fills its out-parameter, or returns a
    negative errno. *)
Inductive res (A : Type) : Type :=
| Ok (a : A)
| Err (code : Z).
Arguments Ok {A} a.
Arguments Err {A} code.

(** [xmlnode_get_text(xml_node, name, &var)] with a non-NULL [name] *)
Definition xmlnode_get_text (n : xmlNode) (name : string) : res string :=
  if negb (xmlnode_is_named n name) then Err (- EINVAL)
  else match node_content n with
       | None => Err (- ENOENT)
       | Some str => Ok str
       end.

(** [add_option]: a new node at the head of [vpninfo->cstp_options];
    the value pointer is returned (allocation is taken to succeed). *)
Definition add_option (v : openconnect_info) (opt val : string)
  : option string * openconnect_info :=
  (Some val, set_cstp_options (mk_opt opt val :: v.(cstp_options)) v).

(** Conversion of an integer to a C [int] (32 bits, two's complement). *)
Definition to_int (z : Z) : Z := (z + 2 ^ 31) mod 2 ^ 32 - 2 ^ 31.

(** [atoi] as the C library implements it: [(int) strtol(s, NULL, 10)].
    [strtol] skips white space, takes an optional sign and the decimal
    digits that follow, and saturates at [LONG_MIN] and [LONG_MAX] (a
    64-bit [long]); the conversion to [int] keeps the low 32 bits. *)
Definition digit_of (c : ascii) : option Z :=
  let n := nat_of_ascii c in
  if Nat.leb 48 n && Nat.leb n 57 then Some (Z.of_nat (n - 48)) else None.

Fixpoint atoi_digits (acc : Z) (l : list ascii) : Z :=
  match l with
  | c :: r => match digit_of c with
              | Some d => atoi_digits (10 * acc + d) r
              | None => acc
              end
  | [] => acc
  end.

Definition LONG_MAX : Z := 2 ^ 63 - 1.
Definition LONG_MIN : Z := - 2 ^ 63.

Definition strtol (s : string) : Z :=
  let p := CStr.skip_space (CStr.mk_cptr [] (list_ascii_of_string s)) in
  let value :=
    match p.(CStr.after) with
    | c :: r =>
        if Ascii.eqb c (ascii_of_nat 45) then - atoi_digits 0 r
        else if Ascii.eqb c (ascii_of_nat 43) then atoi_digits 0 r
        else atoi_digits 0 (c :: r)
    | [] => 0
    end in
  Z.max LONG_MIN (Z.min LONG_MAX value).

Definition atoi (s : string) : Z := to_int (strtol s).

(* ------------------------------------------------------------------ *)
(** ** [gpst_xml_or_error] *)

(** The XML callback: it works on [vpninfo] and returns an int. *)
Definition xml_cb_t : Type :=
  openconnect_info -> xmlNode -> Z * openconnect_info.

(** The first child for which [xmlnode_get_text(child, "error", &err)]
    returns 0. *)
Fixpoint find_error_text (l : list xmlNode) : option string :=
  match l with
  | [] => None
  | n :: r => match xmlnode_get_text n "error" with
              | Ok s => Some s
              | Err _ => find_error_text r
              end
  end.

(** The [out:] label when [err] is set. *)
Definition map_error_text (err : string) : Z :=
  if String.eqb err "GlobalProtect gateway does not exist"
     || String.eqb err "GlobalProtect portal does not exist"
  then - EEXIST
  else if String.eqb err "Invalid authentication cookie" then - EPERM
  else - EINVAL.

(** A server reply as [gpst_xml_or_error] sees it: the body ([response],
    NULL or a string) and what [xmlReadMemory] makes of it (NULL, or a
    document given by its root element). *)
Record reply : Type := mk_reply {
  response : option string;
  xml_doc : option xmlNode
}.

(** [gpst_xml_or_error(vpninfo, result, response, xml_cb, prompt, inputStr)].
    [want_challenge] says that both [prompt] and [inputStr] are non-NULL;
    the third component is what is stored through them. *)
Definition gpst_xml_or_error (v : openconnect_info) (result : Z) (r : reply)
    (xml_cb : option xml_cb_t) (want_challenge : bool)
  : Z * openconnect_info * option (list ascii * list ascii) :=
  if result <? 0 then (result, v, None) else
  match r.(response) with
  | None => (- EINVAL, v, None)
  | Some body =>
    match r.(xml_doc) with
    | None =>
        (* is it Javascript? *)
        let js := Js.parse_javascript (list_ascii_of_string body) in
        let result := js.(Js.js_ret) in
        if result =? 1 then (result, v, None)
        else if result =? 0 then
          if want_challenge then
            match js.(Js.js_prompt), js.(Js.js_inputStr) with
            | Some p, Some i => (- EAGAIN, v, Some (p, i))
            | _, _ => (- EAGAIN, v, None)
            end
          else (result, v, None)
        else (* bad_xml *) (result, v, None)
    | Some root =>
        if xmlnode_is_named root "response"
           && (xmlnode_match_prop root "status" "error" =? 0)
        then
          match find_error_text (node_children root) with
          | Some err => (map_error_text err, v, None)
          | None => (* bad_xml *) (result, v, None)
          end
        else
          match xml_cb with
          | Some cb => let '(result, v) := cb v root in (result, v, None)
          | None => (result, v, None)
          end
    end
  end.

(* ------------------------------------------------------------------ *)
(** ** [calculate_mtu] *)

Definition ESP_OVERHEAD : Z := 4 + 4 + 20 + 32 + 1 + 1 + 16.
Definition UDP_HEADER_SIZE : Z := 8.
Definition IPV4_HEADER_SIZE : Z := 20.
Definition IPV6_HEADER_SIZE : Z := 40.

(** The fields of [struct tcp_info] that are read. *)
Record tcp_info : Type := mk_tcp_info {
  tcpi_rcv_mss : Z;
  tcpi_snd_mss : Z;
  tcpi_advmss : Z;
  tcpi_pmtu : Z
}.

(** What the two [getsockopt] calls on [ssl_fd] answer: [None] when the
    call fails or the option is not compiled in. *)
Record sockdiag : Type := mk_sockdiag {
  so_tcp_info : option tcp_info;
  so_maxseg : option Z
}.

Definition no_diag : sockdiag := mk_sockdiag None None.

(** [base_mtu] when the "Default" test has been passed, before the clamp. *)
Definition probe_base_mtu (v : openconnect_info) (so : sockdiag) : Z :=
  let mtu := v.(reqmtu) in
  let base_mtu := v.(basemtu) in
  let base_mtu :=
    if (mtu =? 0) || (base_mtu =? 0) then
      match so.(so_tcp_info) with
      | Some ti =>
          let base_mtu :=
            if base_mtu =? 0 then to_int ti.(tcpi_pmtu) else base_mtu in
          if base_mtu =? 0 then
            if ti.(tcpi_rcv_mss) <? ti.(tcpi_snd_mss)
            then to_int (ti.(tcpi_rcv_mss) - 13)
            else to_int (ti.(tcpi_snd_mss) - 13)
          else base_mtu
      | None => base_mtu
      end
    else base_mtu in
  let base_mtu :=
    if base_mtu =? 0 then
      match so.(so_maxseg) with
      | Some mss => to_int (mss - 13)
      | None => base_mtu
      end
    else base_mtu in
  if base_mtu =? 0 then 1406 else base_mtu.

Definition calculate_mtu (v : openconnect_info) (so : sockdiag) : Z :=
  let mtu := v.(reqmtu) in
  let base_mtu := probe_base_mtu v so in
  let base_mtu := if base_mtu <? 1280 then 1280 else base_mtu in
  if mtu =? 0 then
    let mtu := base_mtu - ESP_OVERHEAD - UDP_HEADER_SIZE in
    match v.(peer_family) with
    | AF_INET6 => mtu - IPV6_HEADER_SIZE
    | _ => mtu - IPV4_HEADER_SIZE
    end
  else mtu.

(* ------------------------------------------------------------------ *)
(** ** [gpst_parse_config_xml] *)

(** [a[i] = x] on a C array *)
Fixpoint set_slot {A : Type} (i : nat) (x : A) (a : list A) : list A :=
  match a, i with
  | [], _ => []
  | _ :: r, O => x :: r
  | y :: r, S i' => y :: set_slot i' x r
  end.

(** The loops over the [<member>] children of [<dns>], [<wins>] and
    [<dns-suffix>]: they stop at the end of the list or when [ii] reaches
    [limit]; a member with text is added as option [opt] and stored by
    [store] at index [ii], which then advances. *)
Fixpoint collect_members (limit : nat) (opt : string)
    (store : nat -> option string -> oc_ip_info -> oc_ip_info)
    (members : list xmlNode) (ii : nat) (v : openconnect_info)
  : openconnect_info :=
  match members with
  | [] => v
  | member :: rest =>
      if Nat.ltb ii limit then
        match xmlnode_get_text member "member" with
        | Ok s =>
            let '(p, v) := add_option v opt s in
            collect_members limit opt store rest (S ii)
              (set_ip_info (store ii p) v)
        | Err _ => collect_members limit opt store rest ii v
        end
      else v
  end.

(** The loop over the [<member>] children of [<access-routes>]: each one
    with text becomes a new [oc_split_include] linked in at the head of
    [split_includes] (its allocation is taken to succeed). *)
Fixpoint push_routes (members : list xmlNode) (v : openconnect_info)
  : openconnect_info :=
  match members with
  | [] => v
  | member :: rest =>
      match xmlnode_get_text member "member" with
      | Ok s =>
          let '(route, v) := add_option v "split-include" s in
          let inc := match route with Some r => r | None => s end in
          push_routes rest
            (set_ip_info
               (fun i => set_split_includes (inc :: i.(split_includes)) i) v)
      | Err _ => push_routes rest v
      end
  end.

(** One pass of the "Parse config" loop, for the child [n]; [now] is what
    [time(NULL)] answers. *)
Definition config_child (now : Z) (v : openconnect_info) (n : xmlNode)
  : openconnect_info :=
  match xmlnode_get_text n "ip-address" with
  | Ok s => let '(p, v) := add_option v "ipaddr" s in
            set_ip_info (set_addr p) v
  | Err _ =>
  match xmlnode_get_text n "netmask" with
  | Ok s => let '(p, v) := add_option v "netmask" s in
            set_ip_info (set_netmask p) v
  | Err _ =>
  match xmlnode_get_text n "mtu" with
  | Ok s => set_ip_info (set_mtu (atoi s)) v
  | Err _ =>
  match xmlnode_get_text n "ssl-tunnel-url" with
  | Ok s => set_urlpath (Some s) v
  | Err _ =>
  match xmlnode_get_text n "timeout" with
  | Ok s =>
      (* [int sec]; [sec - 60] is [int] arithmetic, here with the
         wrap-around of the machine (in C an overflow is undefined) *)
      let sec := atoi s in
      set_ssl_times
        (fun k => set_rekey_method REKEY_TUNNEL
                    (set_rekey (to_int (sec - 60)) (set_last_rekey now k))) v
  | Err _ =>
  match xmlnode_get_text n "gw-address" with
  | Ok s => v
  | Err _ =>
  if xmlnode_is_named n "dns" then
    collect_members 3 "DNS" (fun ii p i => set_dns (set_slot ii p i.(dns)) i)
      (node_children n) 0 v
  else if xmlnode_is_named n "wins" then
    collect_members 3 "WINS" (fun ii p i => set_nbns (set_slot ii p i.(nbns)) i)
      (node_children n) 0 v
  else if xmlnode_is_named n "dns-suffix" then
    collect_members 1 "search" (fun _ p i => set_domain p i)
      (node_children n) 0 v
  else if xmlnode_is_named n "access-routes" then
    push_routes (node_children n) v
  else if xmlnode_is_named n "ipsec" then v (* ESP keys are ignored *)
  else v
  end end end end end end.

(** "Clear old options which will be overwritten" *)
Definition clear_old_options (v : openconnect_info) : openconnect_info :=
  let v := set_ip_info (fun i =>
             mk_ip_info None None None None None 0
               [None; None; None] [None; None; None]
               [] (* free_split_routes *)
               i.(gateway_addr)) v in
  let v := set_ssl_times (set_rekey_method REKEY_NONE) v in
  set_cstp_options [] v.

(** The end of the callback: IPv6 off, the 10-second DPD default, and
    [keepalive = dpd]. *)
Definition finish_config (v : openconnect_info) : openconnect_info :=
  let v := set_disable_ipv6 true v in
  let v := if v.(ssl_times).(dpd) =? 0
           then set_ssl_times (set_dpd 10) v else v in
  set_ssl_times (fun k => set_keepalive k.(dpd) k) v.

Definition gpst_parse_config_xml (now : Z) (v : openconnect_info)
    (xml_node : xmlNode) : Z * openconnect_info :=
  if negb (xmlnode_is_named xml_node "response") then (- EINVAL, v)
  else
    let v := clear_old_options v in
    let v := fold_left (config_child now) (node_children xml_node) v in
    (0, finish_config v).

(* ------------------------------------------------------------------ *)
(** ** [gpst_get_config] *)

(** What the collaborators answer during one negotiation:
    [buf_error(request_body)], the return value of [do_https_request]
    (negative errno, else the length of the body), the reply it left in
    [xml_buf], the socket diagnostics and the clock. *)
Record getconfig_env : Type := mk_gc_env {
  gc_buf_error : Z;
  gc_https_result : Z;
  gc_reply : reply;
  gc_diag : sockdiag;
  gc_now : Z
}.

(** How [gpst_get_config] ends: it returns [r] with [vpninfo] as left
    behind and the option lists handed to [free_optlist]; or [strcmp]
    was called on a NULL pointer. *)
Inductive gc_outcome : Type :=
| GcRet (r : Z) (v : openconnect_info) (freed : list (list oc_vpn_option))
| GcFault.

(** [if (!vpninfo->ip_info.mtu) vpninfo->ip_info.mtu = calculate_mtu(vpninfo);] *)
Definition fill_in_mtu (so : sockdiag) (v : openconnect_info)
  : openconnect_info :=
  if v.(ip_info).(mtu) =? 0
  then set_ip_info (set_mtu (calculate_mtu v so)) v
  else v.

Definition gpst_get_config (v : openconnect_info) (e : getconfig_env)
  : gc_outcome :=
  let old_cstp_opts := v.(cstp_options) in
  let old_addr := v.(ip_info).(addr) in
  let old_netmask := v.(ip_info).(netmask) in
  (* the request body is built here; only its error flag is modelled *)
  if negb (e.(gc_buf_error) =? 0) then
    (* goto out *) GcRet e.(gc_buf_error) v [old_cstp_opts]
  else
  (* urlpath is saved, replaced for the request and restored *)
  let result := e.(gc_https_result) in
  if result <? 0 then (* goto pre_opt_out *) GcRet result v [] else
  (* parse getconfig result *)
  let '(result, v, _) :=
    gpst_xml_or_error v result e.(gc_reply)
      (Some (gpst_parse_config_xml e.(gc_now))) false in
  if negb (result =? 0) then GcRet result v [] else
  let v := fill_in_mtu e.(gc_diag) v in
  match v.(ip_info).(addr) with
  | None => (* goto out *) GcRet (- EINVAL) v [old_cstp_opts]
  | Some new_addr =>
      if match old_addr with
         | Some a => negb (CStr.streq a new_addr)
         | None => false
         end
      then GcRet (- EINVAL) v [old_cstp_opts]
      else
        match old_netmask with
        | None => GcRet result v [old_cstp_opts]
        | Some m =>
            match v.(ip_info).(netmask) with
            | None => GcFault
            | Some new_netmask =>
                if negb (CStr.streq m new_netmask)
                then GcRet (- EINVAL) v [old_cstp_opts]
                else GcRet result v [old_cstp_opts]
            end
        end
  end.

(* ------------------------------------------------------------------ *)
(** ** [gpst_connect] *)

Fixpoint bytes_eqb (a b : list byte) : bool :=
  match a, b with
  | [], [] => true
  | x :: a', y :: b' => Byte.eqb x y && bytes_eqb a' b'
  | _, _ => false
  end.

(** [const char start_tunnel[12]], not zero-terminated *)
Definition start_tunnel : list byte :=
  [ x53; x54; x41; x52; x54; x5f; x54; x55; x4e; x4e; x45; x4c ].

(** What the collaborators answer during [gpst_connect]:
    [openconnect_open_https], [buf_error(reqbuf)], [ssl_read(buf, 12)]
    (a negative errno, or the bytes it stored at [buf]) and [ssl_gets].
    [cn_stack] is what the 256 bytes of the automatic array [buf] hold
    when the function is entered: the array is not initialised. *)
Record connect_env : Type := mk_cn_env {
  cn_open_https : Z;
  cn_buf_error : Z;
  cn_ssl_read : rd_result;
  cn_ssl_gets : Z;
  cn_stack : list byte;
  cn_now : Z
}.

Inductive conn_event : Type :=
| CnOpenHttps
| CnSendRequest
| CnRead (n : Z)
| CnGets (n : Z)
| CnLogResponse (n : Z)
| CnCloseHttps
| CnMonitor.

(** [gpst_connect]: the return value, [vpninfo] afterwards and the calls
    made, oldest first. *)
Definition gpst_connect (v : openconnect_info) (e : connect_env)
  : Z * openconnect_info * list conn_event :=
  let ret := e.(cn_open_https) in
  if negb (ret =? 0) then (ret, v, [CnOpenHttps]) else
  let t := [CnOpenHttps] in
  let ret := e.(cn_buf_error) in
  if negb (ret =? 0) then (ret, v, t) else
  let t := t ++ [CnSendRequest; CnRead 12] in
  match e.(cn_ssl_read) with
  | Rd_err c =>
      if Z.neg c =? - EINTR then (Z.neg c, v, t) else (- EINVAL, v, t)
  | Rd_bytes got =>
      let ret := Z.of_nat (List.length got) in
      let buf := got ++ skipn (List.length got) e.(cn_stack) in
      let '(ret, t) :=
        if bytes_eqb (firstn 12 buf) start_tunnel then (0, t)
        else if ret =? 0 then (- EPIPE, t)
        else
          let '(n, t) :=
            if ret =? 12 then
              let g := e.(cn_ssl_gets) in
              ((if 0 <? g then g else 0) + 12, t ++ [CnGets (256 - 12)])
            else (ret, t) in
          (- EINVAL, t ++ [CnLogResponse n]) in
      if ret <? 0 then (ret, v, t ++ [CnCloseHttps])
      else
        let now := e.(cn_now) in
        (ret,
         set_ssl_times (fun k =>
           set_last_rekey now (set_last_rx now (set_last_tx now k))) v,
         t ++ [CnMonitor])
  end.

(** [gpst_setup] *)
Definition gpst_setup (v : openconnect_info) (ge : getconfig_env)
    (ce : connect_env) : option (Z * openconnect_info) :=
  match gpst_get_config v ge with
  | GcFault => None
  | GcRet ret v _ =>
      if negb (ret =? 0) then Some (ret, v)
      else let '(ret, v, _) := gpst_connect v ce in Some (ret, v)
  end.

(* ------------------------------------------------------------------ *)
(** ** The main loop: collaborators, state, control flow *)

Inductive ka_action : Type :=
| KA_NONE | KA_DPD | KA_DPD_DEAD | KA_KEEPALIVE | KA_REKEY.

(** The collaborators of [gpst_mainloop], as answers consumed in call
    order.  An exhausted script answers: no data to read, the whole buffer
    written, [KA_NONE], reconnect succeeded, allocation failed, time 0. *)
Record env : Type := mk_env {
  rd_script : list rd_result;        (* ssl_nonblock_read *)
  wr_script : list Z;                (* ssl_nonblock_write *)
  ka_script : list ka_action;        (* keepalive_action *)
  stall_script : list ka_action;     (* ka_stalled_action *)
  reconnect_script : list Z;         (* ssl_reconnect *)
  malloc_script : list (option Z);   (* malloc: NULL or an address *)
  clock : list Z                     (* time(NULL) *)
}.

(** What the loop does to the outside, newest event first. *)
Inductive event : Type :=
| EvDequeue (p : pkt)
| EvWrite (at_ : pkt_ptr) (bytes : list byte) (n : Z) (ret : Z)
| EvFree (at_ : pkt_ptr)
| EvReconnect (ret : Z).

(** [vpninfo], the collaborators, the events so far and the local
    [work_done] of one invocation. *)
Record lstate : Type := mk_lstate {
  vi : openconnect_info;
  ev : env;
  tr : list event;
  work_done : Z
}.

Definition upd_vi (f : openconnect_info -> openconnect_info) (s : lstate) :=
  mk_lstate (f s.(vi)) s.(ev) s.(tr) s.(work_done).
Definition set_ev (e : env) (s : lstate) :=
  mk_lstate s.(vi) e s.(tr) s.(work_done).
Definition log_ev (x : event) (s : lstate) :=
  mk_lstate s.(vi) s.(ev) (x :: s.(tr)) s.(work_done).
Definition set_work_done (w : Z) (s : lstate) :=
  mk_lstate s.(vi) s.(ev) s.(tr) w.

Definition set_rd_script (l : list rd_result) (e : env) :=
  mk_env l e.(wr_script) e.(ka_script) e.(stall_script)
    e.(reconnect_script) e.(malloc_script) e.(clock).
Definition set_wr_script (l : list Z) (e : env) :=
  mk_env e.(rd_script) l e.(ka_script) e.(stall_script)
    e.(reconnect_script) e.(malloc_script) e.(clock).
Definition set_ka_script (l : list ka_action) (e : env) :=
  mk_env e.(rd_script) e.(wr_script) l e.(stall_script)
    e.(reconnect_script) e.(malloc_script) e.(clock).
Definition set_stall_script (l : list ka_action) (e : env) :=
  mk_env e.(rd_script) e.(wr_script) e.(ka_script) l
    e.(reconnect_script) e.(malloc_script) e.(clock).
Definition set_reconnect_script (l : list Z) (e : env) :=
  mk_env e.(rd_script) e.(wr_script) e.(ka_script) e.(stall_script)
    l e.(malloc_script) e.(clock).
Definition set_malloc_script (l : list (option Z)) (e : env) :=
  mk_env e.(rd_script) e.(wr_script) e.(ka_script) e.(stall_script)
    e.(reconnect_script) l e.(clock).
Definition set_clock (l : list Z) (e : env) :=
  mk_env e.(rd_script) e.(wr_script) e.(ka_script) e.(stall_script)
    e.(reconnect_script) e.(malloc_script) l.

(** [time(NULL)] *)
Definition time (s : lstate) : Z * lstate :=
  (hd 0 s.(ev).(clock), set_ev (set_clock (tl s.(ev).(clock)) s.(ev)) s).

(** [keepalive_action(&vpninfo->ssl_times, timeout)] *)
Definition keepalive_action (s : lstate) : ka_action * lstate :=
  (hd KA_NONE s.(ev).(ka_script),
   set_ev (set_ka_script (tl s.(ev).(ka_script)) s.(ev)) s).

(** [ka_stalled_action(&vpninfo->ssl_times, timeout)] *)
Definition ka_stalled_action (s : lstate) : ka_action * lstate :=
  (hd KA_NONE s.(ev).(stall_script),
   set_ev (set_stall_script (tl s.(ev).(stall_script)) s.(ev)) s).

(** [ssl_nonblock_write(vpninfo, buf, n)]: the answer, logged with its
    arguments. *)
Definition ssl_nonblock_write (p : pkt) (s : lstate) : Z * lstate :=
  let n := p.(pkt_len) + 16 in
  let ret := hd n s.(ev).(wr_script) in
  (ret,
   log_ev (EvWrite p.(pkt_at) (frame_bytes p) n ret)
     (set_ev (set_wr_script (tl s.(ev).(wr_script)) s.(ev)) s)).

(** [ssl_reconnect(vpninfo)] lives in ssl.c; only its return value is
    modelled. *)
Definition ssl_reconnect (s : lstate) : Z * lstate :=
  let ret := hd 0 s.(ev).(reconnect_script) in
  (ret,
   log_ev (EvReconnect ret)
     (set_ev (set_reconnect_script (tl s.(ev).(reconnect_script)) s.(ev)) s)).

(** How an invocation ends: it returns [r], or it dereferences NULL, or
    the fuel of the model ran out (shown impossible below). *)
Inductive outcome : Type :=
| Ret (r : Z) (s : lstate)
| Fault
| OutOfFuel.

(** The [do_reconnect] label. *)
Definition do_reconnect (s : lstate) : outcome :=
  let '(ret, s) := ssl_reconnect s in
  if negb (ret =? 0) then
    Ret ret (upd_vi (set_quit_reason "GPST reconnect failed"%string) s)
  else Ret 1 s.

(** *** The receive loop *)

(** How one pass of the [while (1)] read loop ends. *)
Inductive rx_exit : Type :=
| RxBreak (s : lstate)          (* break: go on to the write path *)
| RxReconnect (s : lstate)      (* goto do_reconnect *)
| RxReturn (r : Z) (s : lstate) (* return r *)
| RxFault.                      (* NULL dereferenced *)

Inductive rx_step : Type :=
| RxContinue (s : lstate)
| RxExit (e : rx_exit).

(** The [unknown_pkt] label. *)
Definition unknown_pkt (s : lstate) : rx_step :=
  RxExit (RxReturn 1
    (upd_vi (set_quit_reason "Unknown packet received"%string) s)).

Definition stamp_last_rx (s : lstate) : lstate :=
  let '(t, s) := time s in
  upd_vi (set_ssl_times (set_last_rx t)) s.

(** The block [c] that [cstp_pkt] points to, after a read left [buf] at
    its header.  Bytes of the block past the last read are never looked
    at by gpst.c and are not kept. *)
Definition fill (c : pkt) (buf : list byte) : pkt :=
  mk_pkt c.(pkt_at) c.(pkt_len) (firstn 16 buf) (skipn 16 buf).

(** The body of the read loop after [ssl_nonblock_read] returned
    [len = length buf > 0] bytes into the block [c]. *)
Definition rx_frame (c : pkt) (buf : list byte) (s : lstate) : rx_step :=
  let s := upd_vi (set_cstp_pkt (Some (fill c buf))) s in
  match gpst_decode buf with
  | ShortFrame =>
      RxExit (RxReturn 1
        (upd_vi (set_quit_reason "Short packet received"%string) s))
  | MalformedFrame => unknown_pkt s
  | LengthMismatch => RxContinue s
  | Decoded Dpd _ _ => RxContinue (stamp_last_rx s)
  | Decoded Data _ anomaly =>
      let s := stamp_last_rx s in
      let p := mk_pkt c.(pkt_at) (load_header buf).(payload_len)
                 (firstn 16 buf) (skipn 16 buf) in
      let s := upd_vi (fun v =>
                 set_cstp_pkt None
                   (set_incoming_queue (v.(incoming_queue) ++ [p]) v)) s in
      let s := set_work_done 1 s in
      (* the hex dump of the anomaly reads vpninfo->cstp_pkt->gpst.hdr
         after cstp_pkt was set to NULL *)
      if anomaly then RxExit RxFault else RxContinue s
  | UnknownEthertype => unknown_pkt (stamp_last_rx s)
  end.

(** [if (!vpninfo->cstp_pkt) vpninfo->cstp_pkt = malloc(...)]: the block
    [cstp_pkt] points to afterwards, or [None] when the allocation
    failed. *)
Definition ensure_cstp_pkt (s : lstate) : option pkt * lstate :=
  match s.(vi).(cstp_pkt) with
  | Some c => (Some c, s)
  | None =>
      let s' := set_ev (set_malloc_script (tl s.(ev).(malloc_script)) s.(ev)) s in
      match hd None s.(ev).(malloc_script) with
      | None => (None, s')
      | Some a =>
          let c := mk_pkt (Heap a) 0 [] [] in
          (Some c, upd_vi (set_cstp_pkt (Some c)) s')
      end
  end.

Definition pop_read (rest : list rd_result) (s : lstate) : lstate :=
  set_ev (set_rd_script rest s.(ev)) s.

(** The read loop; every pass takes the next answer of
    [ssl_nonblock_read].  The call asks for at most
    [MAX(2048, mtu + 256) + 16] bytes, the size of the block; an answer
    is taken as given. *)
Fixpoint rx_loop (reads : list rd_result) (s : lstate) : rx_exit :=
  let '(block, s) := ensure_cstp_pkt s in
  match block with
  | None => RxBreak s
  | Some c =>
      match reads with
      | [] => RxBreak s
      | Rd_err _ :: rest => RxReconnect (pop_read rest s)
      | Rd_bytes buf :: rest =>
          let s := pop_read rest s in
          match buf with
          | [] => RxBreak s
          | _ :: _ =>
              match rx_frame c buf s with
              | RxContinue s => rx_loop rest s
              | RxExit e => e
              end
          end
      end
  end.

(** *** The write path *)

Definition is_dtls_connected (d : dtls_state_t) : bool :=
  match d with DTLS_CONNECTED => true | _ => false end.

(** "Service outgoing packet queue": the [while] whose body ends in
    [goto handle_outgoing]. *)
Definition service_queue (handle : lstate -> outcome) (s : lstate) : outcome :=
  if is_dtls_connected s.(vi).(dtls_state) then Ret s.(work_done) s
  else
    match s.(vi).(outgoing_queue) with
    | [] => Ret s.(work_done) (upd_vi (set_current_ssl_pkt None) s)
    | this :: q =>
        let this := stamp_header this in
        handle
          (log_ev (EvDequeue this)
            (upd_vi (fun v => set_current_ssl_pkt (Some this)
                                (set_outgoing_queue q v)) s))
    end.

(** [switch (keepalive_action(...))] and what follows it. *)
Definition ka_switch (handle : lstate -> outcome) (s : lstate) : outcome :=
  let '(a, s) := keepalive_action s in
  match a with
  | KA_REKEY => do_reconnect s
  | KA_DPD_DEAD => do_reconnect s
  | KA_KEEPALIVE =>
      if negb (is_dtls_connected s.(vi).(dtls_state))
         && match s.(vi).(outgoing_queue) with [] => false | _ => true end
      then service_queue handle s
      else handle (upd_vi (set_current_ssl_pkt (Some dpd_pkt)) s)
  | KA_DPD => handle (upd_vi (set_current_ssl_pkt (Some dpd_pkt)) s)
  | KA_NONE => service_queue handle s
  end.

(** The start of [handle_outgoing]: [last_tx] is stamped and the packet
    in the slot is handed to [ssl_nonblock_write], [len + 16] bytes from
    its header. *)
Definition write_current (p : pkt) (s : lstate) : Z * lstate :=
  let '(t, s) := time s in
  let s := upd_vi (set_ssl_times (set_last_tx t)) s in
  ssl_nonblock_write p s.

(** From the short-count test to the end of the
    [if (vpninfo->current_ssl_pkt)] block; [next] is the switch on the
    timer that follows the block. *)
Definition finish_write (next : lstate -> outcome) (p : pkt) (ret : Z)
    (s : lstate) : outcome :=
  if negb (ret =? p.(pkt_len) + 16) then
    Ret 1 (upd_vi (set_quit_reason "Internal error"%string) s)
  else
    (* Don't free the 'special' packets *)
    let s := if pkt_ptr_eqb p.(pkt_at) Static_dpd then s
             else log_ev (EvFree p.(pkt_at)) s in
    next (upd_vi (set_current_ssl_pkt None) s).

(** What follows the write: [ret < 0], the stalled case [ret == 0] with
    its own switch (any answer other than the three listed falls out of
    it), then the rest of the block. *)
Definition after_write (next : lstate -> outcome) (p : pkt) (ret : Z)
    (s : lstate) : outcome :=
  if ret <? 0 then do_reconnect s
  else if ret =? 0 then
    let '(a, s) := ka_stalled_action s in
    match a with
    | KA_REKEY => do_reconnect s
    | KA_DPD_DEAD => do_reconnect s
    | KA_NONE => Ret s.(work_done) s
    | _ => finish_write next p ret s
    end
  else finish_write next p ret s.

(** The [handle_outgoing] label, up to the end of the
    [if (vpninfo->current_ssl_pkt)] block, then the switch.  Reaching it
    with an empty slot would dereference NULL. *)
Fixpoint handle_outgoing (fuel : nat) (s : lstate) : outcome :=
  match fuel with
  | O => OutOfFuel
  | S fuel =>
      match s.(vi).(current_ssl_pkt) with
      | None => Fault
      | Some p =>
          let '(ret, s) := write_current p s in
          after_write (ka_switch (handle_outgoing fuel)) p ret s
      end
  end.

(** Enough fuel for any invocation: each further pass through
    [handle_outgoing] takes a timer answer or a queued packet. *)
Definition fuel_for (s : lstate) : nat :=
  S (List.length s.(ev).(ka_script) + List.length s.(vi).(outgoing_queue)).

Definition gpst_mainloop (s : lstate) : outcome :=
  let s := set_work_done 0 s in
  if s.(vi).(ssl_fd) =? -1 then do_reconnect s
  else
    match rx_loop s.(ev).(rd_script) s with
    | RxBreak s =>
        match s.(vi).(current_ssl_pkt) with
        | Some _ => handle_outgoing (fuel_for s) s
        | None => ka_switch (handle_outgoing (fuel_for s)) s
        end
    | RxReconnect s => do_reconnect s
    | RxReturn r s => Ret r s
    | RxFault => Fault
    end.

(* ------------------------------------------------------------------ *)
(** ** Concrete states used by the examples below *)

Module Sample.

Definition times0 : keepalive_info := mk_times 0 0 0 0 0 0 REKEY_NONE.

Definition ip0 : oc_ip_info :=
  mk_ip_info None None None None None 0 [None; None; None]
    [None; None; None] [] "192.0.2.1"%string.

(** A session before its first negotiation, the tunnel socket open. *)
Definition vpn0 : openconnect_info :=
  mk_vpninfo 5 ip0 [] times0 None None [] [] DTLS_DISABLED None
    (Some "/ssl-tunnel-connect.sslvpn"%string)
    "user=u&authcookie=c"%string "linux"%string 0 0 AF_INET false.

(** No scripted answers, except that the first allocation succeeds. *)
Definition env0 : env := mk_env [] [] [] [] [] [Some 4096] [].

(** Two queued outbound packets of two and three payload bytes. *)
Definition out1 : pkt := mk_pkt (Heap 100) 2 [] [x45; x00].
Definition out2 : pkt := mk_pkt (Heap 200) 3 [] [x45; x00; x01].

(** Both packets queued, nothing to read, every write complete, the timer
    quiet. *)
Definition s_two : lstate :=
  mk_lstate (set_outgoing_queue [out1; out2] vpn0) env0 [] 0.

(** Where that invocation leaves the session. *)
Definition s_two_done : lstate :=
  Eval vm_compute in
    match gpst_mainloop s_two with Ret _ s' => s' | _ => s_two end.


(** A 16-byte frame with EtherType 0x86dd and no payload. *)
Definition frame_86dd : list byte :=
  [ x1a; x2b; x3c; x4d; x86; xdd; x00; x00;
    x01; x00; x00; x00; x00; x00; x00; x00 ].

Definition rx_block : pkt := mk_pkt (Heap 4096) 0 [] [].

(** A tunnel handshake in which [ssl_read] returns 0 while the bytes
    that happen to lie in the automatic array [buf] are those of an
    earlier successful handshake. *)
Definition cn_stale : connect_env :=
  mk_cn_env 0 0 (Rd_bytes []) 0 (start_tunnel ++ repeat x00 244) 1000.

(** A handshake answered by the twelve expected bytes. *)
Definition cn_good : connect_env :=
  mk_cn_env 0 0 (Rd_bytes start_tunnel) 0 (repeat x00 256) 1000.

(** Elements of a getconfig response. *)
Definition text_node (name text : string) : xmlNode :=
  XmlNode name [] (Some text) [XmlNode "text" [] (Some text) []].

Definition response_of (children : list xmlNode) : xmlNode :=
  XmlNode "response" [] None children.

Definition gc_env_of (root : xmlNode) : getconfig_env :=
  mk_gc_env 0 100 (mk_reply (Some "<response>...</response>"%string)
                            (Some root))
    no_diag 1000.

(** A first negotiation whose response carries an address but no
    netmask, and the session it leaves behind. *)
Definition addr_only : xmlNode :=
  response_of [text_node "ip-address" "10.0.0.2"; text_node "mtu" "1400"].

Definition vpn_addr_only : openconnect_info :=
  Eval vm_compute in
    match gpst_get_config vpn0 (gc_env_of addr_only) with
    | GcRet _ v _ => v
    | GcFault => vpn0
    end.

(** A full response: the same address, a netmask and two access routes. *)
Definition full_config : xmlNode :=
  response_of
    [ text_node "ip-address" "10.0.0.2";
      text_node "netmask" "255.255.255.0";
      text_node "mtu" "1400";
      XmlNode "access-routes" [] (Some "10.0.0.0/8192.168.0.0/16"%string)
        [ text_node "member" "10.0.0.0/8";
          text_node "member" "192.168.0.0/16" ] ].

Definition vpn_full : openconnect_info :=
  Eval vm_compute in
    match gpst_get_config vpn0 (gc_env_of full_config) with
    | GcRet _ v _ => v
    | GcFault => vpn0
    end.


End Sample.

(* ------------------------------------------------------------------ *)
(** ** Vocabulary of the statements *)

(** The measure that bounds the passes through [handle_outgoing]. *)
Definition budget (s : lstate) : nat :=
  (List.length s.(ev).(ka_script) + List.length s.(vi).(outgoing_queue))%nat.

(** The [quit_reason] of the [unknown_pkt] label. *)
Definition unknown_reason : option string :=
  Some "Unknown packet received"%string.

(** The packets taken off the outbound queue, newest first. *)
Fixpoint dequeued (t : list event) : list pkt :=
  match t with
  | EvDequeue p :: r => p :: dequeued r
  | _ :: r => dequeued r
  | [] => []
  end.

(** The writes that returned the full length asked for. *)
Fixpoint full_writes (t : list event) : nat :=
  match t with
  | EvWrite _ _ n ret :: r =>
      ((if Z.eqb ret n then 1 else 0) + full_writes r)%nat
  | _ :: r => full_writes r
  | [] => O
  end.

(** The write call made for the packet [p]. *)
Definition write_of (p : pkt) (ret : Z) : event :=
  EvWrite (pkt_at p) (frame_bytes p) (pkt_len p + 16) ret.

(** A quiet write side: the timer has nothing to ask for, every write
    completes, the data path is the TLS stream, and the queued packets
    have a length that is not negative. *)
Definition quiet (s : lstate) : Prop :=
  ka_script (ev s) = []
  /\ wr_script (ev s) = []
  /\ is_dtls_connected (dtls_state (vi s)) = false
  /\ Forall (fun p => 0 <= pkt_len p) (outgoing_queue (vi s)).

(** The invocation ends in a return. *)
Definition returns (o : outcome) : Prop := exists r s', o = Ret r s'.

(** Only white space. *)
Definition all_space (l : list ascii) : Prop := forallb CStr.isspace l = true.

(** No newline byte. *)
Definition no_newline (l : list ascii) : Prop :=
  forallb (fun x => negb (Ascii.eqb x Js.newline)) l = true.

(** Empty, or starting with a byte that is not white space. *)
Definition starts_clean (l : list ascii) : Prop :=
  match l with [] => True | c :: _ => CStr.isspace c = false end.

(** The end of every well-formed line: quote, semicolon, newline. *)
Definition eol : list ascii := [Js.dquote; Js.semicolon; Js.newline].

(** A body whose first two lines are a well-formed [Error] status line
    and a well-formed [respMsg] line, followed by [tail]. *)
Definition error_body (ws0 ws1 msg tail : list ascii) : list ascii :=
  ws0 ++ Js.pre_status ++ Js.chars "Error" ++ eol
      ++ ws1 ++ Js.pre_prompt ++ msg ++ eol ++ tail.

(** The three timestamps set to [now]. *)
Definition stamp_all (now : Z) (v : openconnect_info) : openconnect_info :=
  set_ssl_times (fun k =>
    set_last_rekey now (set_last_rx now (set_last_tx now k))) v.

(** The text of the [<member>] children, in document order. *)
Definition member_texts (members : list xmlNode) : list string :=
  flat_map (fun m => match xmlnode_get_text m "member" with
                     | Ok s => [s]
                     | Err _ => []
                     end) members.

(** The members of the [<access-routes>] children of the response, in
    document order. *)
Definition access_route_members (root : xmlNode) : list string :=
  flat_map (fun n => if xmlnode_is_named n "access-routes"
                     then member_texts (node_children n) else [])
           (node_children root).

(** The split-include list, read from its head. *)
Definition routes (v : openconnect_info) : list string :=
  split_includes (ip_info v).

(** The classifier as [gpst_get_config] calls it. *)
Definition classify (v : openconnect_info) (e : getconfig_env)
  : Z * openconnect_info * option (list ascii * list ascii) :=
  gpst_xml_or_error v (gc_https_result e) (gc_reply e)
    (Some (gpst_parse_config_xml (gc_now e))) false.

(** A call of [ssl_reconnect]. *)
Definition is_reconnect (x : event) : Prop := exists r, x = EvReconnect r.

(** The order of the write side, on the events of an invocation in the
    order they happened: a packet taken off the queue is written next,
    from its own block, with its own bytes and its length [len + 16];
    and after a write that did not return the length asked for, the
    only thing that can still happen is a reconnect. *)
Fixpoint orderly (l : list event) : Prop :=
  match l with
  | [] => True
  | EvDequeue q :: rest =>
      (exists ret rest', rest = write_of q ret :: rest') /\ orderly rest
  | EvWrite _ _ n ret :: rest =>
      (ret <> n -> Forall is_reconnect rest) /\ orderly rest
  | _ :: rest => orderly rest
  end.

(** What sending one queued packet does, in the order it happens: the
    packet is dequeued (its header stamped), written in full, and its
    block freed (the [dpd_pkt] sentinel is not freed). *)
Definition sent_events (p : pkt) : list event :=
  [EvDequeue p; write_of p (pkt_len p + 16)]
  ++ (if pkt_ptr_eqb (pkt_at p) Static_dpd then []
      else [EvFree (pkt_at p)]).

From Stdlib Require Import Permutation.

(* ------------------------------------------------------------------ *)
(** ** [struct oc_text_buf] and [filter_opts] *)

Module TextBuf.

(** Modelled from the spec: [struct oc_text_buf] and its functions
    ([buf_append], [buf_append_bytes], [buf_error]) are declared in
    openconnect-internal.h, which is not part of src/.  A buffer is the
    text written so far ([data[0 .. pos)]) and an error code; once the
    error code is set, appending does nothing.  Growing the buffer is
    taken to succeed, so a buffer without error stays without error;
    the statements below are about such buffers. *)
Record oc_text_buf : Type := mk_buf {
  buf_data : list ascii;
  buf_err : Z
}.

Definition buf_append_bytes (b : oc_text_buf) (bytes : list ascii)
  : oc_text_buf :=
  if b.(buf_err) =? 0 then mk_buf (b.(buf_data) ++ bytes) 0 else b.

Definition buf_error (b : oc_text_buf) : Z := b.(buf_err).

End TextBuf.

Module FilterOpts.
Import TextBuf.

Definition amp : ascii := ascii_of_nat 38.
Definition eq_sign : ascii := ascii_of_nat 61.
Definition comma : ascii := ascii_of_nat 44.
Definition qmark : ascii := ascii_of_nat 63.

(** [strchr(p, c)] as an offset from [p]; [None] is NULL. *)
Fixpoint index_of (c : ascii) (p : list ascii) : option nat :=
  match p with
  | [] => None
  | x :: r => if Ascii.eqb x c then Some O
              else option_map S (index_of c r)
  end.

(** [strchr(p, c) ?: p + strlen(p)] as an offset from [p]. *)
Definition span_to (c : ascii) (p : list ascii) : nat :=
  match index_of c p with
  | Some i => i
  | None => List.length p
  end.

(** The pointer after a separator found at offset [i]:
    [( *sep ) ? sep + 1 : sep]. *)
Definition step_over (i : nat) (p : list ascii) : list ascii :=
  match skipn i p with
  | [] => []
  | _ :: r => r
  end.

(** The inner loop over the comma-separated names of [incexc]: where
    [found] points when the loop ends (at the NUL when no name matched).
    [keylen] is [eq - f].  One unit of [fuel] per pass; [None] when the
    fuel is used up. *)
Fixpoint find_name (fuel : nat) (found f : list ascii) (keylen : nat)
  : option (list ascii) :=
  match fuel with
  | O => None
  | S fuel =>
      match found with
      | [] => Some []
      | _ :: _ =>
          let comma_at := span_to comma found in
          if CStr.strncmp0 found f (Nat.max comma_at keylen)
          then Some found
          else find_name fuel (step_over comma_at found) f keylen
      end
  end.

(** [eq - f]: the offset of the first '=' of the field, or of the end of
    the field when there is none before it. *)
Definition key_length (f : list ascii) : nat :=
  let endf := span_to amp f in
  match index_of eq_sign f with
  | Some eq => if Nat.ltb endf eq then endf else eq
  | None => endf
  end.

(** The test before [buf_append(buf, "&")]: the buffer is not empty and
    its last byte is neither '?' nor '&'. *)
Definition wants_separator (b : oc_text_buf) : bool :=
  match rev b.(buf_data) with
  | [] => false
  | c :: _ => negb (Ascii.eqb c qmark) && negb (Ascii.eqb c amp)
  end.

(** What is done with a field that is kept: the separator if it is
    wanted, then the [endf - f] bytes of the field. *)
Definition emit (b : oc_text_buf) (field : list ascii) : oc_text_buf :=
  let b := if wants_separator b then buf_append_bytes b [amp] else b in
  buf_append_bytes b field.

(** The outer loop over the '&'-separated fields of the query, from the
    field at [f] on. *)
Fixpoint filter_loop (fuel : nat) (incexc : list ascii) (include : Z)
    (f : list ascii) (buf : oc_text_buf) : option oc_text_buf :=
  match fuel with
  | O => None
  | S fuel =>
      match f with
      | [] => Some buf
      | _ :: _ =>
          let endf := span_to amp f in
          let eq := key_length f in
          match find_name (S (List.length incexc)) incexc f eq with
          | None => None
          | Some found =>
              let hit := match found with [] => false | _ :: _ => true end in
              let inc := negb (include =? 0) in
              let buf := if (inc && hit) || (negb inc && negb hit)
                         then emit buf (firstn endf f) else buf in
              filter_loop fuel incexc include (step_over endf f) buf
          end
      end
  end.

(** [filter_opts(buf, query, incexc, include)]: the return value and the
    buffer afterwards. *)
Definition filter_opts (buf : oc_text_buf) (query incexc : list ascii)
    (include : Z) : option (Z * oc_text_buf) :=
  match filter_loop (S (List.length query)) incexc include query buf with
  | Some b => Some (buf_error b, b)
  | None => None
  end.

(** The request [gpst_connect] builds in [reqbuf]: the GET line with the
    [user] and [authcookie] fields of the cookie, and the blank line. *)
Definition tunnel_request (path cookie : string) : option (Z * oc_text_buf) :=
  let reqbuf := mk_buf [] 0 in
  let reqbuf := buf_append_bytes reqbuf
                  (list_ascii_of_string ("GET " ++ path ++ "?")) in
  match filter_opts reqbuf (list_ascii_of_string cookie)
          (list_ascii_of_string "user,authcookie") 1 with
  | None => None
  | Some (_, reqbuf) =>
      let reqbuf := buf_append_bytes reqbuf
                      (list_ascii_of_string " HTTP/1.1"
                         ++ [ascii_of_nat 13; ascii_of_nat 10;
                             ascii_of_nat 13; ascii_of_nat 10]) in
      Some (buf_error reqbuf, reqbuf)
  end.

End FilterOpts.

(* ------------------------------------------------------------------ *)
(** ** Vocabulary of the further properties *)

(** Texts joined by a separator byte. *)
Fixpoint intercalate (sep : ascii) (l : list (list ascii)) : list ascii :=
  match l with
  | [] => []
  | x :: r => match r with
              | [] => x
              | _ :: _ => x ++ sep :: intercalate sep r
              end
  end.

(** Equality of two texts, as a boolean. *)
Fixpoint text_eqb (a b : list ascii) : bool :=
  match a, b with
  | [], [] => true
  | x :: a', y :: b' => Ascii.eqb x y && text_eqb a' b'
  | _, _ => false
  end.

(** The key of a field [k=v] or [k]: the text before the first '='. *)
Definition key_of (field : list ascii) : list ascii :=
  firstn (FilterOpts.span_to FilterOpts.eq_sign field) field.

(** The key is one of the names. *)
Definition in_names (key : list ascii) (names : list (list ascii)) : bool :=
  existsb (text_eqb key) names.

(** A field of a well-formed query: not empty, no '&' inside, no ','
    in its key. *)
Definition plain_field (field : list ascii) : Prop :=
  field <> [] /\ ~ In FilterOpts.amp field
  /\ ~ In FilterOpts.comma (key_of field).

(** The field is not empty and its last byte is neither '?' nor '&'. *)
Definition ends_plain (field : list ascii) : Prop :=
  match rev field with
  | [] => False
  | c :: _ => c <> FilterOpts.qmark /\ c <> FilterOpts.amp
  end.

(** A name of the include/exclude list: not empty, free of ',' '=' '&'. *)
Definition plain_name (n : list ascii) : Prop :=
  n <> [] /\ ~ In FilterOpts.comma n /\ ~ In FilterOpts.eq_sign n
  /\ ~ In FilterOpts.amp n.

(** Whether [filter_opts] keeps a field with this key. *)
Definition keeps (names : list (list ascii)) (include : Z)
    (field : list ascii) : bool :=
  Bool.eqb (in_names (key_of field) names) (negb (include =? 0)).

(** What a run of kept fields adds to a buffer: nothing for no field,
    else the separator if the buffer wants one and the fields joined by
    '&'. *)
Definition joined (b : TextBuf.oc_text_buf) (kept : list (list ascii))
  : list ascii :=
  match kept with
  | [] => []
  | _ :: _ =>
      (if FilterOpts.wants_separator b then [FilterOpts.amp] else [])
        ++ intercalate FilterOpts.amp kept
  end.

(** What may follow a key inside its query: the end, or '=' or '&'. *)
Definition key_tail (t : list ascii) : Prop :=
  match t with
  | [] => True
  | c :: _ => c = FilterOpts.eq_sign \/ c = FilterOpts.amp
  end.

(** What may follow a name inside the name list: the end, or ','. *)
Definition name_tail (t : list ascii) : Prop :=
  match t with [] => True | c :: _ => c = FilterOpts.comma end.

(** The names [gpst_connect] asks [filter_opts] to keep. *)
Definition tunnel_names : list (list ascii) :=
  [list_ascii_of_string "user"; list_ascii_of_string "authcookie"].

(** The end of the request: the protocol version and the blank line. *)
Definition request_end : list ascii :=
  list_ascii_of_string " HTTP/1.1"
    ++ [ascii_of_nat 13; ascii_of_nat 10; ascii_of_nat 13; ascii_of_nat 10].

(** A body of three well-formed lines: the status word [st], the prompt
    [msg] and the input string [inp], each between its prefix and the
    line end, with white space [ws0] .. [ws3] around the lines. *)
Definition three_lines (ws0 st ws1 msg ws2 inp ws3 : list ascii)
  : list ascii :=
  ws0 ++ Js.pre_status ++ st ++ eol
      ++ ws1 ++ Js.pre_prompt ++ msg ++ eol
      ++ ws2 ++ Js.pre_inputStr ++ inp ++ eol ++ ws3.

(** The status a status word stands for: 0 when its first eight bytes
    are [Challeng], else 1 when its first five bytes are [Error]. *)
Definition status_of (st : list ascii) : option Z :=
  if text_eqb (firstn 8 st) (Js.chars "Challeng") then Some 0
  else if text_eqb (firstn 5 st) (Js.chars "Error") then Some 1
  else None.

(** The white space of a three-line body is white space, and no value
    holds a newline. *)
Definition clean_lines (ws0 st ws1 msg ws2 inp ws3 : list ascii) : Prop :=
  all_space ws0 /\ all_space ws1 /\ all_space ws2 /\ all_space ws3
  /\ no_newline st /\ no_newline msg /\ no_newline inp.

(** A reply that is no XML document: a body of three lines. *)
Definition script_reply (ws0 st ws1 msg ws2 inp ws3 : list ascii) : reply :=
  mk_reply
    (Some (string_of_list_ascii (three_lines ws0 st ws1 msg ws2 inp ws3)))
    None.

(** An error response: the root is [<response status="error">]. *)
Definition is_error_response (root : xmlNode) : Prop :=
  xmlnode_is_named root "response" = true
  /\ xmlnode_match_prop root "status" "error" = 0.

(** The first value that is not 0; 0 when there is none. *)
Fixpoint first_nonzero (l : list Z) : Z :=
  match l with
  | [] => 0
  | x :: r => if x =? 0 then first_nonzero r else x
  end.

(** The sources of the base MTU, in the order the estimator consults
    them: the configured value, the path MTU and the smaller MSS less 13
    of [TCP_INFO] when that call answers, the [TCP_MAXSEG] value less 13
    when that call answers, and the default. *)
Definition base_mtu_sources (v : openconnect_info) (so : sockdiag) : list Z :=
  [basemtu v]
  ++ match so_tcp_info so with
     | Some ti =>
         [to_int (tcpi_pmtu ti);
          to_int (Z.min (tcpi_rcv_mss ti) (tcpi_snd_mss ti) - 13)]
     | None => []
     end
  ++ match so_maxseg so with
     | Some mss => [to_int (mss - 13)]
     | None => []
     end
  ++ [1406].

(** The invariant behind the comment on [add_option]: [oc_ip_info]
    holds copies of pointers into the option list.  Every string of
    [ip_info] that the config callback can set is the value of an option
    of the list, under the name the callback uses for it. *)
Definition has_option (v : openconnect_info) (opt val : string) : Prop :=
  In (mk_opt opt val) (cstp_options v).

Definition backed_by_options (v : openconnect_info) : Prop :=
  (forall s, addr (ip_info v) = Some s -> has_option v "ipaddr" s)
  /\ (forall s, netmask (ip_info v) = Some s -> has_option v "netmask" s)
  /\ (forall s, domain (ip_info v) = Some s -> has_option v "search" s)
  /\ (forall s, In (Some s) (dns (ip_info v)) -> has_option v "DNS" s)
  /\ (forall s, In (Some s) (nbns (ip_info v)) -> has_option v "WINS" s)
  /\ (forall s, In s (split_includes (ip_info v)) ->
                has_option v "split-include" s).

(** At most three texts in three slots, the rest empty. *)
Definition three_slots (texts : list string) : list (option string) :=
  match texts with
  | [] => [None; None; None]
  | [a] => [Some a; None; None]
  | [a; b] => [Some a; Some b; None]
  | a :: b :: c :: _ => [Some a; Some b; Some c]
  end.

(** The children of the response other than [n] are not named [name]. *)
Definition only_child_named (name : string) (pre : list xmlNode)
    (post : list xmlNode) : Prop :=
  Forall (fun m => xmlnode_is_named m name = false) (pre ++ post).

(** Texts written into the slots of a C array from index [ii] on, while
    the index is below [limit]. *)
Fixpoint fill_slots (limit ii : nat) (texts : list string)
    (a : list (option string)) : list (option string) :=
  match texts with
  | [] => a
  | t :: r => if Nat.ltb ii limit
              then fill_slots limit (S ii) r (set_slot ii (Some t) a)
              else a
  end.

(** The block the read loop reads into: the one [cstp_pkt] points to,
    or a new one when [malloc] succeeds. *)
Definition receive_block (s : lstate) : option pkt :=
  match cstp_pkt (vi s) with
  | Some c => Some c
  | None =>
      match hd None (malloc_script (ev s)) with
      | Some a => Some (mk_pkt (Heap a) 0 [] [])
      | None => None
      end
  end.

(** What [ssl_reconnect] will answer. *)
Definition reconnect_answer (s : lstate) : Z :=
  hd 0 (reconnect_script (ev s)).


(** What the write side of an invocation, started in [s] and returning
    [r] in [s'], leaves alone: the inbound queue and the receive block;
    it returns 0 only when [work_done] was 0; and the events it adds
    never include a [free] of the [dpd_pkt] sentinel. *)
Definition write_side_step (s : lstate) (r : Z) (s' : lstate) : Prop :=
  incoming_queue (vi s') = incoming_queue (vi s)
  /\ (r = 0 -> work_done s = 0)
  /\ exists l, tr s' = l ++ tr s /\ ~ In (EvFree Static_dpd) l.

(** The sixteen bytes of a DPD/keepalive request. *)
Definition dpd_request : list byte :=
  [ x1a; x2b; x3c; x4d; x00; x00; x00; x00;
    x00; x00; x00; x00; x00; x00; x00; x00 ].

(** An empty buffer without error, as [buf_alloc] returns it. *)
Definition empty_buf : TextBuf.oc_text_buf := TextBuf.mk_buf [] 0.

(** The text of the last of [children] that is named [name] and has
    text; [None] when there is none. *)
Definition last_text (name : string) (children : list xmlNode)
  : option string :=
  fold_left (fun acc n => match xmlnode_get_text n name with
                          | Ok s => Some s
                          | Err _ => acc
                          end) children None.

(** The MTU a response asks for: [atoi] of its last [<mtu>] text, 0 when
    it has none. *)
Definition last_mtu (children : list xmlNode) : Z :=
  match last_text "mtu" children with
  | Some s => atoi s
  | None => 0
  end.

(** What a negotiation hands to the caller, the MTU apart: the address,
    the netmask, the search domain, the DNS and WINS servers, the
    split-include routes and the option list. *)
Definition negotiated (v : openconnect_info) :=
  (addr (ip_info v), netmask (ip_info v), domain (ip_info v),
   dns (ip_info v), nbns (ip_info v), split_includes (ip_info v),
   cstp_options v).

(** The reply is a [<response>] document that is not an error response:
    the one the classifier hands to the config callback, which accepts
    it. *)
Definition config_document (e : getconfig_env) (root : xmlNode) : Prop :=
  0 <= gc_https_result e
  /\ (exists body, response (gc_reply e) = Some body)
  /\ xml_doc (gc_reply e) = Some root
  /\ xmlnode_is_named root "response" = true
  /\ xmlnode_match_prop root "status" "error" <> 0.



(* ================================================================== *)
(** * Properties *)

(* ------------------------------------------------------------------ *)
(** ** Header accessors *)

Module WireFacts.

Lemma Z_of_byte_range (b : byte) : 0 <= Z_of_byte b < 256.
Proof.
  unfold Z_of_byte. pose proof (Byte.to_N_bounded b) as H.
  split; [apply N2Z.is_nonneg|]. lia.
Qed.

Lemma Z_of_byte_of_Z (z : Z) : Z_of_byte (byte_of_Z z) = z mod 256.
Proof.
  unfold Z_of_byte, byte_of_Z.
  assert (Hr : 0 <= z mod 256 < 256) by (apply Z.mod_pos_bound; lia).
  destruct (Byte.of_N (Z.to_N (z mod 256))) as [b|] eqn:E.
  - apply Byte.to_of_N in E. rewrite E. rewrite Z2N.id; lia.
  - apply Byte.of_N_None_iff in E. lia.
Qed.

Lemma byte_of_Z_of_byte (b : byte) : byte_of_Z (Z_of_byte b) = b.
Proof.
  unfold byte_of_Z. pose proof (Z_of_byte_range b) as Hr.
  rewrite Z.mod_small by exact Hr.
  unfold Z_of_byte. rewrite N2Z.id, Byte.of_to_N. reflexivity.
Qed.

Lemma lor_shiftl_low (hi lo k : Z) :
  0 <= k -> 0 <= lo < 2 ^ k ->
  Z.lor (Z.shiftl hi k) lo = hi * 2 ^ k + lo.
Proof.
  intros Hk Hlo.
  pose proof (Z.add_lor_land (Z.shiftl hi k) lo) as H.
  assert (H0 : Z.land (Z.shiftl hi k) lo = 0).
  { apply Z.bits_inj'. intros n Hn. rewrite Z.land_spec, Z.bits_0.
    destruct (Z.ltb_spec n k).
    - rewrite Z.shiftl_spec_low by lia. reflexivity.
    - rewrite <- (Z.mod_small lo (2 ^ k)) by exact Hlo.
      rewrite Z.mod_pow2_bits_high by lia. apply andb_false_r. }
  rewrite H0 in H. rewrite <- Z.shiftl_mul_pow2 by lia. lia.
Qed.

(** A 16-bit value survives [store_be16] followed by [load_be16]. *)
Lemma load_store_be16 (d : Z) :
  0 <= d < 65536 -> load_be16 (store_be16 d) = d.
Proof.
  intros Hd. unfold load_be16, store_be16, byte_at. cbn [nth].
  rewrite !Z_of_byte_of_Z.
  rewrite lor_shiftl_low by (try lia; apply Z.mod_pos_bound; lia).
  rewrite Z.shiftr_div_pow2 by lia. change (2 ^ 8) with 256.
  rewrite (Z.mod_small (d / 256))
    by (split; [apply Z.div_pos; lia | apply Z.div_lt_upper_bound; lia]).
  pose proof (Z.div_mod d 256). lia.
Qed.

End WireFacts.

Import WireFacts.

(* ------------------------------------------------------------------ *)
(** ** Frame codec: properties *)

Section FrameCodec.

Lemma spec_encode_length (k : frame_kind) (p : list byte) :
  List.length (spec_encode k p) = (16 + List.length p)%nat.
Proof. reflexivity. Qed.

Lemma spec_encode_header (k : frame_kind) (p : list byte) :
  Z.of_nat (List.length p) <= 65535 ->
  load_header (spec_encode k p) =
    mk_hdr GPST_MAGIC (match k with Data => ETH_IPV4 | Dpd => 0 end)
           (Z.of_nat (List.length p))
           (match k with Data => 1 | Dpd => 0 end) 0.
Proof.
  intros Hp. unfold load_header, spec_encode.
  assert (Hlen : load_be16 (skipn 6
            (store_be32 GPST_MAGIC
               ++ store_be16 (match k with Data => ETH_IPV4 | Dpd => 0 end)
               ++ store_be16 (Z.of_nat (List.length p))
               ++ store_le32 (match k with Data => 1 | Dpd => 0 end)
               ++ store_le32 0 ++ p)) = Z.of_nat (List.length p)).
  { rewrite <- (load_store_be16 (Z.of_nat (List.length p))) at 2 by lia.
    destruct k; reflexivity. }
  rewrite Hlen. destruct k; reflexivity.
Qed.

(** What the main loop sends for a queued packet is the specification's
    data frame. *)
Lemma encode_data (a : pkt_ptr) (h p : list byte) :
  frame_bytes (stamp_header (mk_pkt a (Z.of_nat (List.length p)) h p))
  = spec_encode Data p.
Proof.
  unfold frame_bytes, stamp_header, spec_encode. cbn [pkt_len pkt_hdr pkt_data].
  replace (Z.to_nat (Z.of_nat (List.length p) + 16))
    with (16 + List.length p)%nat by lia.
  rewrite <- !app_assoc.
  cbn [store_be32 store_be16 store_le32 app Nat.add firstn].
  rewrite firstn_all. reflexivity.
Qed.

(** The DPD sentinel is the specification's DPD frame with no payload. *)
Lemma encode_dpd : frame_bytes dpd_pkt = spec_encode Dpd [].
Proof. reflexivity. Qed.

End FrameCodec.

(** What the receive loop does with a frame that decodes cleanly: a data
    frame is queued inbound with [len = payload_len] and the payload, a
    DPD frame is only noted; both stamp [last_rx]. *)
Lemma rx_frame_decoded (c : pkt) (buf : list byte) (s : lstate)
    (k : frame_kind) (payload : list byte) :
  gpst_decode buf = Decoded k payload false ->
  exists s',
    rx_frame c buf s = RxContinue s'
    /\ last_rx (ssl_times (vi s')) = hd 0 (clock (ev s))
    /\ incoming_queue (vi s')
       = incoming_queue (vi s)
         ++ match k with
            | Data => [mk_pkt (pkt_at c) (payload_len (load_header buf))
                         (firstn 16 buf) (skipn 16 buf)]
            | Dpd => []
            end
    /\ work_done s' = match k with Data => 1 | Dpd => work_done s end.
Proof.
  intros Hd. unfold rx_frame. rewrite Hd.
  destruct k; eexists; (split; [reflexivity|]); cbn;
    repeat split; try reflexivity.
  symmetry. apply app_nil_r.
Qed.

(** C1. Frame round-trip: for either kind and every payload of at most
    65535 bytes, the receive loop's header checks applied to the encoded
    frame accept it, recognise the kind, see no anomaly in the trailing
    words and find exactly the payload after the header.  The encoded
    frame is what the main loop writes: the stamped header for a queued
    data packet, the [dpd_pkt] sentinel for DPD with no payload.  In the
    loop, the decoded data frame is queued inbound with that length and
    that payload; the decoded DPD frame queues nothing. *)
Theorem frame_round_trip (k : frame_kind) (p : list byte) :
  Z.of_nat (List.length p) <= 65535 ->
  gpst_decode (spec_encode k p) = Decoded k p false
  /\ (k = Data -> forall a h,
        frame_bytes (stamp_header (mk_pkt a (Z.of_nat (List.length p)) h p))
        = spec_encode k p)
  /\ (k = Dpd -> p = [] -> frame_bytes dpd_pkt = spec_encode k p)
  /\ (forall c s, exists s',
        rx_frame c (spec_encode k p) s = RxContinue s'
        /\ last_rx (ssl_times (vi s')) = hd 0 (clock (ev s))
        /\ incoming_queue (vi s')
           = incoming_queue (vi s)
             ++ match k with
                | Data => [mk_pkt (pkt_at c) (Z.of_nat (List.length p))
                             (firstn 16 (spec_encode k p)) p]
                | Dpd => []
                end).
Proof.
  intros Hp.
  assert (Hdec : gpst_decode (spec_encode k p) = Decoded k p false).
  { unfold gpst_decode.
    rewrite spec_encode_header by exact Hp.
    rewrite spec_encode_length. cbn [magic ethertype payload_len one zero].
    replace (Z.of_nat (16 + List.length p) <? 16) with false
      by (symmetry; apply Z.ltb_ge; lia).
    replace (Z.of_nat (16 + List.length p) =? 16 + Z.of_nat (List.length p))
      with true by (symmetry; apply Z.eqb_eq; lia).
    destruct k; reflexivity. }
  split; [exact Hdec|]. split; [|split].
  - intros -> a h. apply encode_data.
  - intros -> ->. apply encode_dpd.
  - intros c s.
    destruct (rx_frame_decoded c (spec_encode k p) s k p Hdec)
      as (s' & E & T & Q & _).
    exists s'. split; [exact E|]. split; [exact T|].
    rewrite Q, (spec_encode_header k p Hp). cbn [payload_len].
    destruct k; reflexivity.
Qed.

Lemma frame_round_trip_witness :
  gpst_decode (spec_encode Data [x45; x00]) = Decoded Data [x45; x00] false.
Proof.
  refine (proj1 (frame_round_trip Data [x45; x00] _)).
  vm_compute. discriminate.
Defined.

(* ------------------------------------------------------------------ *)
(** ** Main loop: termination of the model *)

Section LoopFuel.

Lemma do_reconnect_ends (s : lstate) : do_reconnect s <> OutOfFuel.
Proof.
  unfold do_reconnect, ssl_reconnect.
  destruct (negb _); discriminate.
Qed.

Lemma service_queue_ends (handle : lstate -> outcome) (s : lstate) :
  (forall s', (budget s' < budget s)%nat -> handle s' <> OutOfFuel) ->
  service_queue handle s <> OutOfFuel.
Proof.
  intros H. unfold service_queue.
  destruct (is_dtls_connected _); [discriminate|].
  destruct (outgoing_queue (vi s)) as [|this q] eqn:E; [discriminate|].
  apply H. unfold budget. cbn. rewrite E. cbn. lia.
Qed.

Lemma ka_switch_ends (handle : lstate -> outcome) (s : lstate) :
  (forall s', (budget s' < budget s)%nat -> handle s' <> OutOfFuel) ->
  ka_switch handle s <> OutOfFuel.
Proof.
  intros H. unfold ka_switch, keepalive_action.
  destruct (ka_script (ev s)) as [|a rest] eqn:E; cbn [hd tl].
  - apply service_queue_ends. intros s' Hs'. apply H.
    unfold budget in *. cbn in Hs'. rewrite E. cbn. exact Hs'.
  - assert (Hlt : forall s', (budget s' <=
        budget (set_ev (set_ka_script rest (ev s)) s))%nat ->
        handle s' <> OutOfFuel).
    { intros s' Hs'. apply H. unfold budget in *. cbn in Hs'.
      rewrite E. cbn. lia. }
    destruct a; try apply do_reconnect_ends.
    + apply service_queue_ends. intros s' Hs'. apply Hlt. lia.
    + apply Hlt. unfold budget. cbn. lia.
    + match goal with |- (if ?c then _ else _) <> _ => destruct c end.
      * apply service_queue_ends. intros s' Hs'. apply Hlt. lia.
      * apply Hlt. unfold budget. cbn. lia.
Qed.

Lemma write_current_budget (p : pkt) (s : lstate) :
  budget (snd (write_current p s)) = budget s.
Proof. reflexivity. Qed.

Lemma finish_write_ends (next : lstate -> outcome) (p : pkt) (ret : Z)
    (s : lstate) :
  (forall s', budget s' = budget s -> next s' <> OutOfFuel) ->
  finish_write next p ret s <> OutOfFuel.
Proof.
  intros H. unfold finish_write.
  destruct (negb _); [discriminate|].
  apply H. destruct (pkt_ptr_eqb _ _); reflexivity.
Qed.

Lemma after_write_ends (next : lstate -> outcome) (p : pkt) (ret : Z)
    (s : lstate) :
  (forall s', budget s' = budget s -> next s' <> OutOfFuel) ->
  after_write next p ret s <> OutOfFuel.
Proof.
  intros H. unfold after_write.
  destruct (ret <? 0); [apply do_reconnect_ends|].
  destruct (ret =? 0); [|apply finish_write_ends; exact H].
  unfold ka_stalled_action.
  destruct (hd KA_NONE _);
    try apply do_reconnect_ends; try discriminate;
    apply finish_write_ends; intros s' Hs'; apply H; rewrite Hs';
    reflexivity.
Qed.

(** With more fuel than [budget], [handle_outgoing] never runs dry. *)
Lemma handle_outgoing_ends (fuel : nat) :
  forall s, (budget s < fuel)%nat -> handle_outgoing fuel s <> OutOfFuel.
Proof.
  induction fuel as [|fuel IH]; intros s Hs; [lia|].
  cbn [handle_outgoing].
  destruct (current_ssl_pkt (vi s)) as [p|]; [|discriminate].
  pose proof (write_current_budget p s) as Hb.
  destruct (write_current p s) as [ret s1]. cbn [snd] in Hb.
  apply after_write_ends. intros s' Hs'.
  apply ka_switch_ends. intros s'' Hs''. apply IH. lia.
Qed.


Lemma ensure_cstp_pkt_keeps (s : lstate) :
  let s1 := snd (ensure_cstp_pkt s) in
  current_ssl_pkt (vi s1) = current_ssl_pkt (vi s)
  /\ outgoing_queue (vi s1) = outgoing_queue (vi s)
  /\ dtls_state (vi s1) = dtls_state (vi s)
  /\ tr s1 = tr s
  /\ work_done s1 = work_done s
  /\ ka_script (ev s1) = ka_script (ev s)
  /\ wr_script (ev s1) = wr_script (ev s).
Proof.
  unfold ensure_cstp_pkt.
  destruct (cstp_pkt (vi s)); [cbn; repeat split|].
  destruct (hd None _); cbn; repeat split.
Qed.


(** [gpst_mainloop] always comes to an end. *)
Lemma gpst_mainloop_ends (s : lstate) : gpst_mainloop s <> OutOfFuel.
Proof.
  unfold gpst_mainloop.
  destruct (_ =? -1); [apply do_reconnect_ends|].
  destruct (rx_loop _ _) as [s1|s1|r s1|] eqn:E; try discriminate.
  - destruct (current_ssl_pkt (vi s1)).
    + apply handle_outgoing_ends. unfold fuel_for, budget. lia.
    + apply ka_switch_ends. intros s' Hs'. apply handle_outgoing_ends.
      unfold fuel_for, budget in *. lia.
  - apply do_reconnect_ends.
Qed.

End LoopFuel.

(* ------------------------------------------------------------------ *)
(** ** Main loop: the receive side *)

Section Receive.

Lemma load_be16_nonneg (l : list byte) : 0 <= load_be16 l.
Proof.
  unfold load_be16, byte_at.
  apply Z.lor_nonneg. split.
  - apply Z.shiftl_nonneg. apply Z_of_byte_range.
  - apply Z_of_byte_range.
Qed.

(** Good magic, consistent length, EtherType neither 0 nor 0x0800. *)
Lemma rx_frame_unknown_ethertype (c : pkt) (buf : list byte) (s : lstate) :
  magic (load_header buf) = GPST_MAGIC ->
  Z.of_nat (List.length buf) = 16 + payload_len (load_header buf) ->
  ethertype (load_header buf) <> 0 ->
  ethertype (load_header buf) <> ETH_IPV4 ->
  exists s',
    rx_frame c buf s = RxExit (RxReturn 1 s')
    /\ last_rx (ssl_times (vi s')) = hd 0 (clock (ev s))
    /\ quit_reason (vi s') = unknown_reason.
Proof.
  intros Hm Hl He0 He8.
  assert (Hd : gpst_decode buf = UnknownEthertype).
  { unfold gpst_decode.
    assert (Hp : 0 <= payload_len (load_header buf))
      by apply load_be16_nonneg.
    replace (Z.of_nat (List.length buf) <? 16) with false
      by (symmetry; apply Z.ltb_ge; lia).
    rewrite Hm, Z.eqb_refl. cbn [negb].
    rewrite (proj2 (Z.eqb_eq _ _) Hl). cbn [negb].
    rewrite (proj2 (Z.eqb_neq _ _) He0), (proj2 (Z.eqb_neq _ _) He8).
    reflexivity. }
  unfold rx_frame. rewrite Hd. unfold unknown_pkt.
  eexists. split; [reflexivity|]. split; reflexivity.
Qed.

(** Sixteen bytes or more with a wrong magic. *)
Lemma rx_frame_bad_magic (c : pkt) (buf : list byte) (s : lstate) :
  16 <= Z.of_nat (List.length buf) ->
  magic (load_header buf) <> GPST_MAGIC ->
  exists s',
    rx_frame c buf s = RxExit (RxReturn 1 s')
    /\ last_rx (ssl_times (vi s')) = last_rx (ssl_times (vi s))
    /\ quit_reason (vi s') = unknown_reason.
Proof.
  intros Hl Hm.
  assert (Hd : gpst_decode buf = MalformedFrame).
  { unfold gpst_decode.
    replace (Z.of_nat (List.length buf) <? 16) with false
      by (symmetry; apply Z.ltb_ge; lia).
    rewrite (proj2 (Z.eqb_neq _ _) Hm). reflexivity. }
  unfold rx_frame. rewrite Hd. unfold unknown_pkt.
  eexists. split; [reflexivity|]. split; reflexivity.
Qed.

(** Good magic, but the byte count is not 16 + payload_len. *)
Lemma rx_frame_length_mismatch (c : pkt) (buf : list byte) (s : lstate) :
  16 <= Z.of_nat (List.length buf) ->
  magic (load_header buf) = GPST_MAGIC ->
  Z.of_nat (List.length buf) <> 16 + payload_len (load_header buf) ->
  exists s',
    rx_frame c buf s = RxContinue s'
    /\ last_rx (ssl_times (vi s')) = last_rx (ssl_times (vi s))
    /\ quit_reason (vi s') = quit_reason (vi s)
    /\ incoming_queue (vi s') = incoming_queue (vi s).
Proof.
  intros Hl Hm Hne.
  assert (Hd : gpst_decode buf = LengthMismatch).
  { unfold gpst_decode.
    replace (Z.of_nat (List.length buf) <? 16) with false
      by (symmetry; apply Z.ltb_ge; lia).
    rewrite Hm, Z.eqb_refl. cbn [negb].
    rewrite (proj2 (Z.eqb_neq _ _) Hne). reflexivity. }
  unfold rx_frame. rewrite Hd.
  eexists. split; [reflexivity|]. repeat split.
Qed.

End Receive.

(** C10. A received frame with the right magic and a byte count of
    16 + payload_len, whose EtherType is neither 0x0000 nor 0x0800,
    makes the loop stamp [last_rx] with the current time and return 1
    with [quit_reason] "Unknown packet received".  A bad magic ends the
    same way (without the stamp); a length mismatch does not end the
    invocation: the loop goes on to the next read.  The last part states
    the first at the level of [gpst_mainloop], for the first frame read. *)
Theorem unknown_ethertype_is_fatal (c : pkt) (buf : list byte) (s : lstate) :
  magic (load_header buf) = GPST_MAGIC ->
  Z.of_nat (List.length buf) = 16 + payload_len (load_header buf) ->
  ethertype (load_header buf) <> 0 ->
  ethertype (load_header buf) <> ETH_IPV4 ->
  (exists s',
     rx_frame c buf s = RxExit (RxReturn 1 s')
     /\ last_rx (ssl_times (vi s')) = hd 0 (clock (ev s))
     /\ quit_reason (vi s') = unknown_reason)
  /\ (forall bad, 16 <= Z.of_nat (List.length bad) ->
        magic (load_header bad) <> GPST_MAGIC ->
        exists s', rx_frame c bad s = RxExit (RxReturn 1 s')
                   /\ quit_reason (vi s') = unknown_reason)
  /\ (forall odd, 16 <= Z.of_nat (List.length odd) ->
        magic (load_header odd) = GPST_MAGIC ->
        Z.of_nat (List.length odd) <> 16 + payload_len (load_header odd) ->
        exists s', rx_frame c odd s = RxContinue s'
                   /\ quit_reason (vi s') = quit_reason (vi s))
  /\ (forall rest, ssl_fd (vi s) <> -1 -> cstp_pkt (vi s) = Some c ->
        rd_script (ev s) = Rd_bytes buf :: rest ->
        exists s', gpst_mainloop s = Ret 1 s'
                   /\ last_rx (ssl_times (vi s')) = hd 0 (clock (ev s))
                   /\ quit_reason (vi s') = unknown_reason).
Proof.
  intros Hm Hl He0 He8. split; [|split; [|split]].
  - apply rx_frame_unknown_ethertype; assumption.
  - intros bad Hb Hbm.
    destruct (rx_frame_bad_magic c bad s Hb Hbm) as (s' & E & _ & Q).
    exists s'. split; assumption.
  - intros odd Ho Hom Hol.
    destruct (rx_frame_length_mismatch c odd s Ho Hom Hol)
      as (s' & E & _ & Q & _).
    exists s'. split; assumption.
  - intros rest Hfd Hc Hrd.
    unfold gpst_mainloop.
    replace (ssl_fd (vi (set_work_done 0 s)) =? -1) with false
      by (symmetry; apply Z.eqb_neq; exact Hfd).
    cbn [ev set_work_done]. rewrite Hrd. cbn [rx_loop].
    unfold ensure_cstp_pkt. cbn [vi set_work_done]. rewrite Hc.
    cbv beta iota.
    assert (Hne : buf <> []).
    { intros ->.
      assert (Hp : 0 <= payload_len (load_header []))
        by apply load_be16_nonneg.
      cbn [List.length Z.of_nat] in Hl. lia. }
    destruct buf as [|b buf]; [contradiction|].
    destruct (rx_frame_unknown_ethertype c (b :: buf)
                (pop_read rest (set_work_done 0 s))
                Hm Hl He0 He8) as (s' & E & T & Q).
    rewrite E. exists s'. split; [reflexivity|]. split; assumption.
Qed.

Lemma unknown_ethertype_is_fatal_witness :
  exists s',
    rx_frame Sample.rx_block Sample.frame_86dd Sample.s_two
      = RxExit (RxReturn 1 s')
    /\ last_rx (ssl_times (vi s')) = hd 0 (clock (ev Sample.s_two))
    /\ quit_reason (vi s') = unknown_reason.
Proof.
  refine (proj1 (unknown_ethertype_is_fatal Sample.rx_block
                   Sample.frame_86dd Sample.s_two _ _ _ _)).
  - vm_compute. reflexivity.
  - vm_compute. reflexivity.
  - vm_compute. discriminate.
  - vm_compute. discriminate.
Defined.

(* ------------------------------------------------------------------ *)
(** ** Main loop: the write side *)

Section Transmit.

Lemma write_current_spec (p : pkt) (s : lstate) :
  exists s1,
    write_current p s = (hd (pkt_len p + 16) (wr_script (ev s)), s1)
    /\ tr s1 = write_of p (hd (pkt_len p + 16) (wr_script (ev s))) :: tr s
    /\ current_ssl_pkt (vi s1) = current_ssl_pkt (vi s)
    /\ outgoing_queue (vi s1) = outgoing_queue (vi s)
    /\ stall_script (ev s1) = stall_script (ev s)
    /\ work_done s1 = work_done s.
Proof. eexists. split; [reflexivity|]. repeat split. Qed.

Lemma do_reconnect_ret (s : lstate) :
  exists r s', do_reconnect s = Ret r s'
    /\ outgoing_queue (vi s') = outgoing_queue (vi s)
    /\ current_ssl_pkt (vi s') = current_ssl_pkt (vi s)
    /\ dequeued (tr s') = dequeued (tr s)
    /\ full_writes (tr s') = full_writes (tr s)
    /\ exists l, tr s' = l ++ tr s.
Proof.
  unfold do_reconnect, ssl_reconnect.
  destruct (negb _); do 2 eexists; (split; [reflexivity|]);
    repeat split; exists [EvReconnect (hd 0 (reconnect_script (ev s)))];
    reflexivity.
Qed.

(** A write that does not return the full length ends the invocation:
    the switch on the timer and the queue are not reached. *)
Lemma after_write_short (next : lstate -> outcome) (p : pkt) (ret : Z)
    (s : lstate) :
  ret <> pkt_len p + 16 ->
  exists r s', after_write next p ret s = Ret r s'
    /\ outgoing_queue (vi s') = outgoing_queue (vi s)
    /\ dequeued (tr s') = dequeued (tr s)
    /\ full_writes (tr s') = full_writes (tr s).
Proof.
  intros Hne.
  assert (Hfin : forall s0, exists r s', finish_write next p ret s0 = Ret r s'
            /\ outgoing_queue (vi s') = outgoing_queue (vi s0)
            /\ dequeued (tr s') = dequeued (tr s0)
            /\ full_writes (tr s') = full_writes (tr s0)).
  { intros s0. unfold finish_write.
    rewrite (proj2 (Z.eqb_neq _ _) Hne). cbn [negb].
    do 2 eexists. split; [reflexivity|]. repeat split. }
  assert (Hrec : forall s0, exists r s', do_reconnect s0 = Ret r s'
            /\ outgoing_queue (vi s') = outgoing_queue (vi s0)
            /\ dequeued (tr s') = dequeued (tr s0)
            /\ full_writes (tr s') = full_writes (tr s0)).
  { intros s0.
    destruct (do_reconnect_ret s0) as (r & s' & E & Q & _ & D & F & _).
    exists r, s'. auto. }
  unfold after_write.
  destruct (ret <? 0); [apply Hrec|].
  destruct (ret =? 0); [|apply Hfin].
  unfold ka_stalled_action.
  destruct (hd KA_NONE _).
  - do 2 eexists. split; [reflexivity|]. repeat split.
  - apply (Hfin (set_ev _ s)).
  - apply (Hrec (set_ev _ s)).
  - apply (Hfin (set_ev _ s)).
  - apply (Hrec (set_ev _ s)).
Qed.


(** Every event of an invocation is added in front of the earlier ones. *)
Lemma service_queue_grows (handle : lstate -> outcome) (s : lstate) r s' :
  (forall s1 r s', handle s1 = Ret r s' -> exists l, tr s' = l ++ tr s1) ->
  service_queue handle s = Ret r s' -> exists l, tr s' = l ++ tr s.
Proof.
  intros H. unfold service_queue.
  destruct (is_dtls_connected _); [intros [= _ <-]; exists []; reflexivity|].
  destruct (outgoing_queue (vi s)) as [|this q].
  - intros [= _ <-]. exists []. reflexivity.
  - intros E. apply H in E. destruct E as [l E]. cbn in E.
    exists (l ++ [EvDequeue (stamp_header this)]).
    rewrite <- app_assoc. exact E.
Qed.

Lemma do_reconnect_grows (s : lstate) r s' :
  do_reconnect s = Ret r s' -> exists l, tr s' = l ++ tr s.
Proof.
  intros E. destruct (do_reconnect_ret s) as (r0 & s0 & E0 & _ & _ & _ & _ & G).
  rewrite E in E0. injection E0 as -> ->. exact G.
Qed.

Lemma ka_switch_grows (handle : lstate -> outcome) (s : lstate) r s' :
  (forall s1 r s', handle s1 = Ret r s' -> exists l, tr s' = l ++ tr s1) ->
  ka_switch handle s = Ret r s' -> exists l, tr s' = l ++ tr s.
Proof.
  intros H. unfold ka_switch, keepalive_action.
  destruct (hd KA_NONE _).
  - intros E. eapply service_queue_grows in E; [exact E | exact H].
  - intros E. apply H in E. exact E.
  - intros E. apply do_reconnect_grows in E. exact E.
  - destruct (_ && _).
    + intros E. eapply service_queue_grows in E; [exact E | exact H].
    + intros E. apply H in E. exact E.
  - intros E. apply do_reconnect_grows in E. exact E.
Qed.

Lemma finish_write_grows (next : lstate -> outcome) p ret (s : lstate) r s' :
  (forall s1 r s', next s1 = Ret r s' -> exists l, tr s' = l ++ tr s1) ->
  finish_write next p ret s = Ret r s' -> exists l, tr s' = l ++ tr s.
Proof.
  intros H. unfold finish_write.
  destruct (negb _); [intros [= _ <-]; exists []; reflexivity|].
  intros E. apply H in E. destruct E as [l E]. cbn in E.
  destruct (pkt_ptr_eqb _ _).
  - exists l. exact E.
  - exists (l ++ [EvFree (pkt_at p)]). rewrite <- app_assoc. exact E.
Qed.

Lemma after_write_grows (next : lstate -> outcome) p ret (s : lstate) r s' :
  (forall s1 r s', next s1 = Ret r s' -> exists l, tr s' = l ++ tr s1) ->
  after_write next p ret s = Ret r s' -> exists l, tr s' = l ++ tr s.
Proof.
  intros H. unfold after_write.
  destruct (ret <? 0); [apply do_reconnect_grows|].
  destruct (ret =? 0); [|apply finish_write_grows; exact H].
  unfold ka_stalled_action.
  destruct (hd KA_NONE _); intros E.
  - injection E as _ <-. exists []. reflexivity.
  - eapply finish_write_grows in E; [exact E | exact H].
  - apply do_reconnect_grows in E. exact E.
  - eapply finish_write_grows in E; [exact E | exact H].
  - apply do_reconnect_grows in E. exact E.
Qed.

(** [handle_outgoing] first writes the packet of the slot; whatever else
    the invocation does comes later. *)
Lemma handle_outgoing_grows (fuel : nat) :
  forall s r s', handle_outgoing fuel s = Ret r s' ->
  exists l, tr s' = l ++ tr s.
Proof.
  induction fuel as [|fuel IH]; intros s r s'; [discriminate|].
  cbn [handle_outgoing].
  destruct (current_ssl_pkt (vi s)) as [p|]; [|discriminate].
  destruct (write_current_spec p s) as (s1 & E1 & T1 & _).
  rewrite E1. intros E.
  apply after_write_grows in E.
  - destruct E as [l E]. rewrite T1 in E.
    exists (l ++ [write_of p (hd (pkt_len p + 16) (wr_script (ev s)))]).
    rewrite <- app_assoc. exact E.
  - intros s2 r2 s2'. apply ka_switch_grows. exact IH.
Qed.

Lemma handle_outgoing_first_write (fuel : nat) (s : lstate) (p : pkt) r s' :
  current_ssl_pkt (vi s) = Some p ->
  handle_outgoing fuel s = Ret r s' ->
  exists l, tr s' =
    l ++ write_of p (hd (pkt_len p + 16) (wr_script (ev s))) :: tr s.
Proof.
  intros Hp. destruct fuel as [|fuel]; [discriminate|].
  cbn [handle_outgoing]. rewrite Hp.
  destruct (write_current_spec p s) as (s1 & E1 & T1 & _).
  rewrite E1. intros E.
  apply after_write_grows in E.
  - destruct E as [l E]. rewrite T1 in E. exists l. exact E.
  - intros s2 r2 s2'. apply ka_switch_grows. apply handle_outgoing_grows.
Qed.

End Transmit.

Section TransmitInvariants.

(** *** The write path returns *)

Lemma do_reconnect_returns (s : lstate) : returns (do_reconnect s).
Proof.
  destruct (do_reconnect_ret s) as (r & s' & E & _). exists r, s'. exact E.
Qed.

Lemma service_queue_returns (handle : lstate -> outcome) (s : lstate) :
  (forall s', (budget s' < budget s)%nat ->
     current_ssl_pkt (vi s') <> None -> returns (handle s')) ->
  returns (service_queue handle s).
Proof.
  intros H. unfold service_queue.
  destruct (is_dtls_connected _); [do 2 eexists; reflexivity|].
  destruct (outgoing_queue (vi s)) as [|this q] eqn:E;
    [do 2 eexists; reflexivity|].
  apply H; [|discriminate]. unfold budget. cbn. rewrite E. cbn. lia.
Qed.

Lemma ka_switch_returns (handle : lstate -> outcome) (s : lstate) :
  (forall s', (budget s' < budget s)%nat ->
     current_ssl_pkt (vi s') <> None -> returns (handle s')) ->
  returns (ka_switch handle s).
Proof.
  intros H. unfold ka_switch, keepalive_action.
  destruct (ka_script (ev s)) as [|a rest] eqn:E; cbn [hd tl].
  - apply service_queue_returns. intros s' Hs'. apply H.
    unfold budget in *. cbn in Hs'. rewrite E. cbn. exact Hs'.
  - assert (Hlt : forall s', (budget s' <=
        budget (set_ev (set_ka_script rest (ev s)) s))%nat ->
        current_ssl_pkt (vi s') <> None -> returns (handle s')).
    { intros s' Hs'. apply H. unfold budget in *. cbn in Hs'.
      rewrite E. cbn. lia. }
    destruct a; try apply do_reconnect_returns.
    + apply service_queue_returns. intros s' Hs'. apply Hlt. lia.
    + apply Hlt; [unfold budget; cbn; lia | discriminate].
    + match goal with |- returns (if ?c then _ else _) => destruct c end.
      * apply service_queue_returns. intros s' Hs'. apply Hlt. lia.
      * apply Hlt; [unfold budget; cbn; lia | discriminate].
Qed.

Lemma finish_write_returns (next : lstate -> outcome) (p : pkt) (ret : Z)
    (s : lstate) :
  (forall s', budget s' = budget s -> returns (next s')) ->
  returns (finish_write next p ret s).
Proof.
  intros H. unfold finish_write.
  destruct (negb _); [do 2 eexists; reflexivity|].
  apply H. destruct (pkt_ptr_eqb _ _); reflexivity.
Qed.

Lemma after_write_returns (next : lstate -> outcome) (p : pkt) (ret : Z)
    (s : lstate) :
  (forall s', budget s' = budget s -> returns (next s')) ->
  returns (after_write next p ret s).
Proof.
  intros H. unfold after_write.
  destruct (ret <? 0); [apply do_reconnect_returns|].
  destruct (ret =? 0); [|apply finish_write_returns; exact H].
  unfold ka_stalled_action.
  destruct (hd KA_NONE _);
    try apply do_reconnect_returns; try (do 2 eexists; reflexivity);
    apply finish_write_returns; intros s' Hs'; apply H; rewrite Hs';
    reflexivity.
Qed.

(** With a packet in the slot and fuel above [budget], the write path
    ends in a return. *)
Lemma handle_outgoing_returns (fuel : nat) :
  forall s, (budget s < fuel)%nat -> current_ssl_pkt (vi s) <> None ->
  returns (handle_outgoing fuel s).
Proof.
  induction fuel as [|fuel IH]; intros s Hs Hp; [lia|].
  cbn [handle_outgoing].
  destruct (current_ssl_pkt (vi s)) as [p|]; [|contradiction].
  pose proof (write_current_budget p s) as Hb.
  destruct (write_current p s) as [ret s1]. cbn [snd] in Hb.
  apply after_write_returns. intros s' Hs'.
  apply ka_switch_returns. intros s'' Hs''. apply IH. lia.
Qed.

(** *** The receive loop makes no event *)

Lemma rx_frame_trace (c : pkt) (buf : list byte) (s : lstate) :
  match rx_frame c buf s with
  | RxContinue s' | RxExit (RxBreak s') | RxExit (RxReconnect s')
  | RxExit (RxReturn _ s') => tr s' = tr s
  | RxExit RxFault => True
  end.
Proof.
  unfold rx_frame, unknown_pkt.
  destruct (gpst_decode buf) as [| | | |k payload anomaly];
    try reflexivity.
  destruct k; [destruct anomaly|]; first [reflexivity | exact I].
Qed.

Lemma rx_loop_trace (reads : list rd_result) :
  forall s,
  match rx_loop reads s with
  | RxBreak s' | RxReconnect s' | RxReturn _ s' => tr s' = tr s
  | RxFault => True
  end.
Proof.
  induction reads as [|r rest IH]; intros s; cbn [rx_loop];
    pose proof (ensure_cstp_pkt_keeps s) as K; cbv zeta in K;
    destruct (ensure_cstp_pkt s) as [block s1]; cbn [snd] in K;
    destruct K as (_ & _ & _ & T1 & _).
  - destruct block; exact T1.
  - destruct block as [c|]; [|exact T1].
    destruct r as [e|buf]; [exact T1|].
    destruct buf as [|b buf]; [exact T1|].
    pose proof (rx_frame_trace c (b :: buf) (pop_read rest s1)) as Hf.
    destruct (rx_frame c (b :: buf) (pop_read rest s1)) as [s2|e].
    + specialize (IH s2). destruct (rx_loop rest s2); try exact I;
        (rewrite IH, Hf; exact T1).
    + destruct e; try exact I; (rewrite Hf; exact T1).
Qed.

End TransmitInvariants.

Section TransmitOrder.

Lemma orderly_tail (a l : list event) : orderly (a ++ l) -> orderly l.
Proof.
  induction a as [|x a IH]; [exact (fun H => H)|].
  cbn [app orderly]. destruct x; try exact IH; intros [_ H]; exact (IH H).
Qed.

Lemma do_reconnect_order (s : lstate) r s' :
  do_reconnect s = Ret r s' ->
  exists l, tr s' = l ++ tr s /\ orderly (rev l) /\ Forall is_reconnect l.
Proof.
  unfold do_reconnect, ssl_reconnect.
  destruct (negb _); intros [= _ <-];
    exists [EvReconnect (hd 0 (reconnect_script (ev s)))];
    (split; [reflexivity|]); (split; [exact I|]);
    (constructor; [eexists; reflexivity | constructor]).
Qed.

Lemma service_queue_order (handle : lstate -> outcome) (s : lstate) r s' :
  (forall s1 r s', handle s1 = Ret r s' ->
     exists p ret l,
       current_ssl_pkt (vi s1) = Some p
       /\ tr s' = l ++ write_of p ret :: tr s1
       /\ orderly (write_of p ret :: rev l)) ->
  service_queue handle s = Ret r s' ->
  exists l, tr s' = l ++ tr s /\ orderly (rev l).
Proof.
  intros H. unfold service_queue.
  destruct (is_dtls_connected _).
  { intros [= _ <-]. exists []. split; [reflexivity | exact I]. }
  destruct (outgoing_queue (vi s)) as [|this q].
  - intros [= _ <-]. exists []. split; [reflexivity | exact I].
  - intros E. destruct (H _ _ _ E) as (p & ret & l & Hp & Ht & Ho).
    cbn in Hp. injection Hp as <-. cbn [tr log_ev upd_vi] in Ht.
    exists (l ++ [write_of (stamp_header this) ret;
                  EvDequeue (stamp_header this)]).
    split; [rewrite Ht, <- app_assoc; reflexivity|].
    rewrite rev_app_distr. cbn [rev app orderly].
    split; [do 2 eexists; reflexivity | exact Ho].
Qed.

Lemma ka_switch_order (handle : lstate -> outcome) (s : lstate) r s' :
  (forall s1 r s', handle s1 = Ret r s' ->
     exists p ret l,
       current_ssl_pkt (vi s1) = Some p
       /\ tr s' = l ++ write_of p ret :: tr s1
       /\ orderly (write_of p ret :: rev l)) ->
  ka_switch handle s = Ret r s' ->
  exists l, tr s' = l ++ tr s /\ orderly (rev l).
Proof.
  intros H. unfold ka_switch, keepalive_action.
  assert (Hh : forall s0, tr s0 = tr s -> handle s0 = Ret r s' ->
                 exists l, tr s' = l ++ tr s /\ orderly (rev l)).
  { intros s0 T E. destruct (H _ _ _ E) as (p & ret & l & _ & Ht & Ho).
    exists (l ++ [write_of p ret]).
    split; [rewrite Ht, T, <- app_assoc; reflexivity|].
    rewrite rev_app_distr. exact Ho. }
  assert (Hs : forall s0, tr s0 = tr s ->
                 service_queue handle s0 = Ret r s' ->
                 exists l, tr s' = l ++ tr s /\ orderly (rev l)).
  { intros s0 T E. destruct (service_queue_order handle s0 r s' H E)
      as (l & Ht & Ho). exists l. rewrite <- T. split; assumption. }
  assert (Hr : forall s0, tr s0 = tr s -> do_reconnect s0 = Ret r s' ->
                 exists l, tr s' = l ++ tr s /\ orderly (rev l)).
  { intros s0 T E. destruct (do_reconnect_order s0 r s' E)
      as (l & Ht & Ho & _). exists l. rewrite <- T. split; assumption. }
  destruct (hd KA_NONE _).
  - apply Hs. reflexivity.
  - apply Hh. reflexivity.
  - apply Hr. reflexivity.
  - destruct (_ && _); [apply Hs | apply Hh]; reflexivity.
  - apply Hr. reflexivity.
Qed.

Lemma finish_write_order (next : lstate -> outcome) p ret (s : lstate) r s' :
  (forall s1 r s', next s1 = Ret r s' ->
     exists l, tr s' = l ++ tr s1 /\ orderly (rev l)) ->
  finish_write next p ret s = Ret r s' ->
  exists l, tr s' = l ++ tr s /\ orderly (rev l)
            /\ (ret <> pkt_len p + 16 -> Forall is_reconnect l).
Proof.
  intros H. unfold finish_write.
  destruct (Z.eqb_spec ret (pkt_len p + 16)) as [Hfull|Hshort]; cbn [negb].
  2:{ intros [= _ <-]. exists []. split; [reflexivity|].
      split; [exact I | intros _; constructor]. }
  intros E. destruct (H _ _ _ E) as (l & Ht & Ho). cbn in Ht.
  destruct (pkt_ptr_eqb (pkt_at p) Static_dpd).
  - exists l. split; [exact Ht|]. split; [exact Ho|].
    intros Hne. contradiction.
  - exists (l ++ [EvFree (pkt_at p)]).
    split; [rewrite Ht, <- app_assoc; reflexivity|].
    split; [rewrite rev_app_distr; exact Ho|].
    intros Hne. contradiction.
Qed.

Lemma after_write_order (next : lstate -> outcome) p ret (s : lstate) r s' :
  (forall s1 r s', next s1 = Ret r s' ->
     exists l, tr s' = l ++ tr s1 /\ orderly (rev l)) ->
  after_write next p ret s = Ret r s' ->
  exists l, tr s' = l ++ tr s /\ orderly (rev l)
            /\ (ret <> pkt_len p + 16 -> Forall is_reconnect l).
Proof.
  intros H. unfold after_write.
  assert (Hr : forall s0, tr s0 = tr s -> do_reconnect s0 = Ret r s' ->
                 exists l, tr s' = l ++ tr s /\ orderly (rev l)
                   /\ (ret <> pkt_len p + 16 -> Forall is_reconnect l)).
  { intros s0 T E. destruct (do_reconnect_order s0 r s' E)
      as (l & Ht & Ho & Hf). exists l. rewrite <- T.
      split; [exact Ht|]. split; [exact Ho | intros _; exact Hf]. }
  assert (Hf : forall s0, tr s0 = tr s ->
                 finish_write next p ret s0 = Ret r s' ->
                 exists l, tr s' = l ++ tr s /\ orderly (rev l)
                   /\ (ret <> pkt_len p + 16 -> Forall is_reconnect l)).
  { intros s0 T E. destruct (finish_write_order next p ret s0 r s' H E)
      as (l & Ht & Ho & Hs). exists l. rewrite <- T. auto. }
  destruct (ret <? 0); [apply Hr; reflexivity|].
  destruct (ret =? 0); [|apply Hf; reflexivity].
  unfold ka_stalled_action.
  destruct (hd KA_NONE _).
  - intros [= _ <-]. exists []. split; [reflexivity|].
    split; [exact I | intros _; constructor].
  - apply Hf. reflexivity.
  - apply Hr. reflexivity.
  - apply Hf. reflexivity.
  - apply Hr. reflexivity.
Qed.

Lemma handle_outgoing_order (fuel : nat) :
  forall s r s', handle_outgoing fuel s = Ret r s' ->
    exists p ret l,
      current_ssl_pkt (vi s) = Some p
      /\ tr s' = l ++ write_of p ret :: tr s
      /\ orderly (write_of p ret :: rev l).
Proof.
  induction fuel as [|fuel IH]; intros s r s'; [discriminate|].
  cbn [handle_outgoing].
  destruct (current_ssl_pkt (vi s)) as [p|]; [|discriminate].
  destruct (write_current_spec p s) as (s1 & E1 & T1 & _).
  rewrite E1. intros E.
  apply after_write_order in E.
  - destruct E as (l & Ht & Ho & Hs).
    exists p, (hd (pkt_len p + 16) (wr_script (ev s))), l.
    split; [reflexivity|]. split; [rewrite Ht, T1; reflexivity|].
    unfold write_of. cbn [orderly]. split; [|exact Ho].
    intros Hne. apply Forall_rev. exact (Hs Hne).
  - intros s2 r2 s2'. apply ka_switch_order. exact IH.
Qed.

(** The events an invocation adds, in the order they happened, are in
    the order of the write side. *)
Lemma gpst_mainloop_order (s : lstate) r s' :
  gpst_mainloop s = Ret r s' ->
  exists new, tr s' = rev new ++ tr s /\ orderly new.
Proof.
  unfold gpst_mainloop.
  destruct (_ =? -1).
  { intros E. destruct (do_reconnect_order _ _ _ E) as (l & Ht & Ho & _).
    exists (rev l). rewrite rev_involutive. split; assumption. }
  pose proof (rx_loop_trace (rd_script (ev (set_work_done 0 s)))
                (set_work_done 0 s)) as Ht.
  change (tr (set_work_done 0 s)) with (tr s) in Ht.
  destruct (rx_loop _ _) as [s1|s1|r1 s1|]; [| | |discriminate].
  - destruct (current_ssl_pkt (vi s1)); intros E.
    + destruct (handle_outgoing_order _ _ _ _ E) as (q & ret & l & _ & T & O).
      exists (write_of q ret :: rev l). split; [|exact O].
      cbn [rev]. rewrite rev_involutive, T, Ht, <- app_assoc. reflexivity.
    + destruct (ka_switch_order _ _ _ _ (handle_outgoing_order _) E)
        as (l & T & O).
      exists (rev l). rewrite rev_involutive, T, Ht. split; [reflexivity|].
      exact O.
  - intros E. destruct (do_reconnect_order _ _ _ E) as (l & T & O & _).
    exists (rev l). rewrite rev_involutive, T, Ht. split; [reflexivity|].
    exact O.
  - intros [= _ <-]. exists []. split; [exact Ht | exact I].
Qed.

(** What [orderly] says about each dequeue and each write of the list. *)
Lemma orderly_dequeue (a : list event) q b :
  orderly (a ++ EvDequeue q :: b) ->
  exists ret b', b = write_of q ret :: b'
    /\ (ret <> pkt_len q + 16 -> Forall is_reconnect b').
Proof.
  intros H. apply orderly_tail in H. destruct H as [(ret & b' & ->) H].
  exists ret, b'. split; [reflexivity|]. exact (proj1 H).
Qed.

Lemma orderly_write (a : list event) blk bytes n ret b :
  orderly (a ++ EvWrite blk bytes n ret :: b) ->
  ret <> n -> Forall is_reconnect b.
Proof. intros H. apply orderly_tail in H. exact (proj1 H). Qed.

Lemma orderly_next_dequeue (a : list event) q1 m q2 b :
  orderly (a ++ EvDequeue q1 :: m ++ EvDequeue q2 :: b) ->
  exists m', m = write_of q1 (pkt_len q1 + 16) :: m'.
Proof.
  intros H. apply orderly_dequeue in H.
  destruct H as (ret & b' & E & Hshort).
  destruct m as [|x m]; [discriminate|].
  cbn [app] in E. injection E as -> Eb.
  destruct (Z.eq_dec ret (pkt_len q1 + 16)) as [->|Hne];
    [exists m; reflexivity|].
  specialize (Hshort Hne). rewrite <- Eb in Hshort.
  apply Forall_app in Hshort. destruct Hshort as [_ Hshort].
  inversion Hshort as [|x l [r0 Hx] _]. discriminate.
Qed.

(** *** A quiet invocation sends the whole queue *)

Lemma service_queue_sends (q : list pkt) :
  forall fuel s,
    (List.length q < fuel)%nat ->
    outgoing_queue (vi s) = q -> quiet s ->
    exists s',
      service_queue (handle_outgoing fuel) s = Ret (work_done s) s'
      /\ outgoing_queue (vi s') = []
      /\ current_ssl_pkt (vi s') = None
      /\ tr s' = rev (flat_map sent_events (map stamp_header q)) ++ tr s.
Proof.
  induction q as [|this q IH]; intros fuel s Hf Hq (Hka & Hwr & Hd & Hlen).
  - unfold service_queue. rewrite Hd, Hq.
    eexists. split; [reflexivity|]. split; [exact Hq|]. split; reflexivity.
  - destruct fuel as [|fuel]; [cbn in Hf; lia|].
    rewrite Hq in Hlen. inversion Hlen as [|x l Hthis Hrest]; subst x l.
    unfold service_queue. rewrite Hd, Hq.
    cbn [handle_outgoing].
    cbn [vi upd_vi log_ev current_ssl_pkt set_current_ssl_pkt
         set_outgoing_queue].
    unfold write_current, time, ssl_nonblock_write.
    cbn [ev vi tr work_done upd_vi set_ev log_ev wr_script set_wr_script
         set_clock clock].
    rewrite Hwr. cbn [hd tl].
    change (pkt_len (stamp_header this)) with (pkt_len this).
    unfold after_write.
    replace (pkt_len this + 16 <? 0) with false
      by (symmetry; apply Z.ltb_ge; lia).
    replace (pkt_len this + 16 =? 0) with false
      by (symmetry; apply Z.eqb_neq; lia).
    unfold finish_write.
    change (pkt_len (stamp_header this)) with (pkt_len this).
    rewrite Z.eqb_refl. cbn [negb].
    unfold ka_switch, keepalive_action.
    assert (Hgo : forall s0,
              outgoing_queue (vi s0) = q -> quiet s0 ->
              work_done s0 = work_done s ->
              tr s0 = rev (sent_events (stamp_header this)) ++ tr s ->
              exists s',
                service_queue (handle_outgoing fuel) s0
                  = Ret (work_done s) s'
                /\ outgoing_queue (vi s') = []
                /\ current_ssl_pkt (vi s') = None
                /\ tr s'
                   = rev (flat_map sent_events (map stamp_header (this :: q)))
                       ++ tr s).
    { intros s0 Hq0 Hquiet Hw0 Ht0.
      destruct (IH fuel s0) as (s' & E & Q & C & D);
        [cbn in Hf; lia | exact Hq0 | exact Hquiet |].
      exists s'. rewrite <- Hw0. split; [exact E|].
      split; [exact Q|]. split; [exact C|].
      rewrite D, Ht0. cbn [map flat_map]. rewrite rev_app_distr, <- app_assoc.
      reflexivity. }
    unfold sent_events in Hgo.
    change (pkt_len (stamp_header this)) with (pkt_len this) in Hgo.
    destruct (pkt_ptr_eqb (pkt_at (stamp_header this)) Static_dpd);
      cbn -[service_queue handle_outgoing stamp_header];
      rewrite Hka; cbn [hd tl]; apply Hgo;
      try reflexivity;
      (repeat split; cbn;
       first [reflexivity | exact Hd | exact Hrest | exact Hka | exact Hwr]).
Qed.

(** With the TLS socket open, nothing to read, an empty slot and a quiet
    write side, one invocation returns 0 after sending every queued
    packet, in queue order. *)
Lemma quiet_invocation_sends_queue (s : lstate) :
  ssl_fd (vi s) <> -1 -> rd_script (ev s) = [] ->
  current_ssl_pkt (vi s) = None -> quiet s ->
  exists s',
    gpst_mainloop s = Ret 0 s'
    /\ outgoing_queue (vi s') = []
    /\ current_ssl_pkt (vi s') = None
    /\ tr s'
       = rev (flat_map sent_events (map stamp_header (outgoing_queue (vi s))))
           ++ tr s.
Proof.
  intros Hfd Hrd Hslot (Hka & Hwr & Hd & Hlen).
  unfold gpst_mainloop.
  replace (ssl_fd (vi (set_work_done 0 s)) =? -1) with false
    by (symmetry; apply Z.eqb_neq; exact Hfd).
  change (ev (set_work_done 0 s)) with (ev s). rewrite Hrd.
  pose proof (ensure_cstp_pkt_keeps (set_work_done 0 s)) as K.
  cbv zeta in K. cbn [rx_loop].
  destruct (ensure_cstp_pkt (set_work_done 0 s)) as [block s1].
  cbn [snd] in K. destruct K as (K1 & K2 & K3 & K4 & K5 & K6 & K7).
  cbn [vi ev tr work_done set_work_done] in K1, K2, K3, K4, K5, K6, K7.
  assert (Hs1 : current_ssl_pkt (vi s1) = None) by (rewrite K1; exact Hslot).
  assert (Hgoal : exists s',
            match current_ssl_pkt (vi s1) with
            | Some _ => handle_outgoing (fuel_for s1) s1
            | None => ka_switch (handle_outgoing (fuel_for s1)) s1
            end = Ret 0 s'
            /\ outgoing_queue (vi s') = []
            /\ current_ssl_pkt (vi s') = None
            /\ tr s'
               = rev (flat_map sent_events
                        (map stamp_header (outgoing_queue (vi s))))
                   ++ tr s).
  { rewrite Hs1. unfold ka_switch, keepalive_action. rewrite K6, Hka.
    cbn [hd tl].
    destruct (service_queue_sends (outgoing_queue (vi s))
                (fuel_for s1)
                (set_ev (set_ka_script [] (ev s1)) s1))
      as (s' & E & Q & C & D).
    - unfold fuel_for. rewrite K2. lia.
    - exact K2.
    - repeat split; cbn.
      + rewrite K7. exact Hwr.
      + rewrite K3. exact Hd.
      + rewrite K2. exact Hlen.
    - exists s'. cbn [work_done set_ev] in E. rewrite K5 in E.
      split; [exact E|]. split; [exact Q|]. split; [exact C|].
      rewrite D. cbn [tr set_ev]. rewrite K4. reflexivity. }
  destruct block; exact Hgoal.
Qed.

End TransmitOrder.



(** C3, as the specification states it, fails: with two packets queued,
    nothing to read, complete writes and a quiet timer, one invocation
    takes both packets off the queue and writes both. *)
Lemma two_packets_dequeued_in_one_invocation :
  exists r s',
    gpst_mainloop Sample.s_two = Ret r s'
    /\ dequeued (tr s')
       = [stamp_header Sample.out2; stamp_header Sample.out1]
    /\ outgoing_queue (vi s') = []
    /\ full_writes (tr s') = 2%nat.
Proof.
  exists 0, Sample.s_two_done.
  split; [vm_compute; reflexivity|]. repeat split.
Qed.

(** C3 (amended). An invocation can take several packets off the
    outbound queue, but only one after the other.  Let [new] be what an
    invocation that returns did on the write side, in the order it
    happened (dequeues, writes, frees, reconnects).  A packet taken off
    the queue is the next thing written, from its own block, with its own
    [len + 16] bytes, and if that write returns anything but [len + 16]
    only a reconnect can follow.  After any write (also of a packet left
    over from an earlier invocation, or of [dpd_pkt]) that returns
    something else than the length asked for, only a reconnect can
    follow: nothing more is dequeued, written or freed.  So a further
    packet is dequeued only when the write of the packet dequeued before
    it returned its full length.  And when the TLS socket is open, there
    is nothing to read, the slot [current_ssl_pkt] is empty, the data
    path is not DTLS, the timer asks for nothing, every write completes
    and no queued length is negative, one invocation returns 0 having
    dequeued, written in full and freed (unless it is [dpd_pkt]) every
    queued packet, one after the other in queue order, and leaves the
    queue and the slot empty. *)
Theorem next_dequeue_waits_for_full_write (s : lstate) (r : Z) (s' : lstate) :
  gpst_mainloop s = Ret r s' ->
  exists new,
    tr s' = rev new ++ tr s
    /\ (forall a q b,
          new = a ++ EvDequeue q :: b ->
          exists ret b',
            b = write_of q ret :: b'
            /\ (ret <> pkt_len q + 16 -> Forall is_reconnect b'))
    /\ (forall a blk bytes n ret b,
          new = a ++ EvWrite blk bytes n ret :: b ->
          ret <> n -> Forall is_reconnect b)
    /\ (forall a q1 m q2 b,
          new = a ++ EvDequeue q1 :: m ++ EvDequeue q2 :: b ->
          exists m', m = write_of q1 (pkt_len q1 + 16) :: m')
    /\ (forall s0,
          ssl_fd (vi s0) <> -1 -> rd_script (ev s0) = [] ->
          current_ssl_pkt (vi s0) = None -> quiet s0 ->
          exists s1,
            gpst_mainloop s0 = Ret 0 s1
            /\ tr s1
               = rev (flat_map sent_events
                        (map stamp_header (outgoing_queue (vi s0))))
                   ++ tr s0
            /\ outgoing_queue (vi s1) = []
            /\ current_ssl_pkt (vi s1) = None).
Proof.
  intros E. destruct (gpst_mainloop_order s r s' E) as (new & Ht & Ho).
  exists new. split; [exact Ht|].
  split; [intros a q b ->; exact (orderly_dequeue a q b Ho)|].
  split; [intros a blk bytes n ret b ->;
          exact (orderly_write a blk bytes n ret b Ho)|].
  split; [intros a q1 m q2 b ->; exact (orderly_next_dequeue a q1 m q2 b Ho)|].
  intros s0 Hfd Hrd Hslot Hquiet.
  destruct (quiet_invocation_sends_queue s0 Hfd Hrd Hslot Hquiet)
    as (s1 & E1 & Q & C & T).
  exists s1. repeat split; assumption.
Qed.

(** The invocation of the hypothesis exists: in a state with two queued
    packets and a quiet write side the invocation returns, and the
    theorem gives its events. *)
Lemma next_dequeue_waits_for_full_write_witness :
  gpst_mainloop Sample.s_two = Ret 0 Sample.s_two_done
  /\ exists new,
       tr Sample.s_two_done = rev new ++ tr Sample.s_two
       /\ forall a q1 m q2 b,
            new = a ++ EvDequeue q1 :: m ++ EvDequeue q2 :: b ->
            exists m', m = write_of q1 (pkt_len q1 + 16) :: m'.
Proof.
  assert (E : gpst_mainloop Sample.s_two = Ret 0 Sample.s_two_done)
    by (vm_compute; reflexivity).
  split; [exact E|].
  destruct (next_dequeue_waits_for_full_write Sample.s_two 0
              Sample.s_two_done E) as (new & Ht & _ & _ & Hn & _).
  exists new. split; [exact Ht | exact Hn].
Defined.

(* ------------------------------------------------------------------ *)
(** ** MTU estimator: where the base MTU comes from *)

Section MtuFacts.

Lemma probe_base_mtu_sources (v : openconnect_info) (so : sockdiag) :
  probe_base_mtu v so = first_nonzero (base_mtu_sources v so).
Proof.
  unfold probe_base_mtu, base_mtu_sources.
  assert (Hmin : forall a b,
             (if a <? b then to_int (a - 13) else to_int (b - 13))
             = to_int (Z.min a b - 13)).
  { intros a b. destruct (Z.ltb_spec a b);
      [rewrite Z.min_l | rewrite Z.min_r]; try lia; reflexivity. }
  destruct (Z.eqb_spec (basemtu v) 0) as [Eb|Eb].
  - rewrite Eb, orb_true_r.
    destruct (so_tcp_info so) as [ti|]; destruct (so_maxseg so) as [mss|];
      cbn [app first_nonzero]; cbv zeta; rewrite ?Hmin;
      change (0 =? 0) with true; change (1406 =? 0) with false;
      cbv beta iota;
      repeat match goal with
      | |- context [Z.eqb (to_int ?x) 0] =>
          destruct (Z.eqb (to_int x) 0) eqn:?; cbv beta iota
      end;
      try reflexivity; try congruence.
  - apply Z.eqb_neq in Eb.
    cbn [app first_nonzero]. rewrite Eb, orb_false_r.
    destruct (reqmtu v =? 0); destruct (so_tcp_info so) as [ti|];
      rewrite ?Eb; reflexivity.
Qed.

Lemma probe_base_mtu_nonzero (v : openconnect_info) (so : sockdiag) :
  probe_base_mtu v so <> 0.
Proof.
  rewrite probe_base_mtu_sources. unfold base_mtu_sources.
  assert (H : forall l, first_nonzero (l ++ [1406]) <> 0).
  { induction l as [|x l IH]; cbn [app first_nonzero].
    - discriminate.
    - destruct (Z.eqb_spec x 0); [exact IH | assumption]. }
  rewrite !app_assoc. apply H.
Qed.

Lemma calculate_mtu_floor_general (v : openconnect_info) (so : sockdiag) :
  (reqmtu v <> 0 -> calculate_mtu v so = reqmtu v)
  /\ (reqmtu v = 0 -> 1154 <= calculate_mtu v so)
  /\ calculate_mtu v so <> 0.
Proof.
  unfold calculate_mtu.
  change ESP_OVERHEAD with 78. change UDP_HEADER_SIZE with 8.
  change IPV4_HEADER_SIZE with 20. change IPV6_HEADER_SIZE with 40.
  destruct (Z.eqb_spec (reqmtu v) 0) as [E|E];
    destruct (Z.ltb_spec (probe_base_mtu v so) 1280);
    destruct (peer_family v); repeat split; intros; lia.
Qed.

End MtuFacts.

(* ------------------------------------------------------------------ *)
(** ** MTU estimator *)

Section Mtu.

Lemma esp_overhead_value : ESP_OVERHEAD = 78.
Proof. reflexivity. Qed.

(** Nothing configured and no answer from the socket: the default. *)
Lemma probe_base_mtu_default (v : openconnect_info) :
  basemtu v = 0 -> probe_base_mtu v no_diag = 1406.
Proof.
  intros Hb. unfold probe_base_mtu, no_diag. cbn [so_tcp_info so_maxseg].
  rewrite Hb. cbn [Z.eqb]. destruct (reqmtu v =? 0); reflexivity.
Qed.

End Mtu.

(** C8. With a requested MTU of 0 the estimator returns the base MTU,
    raised to at least 1280, minus 78 (ESP), minus 8 (UDP), minus 20 for
    an IPv4 peer or 40 for an IPv6 peer.  The base MTU is the configured
    one when that is not 0, whatever the socket answers; otherwise the
    first value that is not 0 among the path MTU and the smaller MSS
    less 13 of [TCP_INFO], the [TCP_MAXSEG] value less 13, and the
    default 1406.  When no base MTU is configured and the socket gives
    no diagnostics the base is 1406, so the result is 1300 for an IPv4
    peer and 1280 for an IPv6 peer. *)
Theorem calculate_mtu_requested_zero (v : openconnect_info) (so : sockdiag) :
  reqmtu v = 0 ->
  let ip_header := match peer_family v with AF_INET6 => 40 | _ => 20 end in
  calculate_mtu v so
    = Z.max 1280 (first_nonzero (base_mtu_sources v so)) - 78 - 8 - ip_header
  /\ (basemtu v <> 0 ->
      calculate_mtu v so = Z.max 1280 (basemtu v) - 78 - 8 - ip_header)
  /\ (basemtu v = 0 -> calculate_mtu v no_diag = 1406 - 78 - 8 - ip_header)
  /\ (basemtu v = 0 -> peer_family v = AF_INET ->
      calculate_mtu v no_diag = 1300)
  /\ (basemtu v = 0 -> peer_family v = AF_INET6 ->
      calculate_mtu v no_diag = 1280).
Proof.
  intros Hr ip_header.
  assert (Hgen : forall so', calculate_mtu v so'
            = Z.max 1280 (first_nonzero (base_mtu_sources v so')) - 78 - 8
              - ip_header).
  { intros so'. unfold calculate_mtu. rewrite Hr. cbn [Z.eqb].
    rewrite probe_base_mtu_sources.
    change ESP_OVERHEAD with 78. change UDP_HEADER_SIZE with 8.
    change IPV4_HEADER_SIZE with 20. change IPV6_HEADER_SIZE with 40.
    unfold ip_header.
    destruct (Z.ltb_spec (first_nonzero (base_mtu_sources v so')) 1280);
      destruct (peer_family v); lia. }
  assert (Hdef : basemtu v = 0 ->
                 first_nonzero (base_mtu_sources v no_diag) = 1406).
  { intros Hb. unfold base_mtu_sources, no_diag.
    cbn [so_tcp_info so_maxseg app first_nonzero]. rewrite Hb. reflexivity. }
  split; [apply Hgen|]. split.
  { intros Hb. rewrite Hgen. unfold base_mtu_sources.
    cbn [app first_nonzero]. rewrite (proj2 (Z.eqb_neq _ _) Hb).
    reflexivity. }
  split; [intros Hb; rewrite Hgen, (Hdef Hb); reflexivity|].
  split; intros Hb Hf; rewrite Hgen, (Hdef Hb); unfold ip_header;
    rewrite Hf; reflexivity.
Qed.

Lemma calculate_mtu_requested_zero_witness :
  calculate_mtu
    (mk_vpninfo 5 Sample.ip0 [] Sample.times0 None None [] [] DTLS_DISABLED
       None (Some "/ssl-tunnel-connect.sslvpn"%string)
       "user=u&authcookie=c"%string "linux"%string 0 1500 AF_INET false)
    (mk_sockdiag (Some (mk_tcp_info 1400 1380 1400 9000)) (Some 1460))
  = 1394.
Proof.
  refine (eq_trans
            (proj1 (proj2
               (calculate_mtu_requested_zero
                  (mk_vpninfo 5 Sample.ip0 [] Sample.times0 None None [] []
                     DTLS_DISABLED None
                     (Some "/ssl-tunnel-connect.sslvpn"%string)
                     "user=u&authcookie=c"%string "linux"%string 0 1500
                     AF_INET false)
                  (mk_sockdiag (Some (mk_tcp_info 1400 1380 1400 9000))
                     (Some 1460))
                  _)) _) _).
  - reflexivity.
  - discriminate.
  - reflexivity.
Defined.

(* ------------------------------------------------------------------ *)
(** ** [calculate_mtu]: sources and floor *)

(** X10. The base MTU is the first value that is not 0 among, in this
    order: the configured base MTU; when [TCP_INFO] answers, the path MTU
    and then the smaller of the receive and send MSS less 13; when
    [TCP_MAXSEG] answers, that MSS less 13; and the default 1406.  It is
    therefore never 0.  (The socket values are converted to [int].) *)
Theorem base_mtu_is_first_nonzero_source
    (v : openconnect_info) (so : sockdiag) :
  probe_base_mtu v so = first_nonzero (base_mtu_sources v so)
  /\ probe_base_mtu v so <> 0.
Proof.
  split; [apply probe_base_mtu_sources | apply probe_base_mtu_nonzero].
Qed.

(** X11. A requested MTU that is not 0 is returned as it is, whatever
    the socket says and even when it is below the floor.  With no
    requested MTU the result is at least 1280 - 78 - 8 - 40 = 1154 for
    every configured base MTU and every answer of the socket, because
    the base MTU is raised to 1280 first.  In no case is the result 0. *)
Theorem calculate_mtu_floor (v : openconnect_info) (so : sockdiag) :
  (reqmtu v <> 0 -> calculate_mtu v so = reqmtu v)
  /\ (reqmtu v = 0 -> 1154 <= calculate_mtu v so)
  /\ calculate_mtu v so <> 0.
Proof. exact (calculate_mtu_floor_general v so). Qed.

Lemma calculate_mtu_floor_witness :
  1154 <= calculate_mtu Sample.vpn0
            (mk_sockdiag (Some (mk_tcp_info 536 536 536 576)) (Some 536)).
Proof.
  refine (proj1 (proj2 (calculate_mtu_floor Sample.vpn0
                          (mk_sockdiag (Some (mk_tcp_info 536 536 536 576))
                             (Some 536)))) _).
  reflexivity.
Defined.

Lemma base_mtu_is_first_nonzero_source_witness :
  probe_base_mtu Sample.vpn0
    (mk_sockdiag (Some (mk_tcp_info 1400 1380 1400 0)) (Some 1460))
  = 1367.
Proof.
  exact (eq_trans
           (proj1 (base_mtu_is_first_nonzero_source Sample.vpn0
                     (mk_sockdiag (Some (mk_tcp_info 1400 1380 1400 0))
                        (Some 1460))))
           eq_refl).
Defined.

(* ------------------------------------------------------------------ *)
(** ** [filter_opts] *)

Section FilterFacts.
Import TextBuf FilterOpts.

Lemma index_of_notin (c : ascii) (l : list ascii) :
  ~ In c l -> index_of c l = None.
Proof.
  induction l as [|x l IH]; intros H; cbn [index_of]; [reflexivity|].
  destruct (Ascii.eqb_spec x c) as [->|Hne].
  - exfalso. apply H. left. reflexivity.
  - rewrite IH; [reflexivity|]. intros Hin. apply H. right. exact Hin.
Qed.

Lemma index_of_app (c : ascii) (l r : list ascii) :
  ~ In c l ->
  index_of c (l ++ r) = option_map (Nat.add (List.length l)) (index_of c r).
Proof.
  induction l as [|x l IH]; intros H; cbn [app index_of List.length].
  - destruct (index_of c r); reflexivity.
  - destruct (Ascii.eqb_spec x c) as [->|Hne].
    + exfalso. apply H. left. reflexivity.
    + rewrite IH by (intros Hin; apply H; right; exact Hin).
      destruct (index_of c r); reflexivity.
Qed.

Lemma index_of_bound (c : ascii) (l : list ascii) (i : nat) :
  index_of c l = Some i ->
  (i < List.length l)%nat /\ ~ In c (firstn i l)
  /\ exists r, skipn i l = c :: r.
Proof.
  revert i. induction l as [|x l IH]; intros i; cbn [index_of];
    [discriminate|].
  destruct (Ascii.eqb_spec x c) as [->|Hne].
  - intros [= <-]. cbn. split; [lia|]. split; [tauto|]. eexists. reflexivity.
  - destruct (index_of c l) as [j|]; [|discriminate].
    intros [= <-]. destruct (IH j eq_refl) as (A & B & r & C).
    cbn [List.length firstn skipn]. split; [lia|]. split.
    + intros [H|H]; [congruence | exact (B H)].
    + exists r. exact C.
Qed.

Lemma step_over_shorter (i : nat) (p : list ascii) :
  p <> [] -> (List.length (step_over i p) < List.length p)%nat.
Proof.
  intros Hp. unfold step_over.
  pose proof (length_skipn i p) as Hl.
  destruct (skipn i p) as [|x r] eqn:E; cbn [List.length] in *.
  - destruct p; [contradiction|cbn; lia].
  - lia.
Qed.

(** The inner loop ends, and it ends at a suffix of [incexc]. *)
Lemma find_name_ends (fuel : nat) :
  forall found f keylen,
    (List.length found < fuel)%nat ->
    exists r, find_name fuel found f keylen = Some r.
Proof.
  induction fuel as [|fuel IH]; intros found f keylen Hf; [lia|].
  cbn [find_name]. destruct found as [|x found']; [eexists; reflexivity|].
  destruct (CStr.strncmp0 _ _ _); [eexists; reflexivity|].
  apply IH.
  pose proof (step_over_shorter (span_to comma (x :: found')) (x :: found')).
  assert (x :: found' <> []) by discriminate. cbn [List.length] in *.
  specialize (H H0). lia.
Qed.

(** A kept field on a healthy buffer: it is appended, after one '&'
    when the buffer asks for it. *)
Lemma emit_healthy (b : oc_text_buf) (field : list ascii) :
  buf_err b = 0 ->
  emit b field
  = mk_buf (buf_data b ++ (if wants_separator b then [amp] else []) ++ field)
      0.
Proof.
  intros He. unfold emit, buf_append_bytes.
  destruct (wants_separator b); rewrite He; cbn [Z.eqb buf_err buf_data].
  - rewrite <- app_assoc. reflexivity.
  - reflexivity.
Qed.

Lemma in_step_over (i : nat) (p : list ascii) (c : ascii) :
  In c (step_over i p) -> In c p.
Proof.
  unfold step_over. intros H.
  rewrite <- (firstn_skipn i p). apply in_or_app. right.
  destruct (skipn i p); [contradiction | right; exact H].
Qed.

Lemma in_firstn (i : nat) (p : list ascii) (c : ascii) :
  In c (firstn i p) -> In c p.
Proof.
  intros H. rewrite <- (firstn_skipn i p). apply in_or_app. left. exact H.
Qed.

Lemma filter_loop_healthy (fuel : nat) (incexc : list ascii) (include : Z) :
  forall f buf,
    (List.length f < fuel)%nat -> buf_err buf = 0 ->
    exists added,
      filter_loop fuel incexc include f buf
        = Some (mk_buf (buf_data buf ++ added) 0)
      /\ forall c, In c added -> c = amp \/ In c f.
Proof.
  induction fuel as [|fuel IH]; intros f buf Hf He; [lia|].
  cbn [filter_loop]. destruct f as [|x f'].
  { exists []. rewrite app_nil_r. split; [|intros c []].
    destruct buf as [d e]. cbn in He. subst e. reflexivity. }
  destruct (find_name_ends (S (List.length incexc)) incexc (x :: f')
              (key_length (x :: f'))) as [found ->]; [lia|].
  set (keep := (negb (include =? 0)
                 && match found with [] => false | _ :: _ => true end)
               || (negb (negb (include =? 0))
                   && negb match found with [] => false | _ :: _ => true end)).
  set (field := firstn (span_to amp (x :: f')) (x :: f')).
  assert (Hnext : (List.length (step_over (span_to amp (x :: f')) (x :: f'))
                   < fuel)%nat).
  { pose proof (step_over_shorter (span_to amp (x :: f')) (x :: f')).
    assert (x :: f' <> []) by discriminate. cbn [List.length] in *.
    specialize (H H0). lia. }
  destruct keep.
  - rewrite (emit_healthy buf field He).
    destruct (IH (step_over (span_to amp (x :: f')) (x :: f'))
                (mk_buf (buf_data buf
                           ++ (if wants_separator buf then [amp] else [])
                           ++ field) 0) Hnext eq_refl)
      as (added & E & Hin).
    exists ((if wants_separator buf then [amp] else []) ++ field ++ added).
    split.
    + rewrite E. cbn [buf_data]. rewrite <- !app_assoc. reflexivity.
    + intros c Hc. apply in_app_or in Hc. destruct Hc as [Hc|Hc].
      * destruct (wants_separator buf); [|contradiction].
        destruct Hc as [<-|[]]. left. reflexivity.
      * apply in_app_or in Hc. destruct Hc as [Hc|Hc].
        -- right. exact (in_firstn _ _ _ Hc).
        -- destruct (Hin c Hc) as [H|H]; [left; exact H|].
           right. exact (in_step_over _ _ _ H).
  - destruct (IH (step_over (span_to amp (x :: f')) (x :: f')) buf
                Hnext He) as (added & E & Hin).
    exists added. split; [exact E|].
    intros c Hc. destruct (Hin c Hc) as [H|H]; [left; exact H|].
    right. exact (in_step_over _ _ _ H).
Qed.

End FilterFacts.

(** X1. On a healthy buffer [filter_opts] comes to an end for every
    query, name list and mode, well formed or not; it returns 0 and only
    appends: the text already in the buffer stays in front, and every
    byte added is a byte of the query or the separator '&'. *)
Theorem filter_opts_only_appends
    (buf : TextBuf.oc_text_buf) (query incexc : list ascii) (include : Z) :
  TextBuf.buf_err buf = 0 ->
  exists added,
    FilterOpts.filter_opts buf query incexc include
      = Some (0, TextBuf.mk_buf (TextBuf.buf_data buf ++ added) 0)
    /\ forall c, In c added -> c = FilterOpts.amp \/ In c query.
Proof.
  intros He. unfold FilterOpts.filter_opts.
  destruct (filter_loop_healthy (S (List.length query)) incexc include
              query buf) as (added & E & Hin); [lia | exact He |].
  exists added. rewrite E. split; [reflexivity | exact Hin].
Qed.

Lemma filter_opts_only_appends_witness :
  exists added,
    FilterOpts.filter_opts
      (TextBuf.mk_buf (list_ascii_of_string "x=1") 0)
      (list_ascii_of_string "&&a,b=&=c&d") (list_ascii_of_string ",a,") 0
    = Some (0, TextBuf.mk_buf (list_ascii_of_string "x=1" ++ added) 0)
    /\ forall c, In c added ->
         c = FilterOpts.amp \/ In c (list_ascii_of_string "&&a,b=&=c&d").
Proof.
  apply (filter_opts_only_appends
           (TextBuf.mk_buf (list_ascii_of_string "x=1") 0)
           (list_ascii_of_string "&&a,b=&=c&d")
           (list_ascii_of_string ",a,") 0).
  reflexivity.
Defined.

Section FilterFields.
Import TextBuf FilterOpts.

Lemma text_eqb_eq (a b : list ascii) : text_eqb a b = true <-> a = b.
Proof.
  revert b. induction a as [|x a IH]; intros [|y b]; cbn [text_eqb];
    try (split; discriminate); [tauto|].
  rewrite andb_true_iff, Ascii.eqb_eq, IH. split.
  - intros [-> ->]. reflexivity.
  - intros [= -> ->]. split; reflexivity.
Qed.

(** The [strncmp] of the inner loop decides equality of name and key. *)
Lemma strncmp0_name_key (n : list ascii) :
  forall k tn tk,
    ~ In eq_sign n -> ~ In amp n -> ~ In comma k ->
    name_tail tn -> key_tail tk ->
    CStr.strncmp0 (n ++ tn) (k ++ tk) (Nat.max (List.length n) (List.length k))
    = text_eqb k n.
Proof.
  induction n as [|x n IH]; intros k tn tk Hne Hna Hkc Htn Htk.
  - destruct k as [|y k]; [reflexivity|].
    destruct tn as [|c tn]; [reflexivity|].
    unfold name_tail in Htn. subst c.
    cbn [app List.length Nat.max CStr.strncmp0 text_eqb].
    destruct (Ascii.eqb_spec comma y) as [<-|_]; [|reflexivity].
    exfalso. apply Hkc. left. reflexivity.
  - destruct k as [|y k].
    + destruct tk as [|c tk]; [reflexivity|].
      unfold key_tail in Htk.
      cbn [app List.length Nat.max CStr.strncmp0 text_eqb].
      destruct (Ascii.eqb_spec x c) as [->|_]; [|reflexivity].
      exfalso. destruct Htk as [->| ->]; [apply Hne | apply Hna]; left;
        reflexivity.
    + cbn [app List.length Nat.max CStr.strncmp0 text_eqb].
      rewrite IH; try assumption.
      * rewrite (Ascii.eqb_sym x y). reflexivity.
      * intros H. apply Hne. right. exact H.
      * intros H. apply Hna. right. exact H.
      * intros H. apply Hkc. right. exact H.
Qed.

Lemma span_to_app_sep (c : ascii) (l r : list ascii) :
  ~ In c l -> span_to c (l ++ c :: r) = List.length l.
Proof.
  intros H. unfold span_to. rewrite index_of_app by exact H.
  cbn [index_of]. rewrite Ascii.eqb_refl. cbn. lia.
Qed.

Lemma span_to_notin (c : ascii) (l : list ascii) :
  ~ In c l -> span_to c l = List.length l.
Proof. intros H. unfold span_to. rewrite index_of_notin by exact H. reflexivity. Qed.

Lemma step_over_app_sep (l r : list ascii) (c : ascii) :
  step_over (List.length l) (l ++ c :: r) = r.
Proof.
  unfold step_over. rewrite skipn_app, skipn_all, Nat.sub_diag. reflexivity.
Qed.

Lemma step_over_all (l : list ascii) : step_over (List.length l) l = [].
Proof. unfold step_over. rewrite skipn_all. reflexivity. Qed.

Lemma find_name_step (fuel : nat) (found f : list ascii) (keylen : nat) :
  found <> [] ->
  find_name (S fuel) found f keylen
  = if CStr.strncmp0 found f (Nat.max (span_to comma found) keylen)
    then Some found
    else find_name fuel (step_over (span_to comma found) found) f keylen.
Proof. destruct found; [contradiction|reflexivity]. Qed.

Lemma filter_loop_step (fuel : nat) (incexc : list ascii) (include : Z)
    (f : list ascii) (buf : oc_text_buf) :
  f <> [] ->
  filter_loop (S fuel) incexc include f buf
  = match find_name (S (List.length incexc)) incexc f (key_length f) with
    | None => None
    | Some found =>
        let hit := match found with [] => false | _ :: _ => true end in
        let inc := negb (include =? 0) in
        filter_loop fuel incexc include (step_over (span_to amp f) f)
          (if (inc && hit) || (negb inc && negb hit)
           then emit buf (firstn (span_to amp f) f) else buf)
    end.
Proof. destruct f; [contradiction|reflexivity]. Qed.

(** The inner loop over well-formed names: it stops on a name exactly
    when the key is one of the names. *)
Lemma find_name_names (names : list (list ascii)) :
  forall fuel k tk,
    Forall plain_name names -> ~ In comma k -> key_tail tk ->
    (List.length names < fuel)%nat ->
    exists found,
      find_name fuel (intercalate comma names) (k ++ tk) (List.length k)
        = Some found
      /\ match found with [] => false | _ :: _ => true end
         = in_names k names.
Proof.
  induction names as [|n ns IH]; intros fuel k tk Hn Hk Htk Hf.
  - destruct fuel; [cbn in Hf; lia|]. exists []. split; reflexivity.
  - destruct fuel as [|fuel]; [lia|].
    inversion Hn as [|? ? (Hne & Hc & He & Ha) Hns]; subst.
    cbn [in_names existsb].
    destruct ns as [|m ns'].
    + cbn [intercalate]. rewrite find_name_step by exact Hne.
      rewrite span_to_notin by exact Hc.
      pose proof (strncmp0_name_key n k [] tk He Ha Hk I Htk) as Hs.
      rewrite app_nil_r in Hs. rewrite Hs.
      destruct (text_eqb k n).
      * exists n. split; [reflexivity|]. destruct n; [contradiction|reflexivity].
      * rewrite step_over_all.
        destruct fuel as [|fuel]; [cbn in Hf; lia|].
        exists []. split; reflexivity.
    + change (intercalate comma (n :: m :: ns'))
        with (n ++ comma :: intercalate comma (m :: ns')).
      rewrite find_name_step by (destruct n; [contradiction|discriminate]).
      rewrite span_to_app_sep by exact Hc.
      rewrite strncmp0_name_key by (assumption || reflexivity).
      destruct (text_eqb k n).
      * eexists. split; [reflexivity|].
        destruct n; [contradiction|reflexivity].
      * rewrite step_over_app_sep.
        destruct (IH fuel k tk Hns Hk Htk) as (found & E & Hhit);
          [cbn [List.length] in *; lia|].
        exists found. split; [exact E|]. exact Hhit.
Qed.

Lemma intercalate_length (sep : ascii) (l : list (list ascii)) :
  Forall (fun x => x <> []) l ->
  (List.length l <= List.length (intercalate sep l))%nat.
Proof.
  induction l as [|x r IH]; intros H; [cbn; lia|].
  inversion H as [|? ? Hx Hr]; subst.
  destruct r as [|y r'].
  - cbn. destruct x; [contradiction|cbn; lia].
  - change (intercalate sep (x :: y :: r'))
      with (x ++ sep :: intercalate sep (y :: r')).
    rewrite length_app. cbn [List.length] in *. specialize (IH Hr). lia.
Qed.

(** What the outer loop sees at the start of a well-formed field that
    is followed by [rest] (the end of the query, or '&' and more). *)
Lemma field_shape (field rest : list ascii) :
  plain_field field -> (rest = [] \/ exists r, rest = amp :: r) ->
  span_to amp (field ++ rest) = List.length field
  /\ key_length (field ++ rest) = List.length (key_of field)
  /\ exists tk, field ++ rest = key_of field ++ tk /\ key_tail tk.
Proof.
  intros (Hne & Hamp & Hkey) Hrest.
  assert (Hspan : span_to amp (field ++ rest) = List.length field).
  { destruct Hrest as [->|[r ->]].
    - rewrite app_nil_r. apply span_to_notin. exact Hamp.
    - apply span_to_app_sep. exact Hamp. }
  split; [exact Hspan|].
  unfold key_length, key_of. rewrite Hspan.
  unfold span_to.
  destruct (index_of eq_sign field) as [i|] eqn:Ei.
  - destruct (index_of_bound _ _ _ Ei) as (Hi & Hnot & r & Hr).
    assert (Ef : index_of eq_sign (field ++ rest) = Some i).
    { rewrite <- (firstn_skipn i field), Hr, <- app_assoc.
      rewrite index_of_app by exact Hnot.
      cbn [app index_of]. rewrite Ascii.eqb_refl. cbn.
      rewrite length_firstn. f_equal. lia. }
    rewrite Ef.
    replace (Nat.ltb (List.length field) i) with false
      by (symmetry; apply Nat.ltb_ge; lia).
    split; [rewrite length_firstn; lia|].
    exists (eq_sign :: r ++ rest). split.
    + rewrite <- (firstn_skipn i field) at 1. rewrite Hr, <- app_assoc.
      reflexivity.
    + left. reflexivity.
  - assert (Hnot : ~ In eq_sign field).
    { intros Hin. clear -Ei Hin. induction field as [|x l IH];
        [exact Hin|].
      cbn [index_of] in Ei.
      destruct (Ascii.eqb_spec x eq_sign) as [->|Hx]; [discriminate|].
      destruct (index_of eq_sign l); [discriminate|].
      destruct Hin as [H|H]; [contradiction | exact (IH eq_refl H)]. }
    rewrite firstn_all.
    split.
    + destruct (index_of eq_sign (field ++ rest)) as [e|] eqn:Ee;
        [|reflexivity].
      rewrite index_of_app in Ee by exact Hnot.
      destruct (index_of eq_sign rest) as [j|]; [|discriminate].
      injection Ee as <-.
      destruct (Nat.ltb_spec (List.length field) (List.length field + j));
        [reflexivity|lia].
    + exists rest. split; [reflexivity|].
      destruct Hrest as [->|[r ->]]; [exact I | right; reflexivity].
Qed.

(** The outer loop over a well-formed query does, field by field, what
    [keeps] says. *)
Lemma filter_loop_fields (names : list (list ascii)) (include : Z)
    (fields : list (list ascii)) :
  Forall plain_name names ->
  forall fuel buf,
    Forall plain_field fields ->
    (List.length fields < fuel)%nat ->
    filter_loop fuel (intercalate comma names) include
      (intercalate amp fields) buf
    = Some (fold_left (fun b field =>
                         if keeps names include field then emit b field
                         else b) fields buf).
Proof.
  intros Hnames.
  induction fields as [|field rest IH]; intros fuel buf Hf Hfuel.
  - destruct fuel; [cbn in Hfuel; lia|]. reflexivity.
  - destruct fuel as [|fuel]; [lia|].
    inversion Hf as [|? ? Hfield Hrest]; subst.
    assert (Hshape : exists tail,
              intercalate amp (field :: rest) = field ++ tail
              /\ (tail = [] \/ exists r, tail = amp :: r)
              /\ step_over (List.length field) (field ++ tail)
                 = intercalate amp rest).
    { destruct rest as [|g rest'].
      - exists []. cbn [intercalate]. rewrite app_nil_r.
        split; [reflexivity|]. split; [left; reflexivity|].
        apply step_over_all.
      - exists (amp :: intercalate amp (g :: rest')).
        split; [reflexivity|]. split; [right; eexists; reflexivity|].
        apply step_over_app_sep. }
    destruct Hshape as (tail & Eq & Htail & Hstep).
    rewrite Eq.
    destruct (field_shape field tail Hfield Htail)
      as (Hspan & Hklen & tk & Etk & Htk).
    destruct Hfield as (Hne & Hamp & Hkey).
    rewrite filter_loop_step by (destruct field; [contradiction|discriminate]).
    rewrite Hspan, Hklen, Hstep.
    rewrite Etk at 1.
    destruct (find_name_names names (S (List.length (intercalate comma names)))
                (key_of field) tk Hnames Hkey Htk)
      as (found & Efound & Hhit).
    { assert (Hn : Forall (fun n => n <> []) names)
        by (eapply Forall_impl; [|exact Hnames]; intros a (H & _); exact H).
      pose proof (intercalate_length comma names Hn). lia. }
    rewrite Efound. cbv zeta. rewrite Hhit.
    rewrite firstn_app, firstn_all, Nat.sub_diag. cbn [firstn].
    rewrite app_nil_r.
    rewrite IH by (assumption || (cbn [List.length] in Hfuel; lia)).
    cbn [fold_left]. unfold keeps.
    destruct (in_names (key_of field) names);
      destruct (negb (include =? 0)); reflexivity.
Qed.

Lemma fold_keep_filter (keep : list ascii -> bool)
    (fields : list (list ascii)) :
  forall buf,
    fold_left (fun b field => if keep field then emit b field else b)
      fields buf
    = fold_left emit (filter keep fields) buf.
Proof.
  induction fields as [|f r IH]; intros buf; [reflexivity|].
  cbn [fold_left filter]. rewrite IH. destruct (keep f); reflexivity.
Qed.

Lemma wants_separator_after (d field : list ascii) (e : Z) :
  ends_plain field -> wants_separator (mk_buf (d ++ field) e) = true.
Proof.
  unfold ends_plain, wants_separator. cbn [buf_data].
  rewrite rev_app_distr.
  destruct (rev field) as [|c r]; [contradiction|].
  intros [Hq Ha]. cbn [app].
  rewrite (proj2 (Ascii.eqb_neq _ _) Hq), (proj2 (Ascii.eqb_neq _ _) Ha).
  reflexivity.
Qed.

(** Kept fields that end plainly come out joined by single '&'. *)
Lemma fold_emit_joined (kept : list (list ascii)) :
  forall buf,
    buf_err buf = 0 -> Forall ends_plain kept ->
    fold_left emit kept buf = mk_buf (buf_data buf ++ joined buf kept) 0.
Proof.
  induction kept as [|x r IH]; intros buf He Hk.
  - cbn. rewrite app_nil_r. destruct buf as [d e]. cbn in He. subst e.
    reflexivity.
  - inversion Hk as [|? ? Hx Hr]; subst.
    cbn [fold_left].
    assert (E1 : emit buf x
                 = mk_buf (buf_data buf
                             ++ (if wants_separator buf then [amp] else [])
                             ++ x) 0).
    { unfold emit, buf_append_bytes.
      destruct (wants_separator buf); rewrite He; cbn [Z.eqb buf_err buf_data].
      - rewrite <- app_assoc. reflexivity.
      - reflexivity. }
    rewrite E1, IH by (reflexivity || assumption).
    cbn [buf_data]. f_equal.
    destruct r as [|y r'].
    + cbn [joined intercalate]. rewrite app_nil_r. reflexivity.
    + assert (Hw : wants_separator
                (mk_buf (buf_data buf
                          ++ (if wants_separator buf then [amp] else [])
                          ++ x) 0) = true).
      { rewrite app_assoc. apply wants_separator_after. exact Hx. }
      unfold joined at 1. rewrite Hw.
      unfold joined.
      change (intercalate amp (x :: y :: r'))
        with (x ++ amp :: intercalate amp (y :: r')).
      rewrite <- !app_assoc. reflexivity.
Qed.

End FilterFields.

Lemma filter_opts_on_fields
    (buf : TextBuf.oc_text_buf) (fields names : list (list ascii))
    (include : Z) :
  TextBuf.buf_err buf = 0 ->
  Forall plain_field fields -> Forall ends_plain fields ->
  Forall plain_name names ->
  FilterOpts.filter_opts buf (intercalate FilterOpts.amp fields)
    (intercalate FilterOpts.comma names) include
  = Some (0, TextBuf.mk_buf
               (TextBuf.buf_data buf
                  ++ joined buf (filter (keeps names include) fields)) 0).
Proof.
  intros He Hf Hends Hn. unfold FilterOpts.filter_opts.
  rewrite (filter_loop_fields names include fields Hn); try assumption.
  - rewrite fold_keep_filter, fold_emit_joined; try assumption.
    + reflexivity.
    + apply Forall_forall. intros x Hx. apply filter_In in Hx.
      rewrite Forall_forall in Hends. apply Hends. tauto.
  - assert (Hne : Forall (fun x => x <> []) fields)
      by (eapply Forall_impl; [|exact Hf]; intros a (H & _); exact H).
    pose proof (intercalate_length FilterOpts.amp fields Hne). lia.
Qed.

(** X2. On a well-formed query (non-empty fields joined by '&', no ','
    in a key, no field ending in '?') and well-formed names (non-empty,
    free of ',' '=' '&', joined by ','), [filter_opts] on a healthy
    buffer returns 0 and appends exactly the fields whose key is one of
    the names (include mode) or is none of them (exclude mode), in query
    order, joined by single '&', with one more '&' in front unless the
    buffer was empty or ended in '?' or '&'.  A key matches a name only
    when the two are equal: a prefix of a name or a longer key does not
    match. *)
Theorem filter_opts_keeps_fields_by_key
    (buf : TextBuf.oc_text_buf) (fields names : list (list ascii))
    (include : Z) :
  TextBuf.buf_err buf = 0 ->
  Forall plain_field fields -> Forall ends_plain fields ->
  Forall plain_name names ->
  FilterOpts.filter_opts buf (intercalate FilterOpts.amp fields)
    (intercalate FilterOpts.comma names) include
  = Some (0, TextBuf.mk_buf
               (TextBuf.buf_data buf
                  ++ joined buf (filter (keeps names include) fields)) 0).
Proof. exact (filter_opts_on_fields buf fields names include). Qed.

Section FilterRequest.
Import TextBuf FilterOpts.

Lemma notin_existsb (c : ascii) (l : list ascii) :
  existsb (Ascii.eqb c) l = false -> ~ In c l.
Proof.
  intros H Hin.
  assert (existsb (Ascii.eqb c) l = true)
    by (apply existsb_exists; exists c; split;
        [exact Hin | apply Ascii.eqb_refl]).
  congruence.
Qed.

Lemma list_ascii_of_string_app (a b : string) :
  list_ascii_of_string (a ++ b)
  = list_ascii_of_string a ++ list_ascii_of_string b.
Proof.
  induction a as [|c a IH]; [reflexivity|].
  cbn [String.append list_ascii_of_string app]. rewrite IH. reflexivity.
Qed.

Lemma wants_separator_qmark (d : list ascii) (e : Z) :
  wants_separator (mk_buf (d ++ [qmark]) e) = false.
Proof.
  unfold wants_separator. cbn [buf_data]. rewrite rev_app_distr. reflexivity.
Qed.

Lemma keeps_include (names : list (list ascii)) (include : Z)
    (field : list ascii) :
  include <> 0 ->
  keeps names include field = in_names (key_of field) names.
Proof.
  intros H. unfold keeps.
  destruct (Z.eqb_spec include 0) as [E|_]; [contradiction|].
  destruct (in_names (key_of field) names); reflexivity.
Qed.

End FilterRequest.

Ltac plain_text :=
  repeat first
    [ exact I
    | reflexivity
    | discriminate
    | apply Forall_nil
    | apply Forall_cons
    | apply notin_existsb
    | split ].

Lemma filter_opts_keeps_fields_by_key_witness :
  FilterOpts.filter_opts
    (TextBuf.mk_buf (list_ascii_of_string "GET /ssl-tunnel-connect.sslvpn?") 0)
    (intercalate FilterOpts.amp
       [list_ascii_of_string "user=u"; list_ascii_of_string "portal=p";
        list_ascii_of_string "authcookie=c"])
    (intercalate FilterOpts.comma tunnel_names) 1
  = Some (0, TextBuf.mk_buf
               (list_ascii_of_string
                  "GET /ssl-tunnel-connect.sslvpn?user=u&authcookie=c") 0).
Proof.
  refine (eq_trans
            (filter_opts_keeps_fields_by_key
               (TextBuf.mk_buf
                  (list_ascii_of_string "GET /ssl-tunnel-connect.sslvpn?") 0)
               [list_ascii_of_string "user=u"; list_ascii_of_string "portal=p";
                list_ascii_of_string "authcookie=c"]
               tunnel_names 1 _ _ _ _) _);
    unfold ends_plain, plain_field, plain_name; plain_text.
Defined.

(** X3. The request [gpst_connect] writes to the gateway: for every
    tunnel path and every well-formed cookie, the text built in [reqbuf]
    is the GET line for that path, then exactly those fields of the
    cookie whose key is [user] or [authcookie], in cookie order and
    joined by '&', then the protocol version and the blank line; no other
    field of the cookie is sent, and the buffer reports no error. *)
Theorem tunnel_request_sends_user_and_authcookie
    (path cookie : string) (fields : list (list ascii)) :
  list_ascii_of_string cookie = intercalate FilterOpts.amp fields ->
  Forall plain_field fields -> Forall ends_plain fields ->
  FilterOpts.tunnel_request path cookie
  = Some (0, TextBuf.mk_buf
               (list_ascii_of_string "GET " ++ list_ascii_of_string path
                  ++ [FilterOpts.qmark]
                  ++ intercalate FilterOpts.amp
                       (filter (fun field => in_names (key_of field)
                                               tunnel_names) fields)
                  ++ request_end) 0).
Proof.
  intros Hc Hf He. unfold FilterOpts.tunnel_request.
  rewrite Hc.
  change (list_ascii_of_string "user,authcookie")
    with (intercalate FilterOpts.comma tunnel_names).
  rewrite (filter_opts_on_fields _ fields tunnel_names 1);
    try assumption;
    [ | reflexivity | unfold plain_name; plain_text ].
  rewrite !list_ascii_of_string_app.
  unfold TextBuf.buf_append_bytes at 2. cbn [TextBuf.buf_err TextBuf.buf_data Z.eqb app].
  change (list_ascii_of_string "?") with [FilterOpts.qmark].
  rewrite (filter_ext _ (fun field => in_names (key_of field) tunnel_names))
    by (intros a; apply keeps_include; discriminate).
  assert (Hj : forall kept,
             joined (TextBuf.mk_buf
                       (list_ascii_of_string "GET "
                          ++ list_ascii_of_string path ++ [FilterOpts.qmark]) 0)
                    kept
             = intercalate FilterOpts.amp kept).
  { intros [|x r]; [reflexivity|]. unfold joined.
    rewrite app_assoc, wants_separator_qmark. reflexivity. }
  rewrite Hj.
  unfold TextBuf.buf_append_bytes, TextBuf.buf_error.
  cbn [TextBuf.buf_err TextBuf.buf_data Z.eqb].
  rewrite <- !app_assoc. reflexivity.
Qed.

Lemma tunnel_request_sends_user_and_authcookie_witness :
  FilterOpts.tunnel_request "/ssl-tunnel-connect.sslvpn"
    "user=u&portal=p&authcookie=c&domain=d"
  = Some (0, TextBuf.mk_buf
               (list_ascii_of_string
                  "GET /ssl-tunnel-connect.sslvpn?user=u&authcookie=c HTTP/1.1"
                ++ [ascii_of_nat 13; ascii_of_nat 10;
                    ascii_of_nat 13; ascii_of_nat 10]) 0).
Proof.
  refine (eq_trans
            (tunnel_request_sends_user_and_authcookie
               "/ssl-tunnel-connect.sslvpn"
               "user=u&portal=p&authcookie=c&domain=d"
               [list_ascii_of_string "user=u"; list_ascii_of_string "portal=p";
                list_ascii_of_string "authcookie=c";
                list_ascii_of_string "domain=d"] _ _ _) _);
    unfold ends_plain, plain_field; plain_text.
Defined.

(** X4. The separator test of [filter_opts] looks at the last byte of
    the buffer whoever wrote it.  When a kept field ends in '?', the next
    kept field is appended right after it, without the '&' that
    separated the two in the query. *)
Theorem field_ending_in_qmark_swallows_separator
    (buf : TextBuf.oc_text_buf) (names : list (list ascii)) (include : Z)
    (f1 f2 : list ascii) :
  TextBuf.buf_err buf = 0 -> Forall plain_name names ->
  plain_field (f1 ++ [FilterOpts.qmark]) -> plain_field f2 ->
  keeps names include (f1 ++ [FilterOpts.qmark]) = true ->
  keeps names include f2 = true ->
  FilterOpts.filter_opts buf
    (f1 ++ [FilterOpts.qmark] ++ FilterOpts.amp :: f2)
    (intercalate FilterOpts.comma names) include
  = Some (0, TextBuf.mk_buf
               (TextBuf.buf_data buf
                  ++ (if FilterOpts.wants_separator buf
                      then [FilterOpts.amp] else [])
                  ++ f1 ++ [FilterOpts.qmark] ++ f2) 0).
Proof.
  intros He Hn H1 H2 K1 K2. unfold FilterOpts.filter_opts.
  assert (Hq : f1 ++ [FilterOpts.qmark] ++ FilterOpts.amp :: f2
               = intercalate FilterOpts.amp [f1 ++ [FilterOpts.qmark]; f2]).
  { cbn [intercalate]. destruct H2 as (Hne & _).
    destruct f2; [contradiction|]. rewrite <- app_assoc. reflexivity. }
  rewrite Hq.
  rewrite (filter_loop_fields names include _ Hn);
    [ | repeat (apply Forall_cons; [assumption|]); apply Forall_nil | ].
  - cbn [fold_left]. rewrite K1, K2.
    assert (E1 : FilterOpts.emit buf (f1 ++ [FilterOpts.qmark])
                 = TextBuf.mk_buf
                     ((TextBuf.buf_data buf
                        ++ (if FilterOpts.wants_separator buf
                            then [FilterOpts.amp] else []) ++ f1)
                        ++ [FilterOpts.qmark]) 0).
    { unfold FilterOpts.emit, TextBuf.buf_append_bytes.
      destruct (FilterOpts.wants_separator buf); rewrite He;
        cbn [Z.eqb TextBuf.buf_err TextBuf.buf_data];
        rewrite <- ?app_assoc; reflexivity. }
    rewrite E1. unfold FilterOpts.emit. rewrite wants_separator_qmark.
    unfold TextBuf.buf_append_bytes, TextBuf.buf_error.
    cbn [Z.eqb TextBuf.buf_err TextBuf.buf_data].
    rewrite <- !app_assoc. reflexivity.
  - rewrite <- Hq. rewrite !length_app. cbn [List.length]. lia.
Qed.

Lemma field_ending_in_qmark_swallows_separator_witness :
  FilterOpts.filter_opts
    (TextBuf.mk_buf (list_ascii_of_string "x=1") 0)
    (list_ascii_of_string "a=" ++ [FilterOpts.qmark] ++ FilterOpts.amp
       :: list_ascii_of_string "b=2")
    (intercalate FilterOpts.comma [list_ascii_of_string "preferred-ip"]) 0
  = Some (0, TextBuf.mk_buf (list_ascii_of_string "x=1&a=?b=2") 0).
Proof.
  refine (eq_trans
            (field_ending_in_qmark_swallows_separator
               (TextBuf.mk_buf (list_ascii_of_string "x=1") 0)
               [list_ascii_of_string "preferred-ip"] 0
               (list_ascii_of_string "a=") (list_ascii_of_string "b=2")
               _ _ _ _ _ _) _);
    unfold plain_field, plain_name; plain_text.
Defined.

Section FilterLaws.
Import TextBuf FilterOpts.

Lemma joined_empty_buf (kept : list (list ascii)) :
  joined empty_buf kept = intercalate amp kept.
Proof. destruct kept; reflexivity. Qed.

Lemma filter_opts_from_empty (fields names : list (list ascii))
    (include : Z) :
  Forall plain_field fields -> Forall ends_plain fields ->
  Forall plain_name names ->
  filter_opts empty_buf (intercalate amp fields) (intercalate comma names)
    include
  = Some (0, mk_buf (intercalate amp (filter (keeps names include) fields))
               0).
Proof.
  intros Hf He Hn.
  rewrite (filter_opts_on_fields empty_buf fields names include eq_refl
             Hf He Hn).
  rewrite joined_empty_buf. reflexivity.
Qed.

Lemma filter_twice {A : Type} (p : A -> bool) (l : list A) :
  filter p (filter p l) = filter p l.
Proof.
  induction l as [|x l IH]; [reflexivity|].
  cbn [filter]. destruct (p x) eqn:E; [|exact IH].
  cbn [filter]. rewrite E, IH. reflexivity.
Qed.

Lemma Forall_filter {A : Type} (P : A -> Prop) (p : A -> bool) (l : list A) :
  Forall P l -> Forall P (filter p l).
Proof.
  intros H. apply Forall_forall. intros x Hx. apply filter_In in Hx.
  rewrite Forall_forall in H. apply H. tauto.
Qed.

Lemma filter_split {A : Type} (p : A -> bool) (l : list A) :
  Permutation (filter p l ++ filter (fun x => negb (p x)) l) l.
Proof.
  induction l as [|x l IH]; [constructor|].
  cbn [filter]. destruct (p x); cbn [negb app].
  - constructor. exact IH.
  - apply Permutation_sym, Permutation_cons_app, Permutation_sym. exact IH.
Qed.

End FilterLaws.

(** X28. Filtering twice is filtering once.  For a well-formed query and
    well-formed names, what [filter_opts] writes into an empty buffer is
    again a well-formed query, and filtering that text with the same
    names and the same mode gives the same text. *)
Theorem filter_opts_is_idempotent
    (fields names : list (list ascii)) (include : Z) :
  Forall plain_field fields -> Forall ends_plain fields ->
  Forall plain_name names ->
  exists once,
    FilterOpts.filter_opts empty_buf (intercalate FilterOpts.amp fields)
      (intercalate FilterOpts.comma names) include
    = Some (0, TextBuf.mk_buf once 0)
    /\ FilterOpts.filter_opts empty_buf once
         (intercalate FilterOpts.comma names) include
       = Some (0, TextBuf.mk_buf once 0).
Proof.
  intros Hf He Hn.
  exists (intercalate FilterOpts.amp (filter (keeps names include) fields)).
  split; [apply filter_opts_from_empty; assumption|].
  rewrite filter_opts_from_empty;
    [ | apply Forall_filter; assumption | apply Forall_filter; assumption
      | assumption ].
  rewrite filter_twice. reflexivity.
Qed.

Lemma filter_opts_is_idempotent_witness :
  exists once,
    FilterOpts.filter_opts empty_buf
      (intercalate FilterOpts.amp
         [list_ascii_of_string "user=u"; list_ascii_of_string "preferred-ip=1";
          list_ascii_of_string "authcookie=c"])
      (intercalate FilterOpts.comma [list_ascii_of_string "preferred-ip"]) 0
    = Some (0, TextBuf.mk_buf once 0)
    /\ FilterOpts.filter_opts empty_buf once
         (intercalate FilterOpts.comma [list_ascii_of_string "preferred-ip"])
         0
       = Some (0, TextBuf.mk_buf once 0).
Proof.
  apply (filter_opts_is_idempotent
           [list_ascii_of_string "user=u"; list_ascii_of_string "preferred-ip=1";
            list_ascii_of_string "authcookie=c"]
           [list_ascii_of_string "preferred-ip"] 0);
    unfold ends_plain, plain_field, plain_name; plain_text.
Defined.

(** X29. Keeping and dropping the same names splits the query.  For a
    well-formed query and well-formed names, the fields written in
    include mode together with the fields written in exclude mode are
    the fields of the query, each exactly once. *)
Theorem include_and_exclude_split_the_query
    (fields names : list (list ascii)) :
  Forall plain_field fields -> Forall ends_plain fields ->
  Forall plain_name names ->
  exists kept dropped,
    FilterOpts.filter_opts empty_buf (intercalate FilterOpts.amp fields)
      (intercalate FilterOpts.comma names) 1
    = Some (0, TextBuf.mk_buf (intercalate FilterOpts.amp kept) 0)
    /\ FilterOpts.filter_opts empty_buf (intercalate FilterOpts.amp fields)
         (intercalate FilterOpts.comma names) 0
       = Some (0, TextBuf.mk_buf (intercalate FilterOpts.amp dropped) 0)
    /\ Permutation (kept ++ dropped) fields.
Proof.
  intros Hf He Hn.
  exists (filter (keeps names 1) fields), (filter (keeps names 0) fields).
  split; [apply filter_opts_from_empty; assumption|].
  split; [apply filter_opts_from_empty; assumption|].
  rewrite (filter_ext (keeps names 0)
             (fun x => negb (keeps names 1 x))).
  - apply filter_split.
  - intros a. unfold keeps. cbn [Z.eqb negb].
    destruct (in_names (key_of a) names); reflexivity.
Qed.

Lemma include_and_exclude_split_the_query_witness :
  exists kept dropped,
    FilterOpts.filter_opts empty_buf
      (intercalate FilterOpts.amp
         [list_ascii_of_string "user=u"; list_ascii_of_string "portal=p";
          list_ascii_of_string "authcookie=c"])
      (intercalate FilterOpts.comma tunnel_names) 1
    = Some (0, TextBuf.mk_buf (intercalate FilterOpts.amp kept) 0)
    /\ FilterOpts.filter_opts empty_buf
         (intercalate FilterOpts.amp
            [list_ascii_of_string "user=u"; list_ascii_of_string "portal=p";
             list_ascii_of_string "authcookie=c"])
         (intercalate FilterOpts.comma tunnel_names) 0
       = Some (0, TextBuf.mk_buf (intercalate FilterOpts.amp dropped) 0)
    /\ Permutation (kept ++ dropped)
         [list_ascii_of_string "user=u"; list_ascii_of_string "portal=p";
          list_ascii_of_string "authcookie=c"].
Proof.
  apply (include_and_exclude_split_the_query
           [list_ascii_of_string "user=u"; list_ascii_of_string "portal=p";
            list_ascii_of_string "authcookie=c"]
           tunnel_names);
    unfold ends_plain, plain_field, plain_name; plain_text.
Defined.

(* ------------------------------------------------------------------ *)
(** ** Challenge-script parser *)

Section JsLines.
Import CStr Js.

Lemma skip_space_from_app (ws r b : list ascii) :
  all_space ws -> starts_clean r ->
  skip_space_from b (ws ++ r) = mk_cptr (rev ws ++ b) r.
Proof.
  revert b. induction ws as [|w ws IH]; intros b Hws Hr.
  - cbn [app rev]. destruct r as [|c r']; [reflexivity|].
    cbn [skip_space_from]. cbn in Hr. rewrite Hr. reflexivity.
  - unfold all_space in Hws. cbn [forallb] in Hws.
    apply andb_prop in Hws. destruct Hws as [Hw Hws].
    cbn [app skip_space_from]. rewrite Hw.
    rewrite (IH (w :: b) Hws Hr). cbn [rev]. rewrite <- app_assoc.
    reflexivity.
Qed.

Lemma strncmp0_prefix (pre r : list ascii) :
  strncmp0 (pre ++ r) pre (List.length pre) = true.
Proof.
  induction pre as [|c pre IH]; [reflexivity|].
  cbn [app List.length strncmp0]. rewrite Ascii.eqb_refl. exact IH.
Qed.

Lemma advance_app (pre r b : list ascii) :
  advance (List.length pre) (mk_cptr b (pre ++ r)) = mk_cptr (rev pre ++ b) r.
Proof.
  revert b. induction pre as [|c pre IH]; intros b.
  - cbn. destruct r; reflexivity.
  - cbn [List.length app advance after before].
    rewrite IH. cbn [rev]. rewrite <- app_assoc. reflexivity.
Qed.

Lemma strchr_from_app (l r b : list ascii) :
  no_newline l ->
  strchr_from b (l ++ newline :: r) newline
  = Some (mk_cptr (rev l ++ b) (newline :: r)).
Proof.
  revert b. induction l as [|x l IH]; intros b Hl.
  - cbn [app rev strchr_from]. rewrite Ascii.eqb_refl. reflexivity.
  - unfold no_newline in Hl. cbn [forallb] in Hl.
    apply andb_prop in Hl. destruct Hl as [Hx Hl].
    cbn [app strchr_from].
    destruct (Ascii.eqb x newline); [discriminate|].
    rewrite (IH (x :: b) Hl). cbn [rev]. rewrite <- app_assoc.
    reflexivity.
Qed.

(** What the parser finds on one well-formed line
    [ws ++ pre ++ val ++ eol], starting with the pointer at [ws]:
    the prefix matches, the newline is found, the line-end test passes,
    and the value is the text between the prefix and the closing quote. *)
Lemma line_scan (b ws pre val rest : list ascii) :
  all_space ws -> starts_clean (pre ++ val ++ eol ++ rest) ->
  no_newline val ->
  let end0 := skip_space (mk_cptr b (ws ++ pre ++ val ++ eol ++ rest)) in
  let start := advance (List.length pre) end0 in
  let end1 := mk_cptr (semicolon :: dquote :: rev val ++ rev pre ++ rev ws ++ b)
                      (newline :: rest) in
  strncmp0 (after end0) pre (List.length pre) = true
  /\ after start = val ++ eol ++ rest
  /\ strchr start newline = Some end1
  /\ bad_line_end end1 = false
  /\ (ptr_diff end1 start <? 2) = false
  /\ strndup start (ptr_diff end1 start - 2) = val.
Proof.
  intros Hws Hclean Hval end0 start end1.
  assert (E0 : end0 = mk_cptr (rev ws ++ b) (pre ++ val ++ eol ++ rest)).
  { unfold end0, skip_space. cbn [before after].
    apply skip_space_from_app; assumption. }
  assert (Es : start = mk_cptr (rev pre ++ rev ws ++ b) (val ++ eol ++ rest)).
  { unfold start. rewrite E0. apply advance_app. }
  assert (Hd : ptr_diff end1 start = Z.of_nat (List.length val) + 2).
  { rewrite Es. unfold ptr_diff, end1. cbn [before List.length].
    rewrite !length_app, !length_rev. lia. }
  split; [rewrite E0; apply strncmp0_prefix|].
  split; [rewrite Es; reflexivity|].
  split.
  { rewrite Es. unfold strchr. cbn [before after].
    change (val ++ eol ++ rest)
      with (val ++ [dquote; semicolon] ++ newline :: rest).
    rewrite (app_assoc val [dquote; semicolon] (newline :: rest)).
    rewrite strchr_from_app.
    - rewrite rev_app_distr. cbn [rev app]. reflexivity.
    - unfold no_newline in *. rewrite forallb_app, Hval. reflexivity. }
  split; [reflexivity|].
  split; [rewrite Hd; apply Z.ltb_ge; lia|].
  rewrite Hd, Es. unfold strndup. cbn [after].
  replace (Z.to_nat (Z.of_nat (List.length val) + 2 - 2))
    with (List.length val + 0)%nat by lia.
  rewrite firstn_app_2. cbn [firstn]. apply app_nil_r.
Qed.

End JsLines.

Section JsTheorems.
Import CStr Js.

(** The parser's state once the first two lines of [error_body] are
    read: what remains is decided by the third line alone. *)
Lemma error_body_two_lines (ws0 ws1 msg tail : list ascii) :
  all_space ws0 -> all_space ws1 -> no_newline msg ->
  exists b,
    parse_javascript (error_body ws0 ws1 msg tail) =
      let end_ := skip_space (mk_cptr b (newline :: tail)) in
      if negb (strncmp0 end_.(after) pre_inputStr (List.length pre_inputStr))
      then js_err else
      let start := advance (List.length pre_inputStr) end_ in
      match strchr start newline with
      | None => js_err
      | Some end_ =>
          if bad_line_end end_ || (ptr_diff end_ start <? 2) then js_err else
          let inputStr := strndup start (ptr_diff end_ start - 2) in
          let end_ := skip_space end_ in
          if negb (Ascii.eqb (deref end_) NUL) then js_err
          else mk_js 1 (Some msg) (Some inputStr)
      end.
Proof.
  intros H0 H1 Hm.
  set (R1 := ws1 ++ pre_prompt ++ msg ++ eol ++ tail).
  pose proof (line_scan [] ws0 pre_status (chars "Error") R1 H0 eq_refl
                eq_refl) as L1.
  cbv zeta in L1. destruct L1 as (A1 & A2 & A3 & A4 & _ & _).
  set (B1 := semicolon :: dquote :: rev (chars "Error") ++ rev pre_status
               ++ rev ws0 ++ []) in *.
  assert (H1' : all_space (newline :: ws1)) by exact H1.
  pose proof (line_scan B1 (newline :: ws1) pre_prompt msg tail H1' eq_refl
                Hm) as L2.
  cbv zeta in L2. cbn [app] in L2.
  destruct L2 as (C1 & C2 & C3 & C4 & C5 & C6).
  eexists.
  unfold parse_javascript, error_body. fold R1. cbv zeta.
  rewrite A1. cbn [negb]. rewrite A3, A4, A2.
  assert (S1 : forall t, strncmp0 (chars "Error" ++ t) (chars "Challenge") 8
                         = false) by reflexivity.
  assert (S2 : forall t, strncmp0 (chars "Error" ++ t) (chars "Error") 5
                         = true) by reflexivity.
  rewrite S1, S2. unfold R1.
  rewrite C1. cbn [negb]. rewrite C3, C4, C5. cbn [orb].
  rewrite C6. reflexivity.
Qed.

(** C5, as the specification states it, fails: a well-formed [Error]
    status line followed by a well-formed [respMsg] line and nothing
    else is rejected with [-EINVAL]. *)
Lemma error_without_inputStr_is_rejected :
  parse_javascript
    (pre_status ++ chars "Error" ++ eol ++ pre_prompt ++ chars "Bad" ++ eol)
  = mk_js (- EINVAL) None None.
Proof. vm_compute. reflexivity. Qed.

(** C5 (amended). For a body whose [respStatus] line says [Error] and
    whose [respMsg] line is well formed, the third line is required all
    the same: if what follows the [respMsg] line (after white space) does
    not begin with the [thisForm.inputStr.value] prefix, in particular if
    nothing follows, the parser fails with [-EINVAL]; if a well-formed
    [inputStr] line followed only by white space is there, the parser
    returns the Error status 1 with the prompt and the input string. *)
Theorem error_status_needs_inputStr_line (ws0 ws1 ws2 msg r : list ascii) :
  all_space ws0 -> all_space ws1 -> all_space ws2 -> no_newline msg ->
  starts_clean r ->
  (strncmp0 r pre_inputStr (List.length pre_inputStr) = false ->
   parse_javascript (error_body ws0 ws1 msg (ws2 ++ r))
   = mk_js (- EINVAL) None None)
  /\ (forall inp ws3, no_newline inp -> all_space ws3 ->
      parse_javascript
        (error_body ws0 ws1 msg (ws2 ++ pre_inputStr ++ inp ++ eol ++ ws3))
      = mk_js 1 (Some msg) (Some inp)).
Proof.
  intros H0 H1 H2 Hm Hr. split.
  - intros Hno.
    destruct (error_body_two_lines ws0 ws1 msg (ws2 ++ r) H0 H1 Hm)
      as (b & E).
    rewrite E. cbv zeta.
    assert (Hs : skip_space (mk_cptr b (newline :: ws2 ++ r))
                 = mk_cptr (rev (newline :: ws2) ++ b) r).
    { unfold skip_space. cbn [before after].
      apply (skip_space_from_app (newline :: ws2) r b); [exact H2|exact Hr]. }
    rewrite Hs. cbn [after]. rewrite Hno. reflexivity.
  - intros inp ws3 Hi H3.
    destruct (error_body_two_lines ws0 ws1 msg
                (ws2 ++ pre_inputStr ++ inp ++ eol ++ ws3) H0 H1 Hm)
      as (b & E).
    rewrite E. clear E.
    assert (H2' : all_space (newline :: ws2)) by exact H2.
    pose proof (line_scan b (newline :: ws2) pre_inputStr inp ws3 H2' eq_refl
                  Hi) as L3.
    cbv zeta in L3. cbn [app] in L3.
    destruct L3 as (C1 & C2 & C3 & C4 & C5 & C6).
    cbv zeta. rewrite C1. cbn [negb]. rewrite C3, C4, C5. cbn [orb].
    rewrite C6.
    assert (Hs : forall b', skip_space (mk_cptr b' (newline :: ws3))
                 = mk_cptr (rev (newline :: ws3) ++ b') []).
    { intros b'. unfold skip_space. cbn [before after].
      rewrite <- (app_nil_r (newline :: ws3)) at 1.
      apply (skip_space_from_app (newline :: ws3) [] b'); [exact H3|exact I]. }
    rewrite Hs. reflexivity.
Qed.

Lemma error_status_needs_inputStr_line_witness :
  parse_javascript (error_body [] [] (chars "Bad") ([] ++ []))
  = mk_js (- EINVAL) None None.
Proof.
  refine (proj1 (error_status_needs_inputStr_line [] [] [] (chars "Bad") []
                   _ _ _ _ _) _); reflexivity || exact I.
Defined.

End JsTheorems.

(* ------------------------------------------------------------------ *)
(** ** [parse_javascript] *)

Section JsShape.
Import CStr Js.

(** Comparing the first [n] bytes of a quoted word with a pattern that
    holds no quote compares the first [n] bytes of the word. *)
Lemma strncmp0_quoted (n : nat) :
  forall st r pat,
    (n <= List.length pat)%nat -> ~ In dquote (firstn n pat) ->
    strncmp0 (st ++ dquote :: r) pat n
    = text_eqb (firstn n st) (firstn n pat).
Proof.
  induction n as [|n IH]; intros st r pat Hn Hq; [reflexivity|].
  destruct pat as [|y pat]; [cbn in Hn; lia|].
  cbn [firstn] in Hq.
  destruct st as [|x st].
  - cbn [app strncmp0 firstn text_eqb].
    destruct (Ascii.eqb_spec dquote y) as [E|_]; [|reflexivity].
    exfalso. apply Hq. left. symmetry. exact E.
  - cbn [app strncmp0 firstn text_eqb]. rewrite IH.
    + reflexivity.
    + cbn [List.length] in Hn. lia.
    + intros H. apply Hq. right. exact H.
Qed.

Lemma status_test (st r : list ascii) :
  (if strncmp0 (st ++ eol ++ r) (chars "Challenge") 8 then Some 0
   else if strncmp0 (st ++ eol ++ r) (chars "Error") 5 then Some 1
   else None)
  = status_of st.
Proof.
  unfold eol. cbn [app].
  rewrite !strncmp0_quoted;
    [ reflexivity | cbn; lia | apply notin_existsb; reflexivity
    | cbn; lia | apply notin_existsb; reflexivity ].
Qed.

Lemma skip_space_to_end (ws b : list ascii) :
  all_space ws ->
  skip_space (mk_cptr b (newline :: ws)) = mk_cptr (rev (newline :: ws) ++ b) [].
Proof.
  intros H. unfold skip_space. cbn [before after].
  rewrite <- (app_nil_r (newline :: ws)) at 1.
  apply (skip_space_from_app (newline :: ws) [] b); [exact H|exact I].
Qed.

End JsShape.

(** The parser on a body of three well-formed lines. *)
Lemma parse_three_lines
    (ws0 st ws1 msg ws2 inp ws3 : list ascii) :
  all_space ws0 -> all_space ws1 -> all_space ws2 -> all_space ws3 ->
  no_newline st -> no_newline msg -> no_newline inp ->
  Js.parse_javascript (three_lines ws0 st ws1 msg ws2 inp ws3)
  = match status_of st with
    | Some status => Js.mk_js status (Some msg) (Some inp)
    | None => Js.mk_js (- EINVAL) None None
    end.
Proof.
  intros H0 H1 H2 H3 Hs Hm Hi.
  set (R2 := ws2 ++ Js.pre_inputStr ++ inp ++ eol ++ ws3).
  set (R1 := ws1 ++ Js.pre_prompt ++ msg ++ eol ++ R2).
  pose proof (line_scan [] ws0 Js.pre_status st R1 H0 eq_refl Hs) as L1.
  cbv zeta in L1. destruct L1 as (A1 & A2 & A3 & A4 & _ & _).
  set (B1 := Js.semicolon :: Js.dquote :: rev st ++ rev Js.pre_status
               ++ rev ws0 ++ []) in *.
  assert (H1' : all_space (Js.newline :: ws1)) by exact H1.
  pose proof (line_scan B1 (Js.newline :: ws1) Js.pre_prompt msg R2 H1'
                eq_refl Hm) as L2.
  cbv zeta in L2. cbn [app] in L2.
  destruct L2 as (C1 & C2 & C3 & C4 & C5 & C6).
  set (B2 := Js.semicolon :: Js.dquote :: rev msg ++ rev Js.pre_prompt
               ++ rev (Js.newline :: ws1) ++ B1) in *.
  assert (H2' : all_space (Js.newline :: ws2)) by exact H2.
  pose proof (line_scan B2 (Js.newline :: ws2) Js.pre_inputStr inp ws3 H2'
                eq_refl Hi) as L3.
  cbv zeta in L3. cbn [app] in L3.
  destruct L3 as (D1 & D2 & D3 & D4 & D5 & D6).
  unfold Js.parse_javascript, three_lines. fold R2. fold R1. cbv zeta.
  rewrite A1. cbn [negb]. rewrite A3, A4, A2.
  rewrite status_test.
  destruct (status_of st) as [status|]; [|reflexivity].
  unfold R1. rewrite C1. cbn [negb]. rewrite C3, C4, C5. cbn [orb].
  rewrite C6. unfold R2.
  rewrite D1. cbn [negb]. rewrite D3, D4, D5. cbn [orb]. rewrite D6.
  rewrite skip_space_to_end by exact H3. reflexivity.
Qed.

(** X5. On every body of three well-formed lines the status word alone
    decides the result, and only its leading bytes are looked at: when
    its first eight bytes are [Challeng] the parser returns 0, else when
    its first five bytes are [Error] it returns 1, in both cases with the
    prompt and the input string of the second and third line; with any
    other status word it fails with [-EINVAL] and hands out no string. *)
Theorem status_word_decides_result
    (ws0 st ws1 msg ws2 inp ws3 : list ascii) :
  all_space ws0 -> all_space ws1 -> all_space ws2 -> all_space ws3 ->
  no_newline st -> no_newline msg -> no_newline inp ->
  Js.parse_javascript (three_lines ws0 st ws1 msg ws2 inp ws3)
  = match status_of st with
    | Some status => Js.mk_js status (Some msg) (Some inp)
    | None => Js.mk_js (- EINVAL) None None
    end.
Proof.
  exact (parse_three_lines ws0 st ws1 msg ws2 inp ws3).
Qed.

Lemma status_word_decides_result_witness :
  Js.parse_javascript
    (three_lines [] (Js.chars "Challenged") [] (Js.chars "Enter PIN") []
       (Js.chars "abc") [Js.newline])
  = Js.mk_js 0 (Some (Js.chars "Enter PIN")) (Some (Js.chars "abc")).
Proof.
  refine (eq_trans
            (status_word_decides_result [] (Js.chars "Challenged") []
               (Js.chars "Enter PIN") [] (Js.chars "abc") [Js.newline]
               _ _ _ _ _ _ _) _); reflexivity.
Defined.

Section JsInverse.
Import CStr Js.

Lemma skip_space_from_split (a : list ascii) :
  forall b, exists ws r,
    a = ws ++ r /\ all_space ws /\ starts_clean r
    /\ skip_space_from b a = mk_cptr (rev ws ++ b) r.
Proof.
  induction a as [|c a IH]; intros b.
  - exists [], []. repeat split.
  - cbn [skip_space_from]. destruct (isspace c) eqn:Ec.
    + destruct (IH (c :: b)) as (ws & r & E & Hws & Hr & Hs).
      exists (c :: ws), r. split; [rewrite E; reflexivity|]. split.
      * unfold all_space in *. cbn [forallb]. rewrite Ec. exact Hws.
      * split; [exact Hr|]. rewrite Hs. cbn [rev]. rewrite <- app_assoc.
        reflexivity.
    + exists [], (c :: a). repeat split. exact Ec.
Qed.

Lemma strncmp0_prefix_inv (pre : list ascii) :
  forall a, strncmp0 a pre (List.length pre) = true -> exists r, a = pre ++ r.
Proof.
  induction pre as [|c pre IH]; intros a H; [exists a; reflexivity|].
  cbn [List.length strncmp0] in H.
  destruct a as [|x a]; [discriminate|].
  apply andb_prop in H. destruct H as [Hx Ha].
  apply Ascii.eqb_eq in Hx. subst x.
  destruct (IH a Ha) as [r ->]. exists r. reflexivity.
Qed.

Lemma strchr_from_split (a : list ascii) :
  forall b e, strchr_from b a newline = Some e ->
    exists l r, a = l ++ newline :: r /\ no_newline l
      /\ e = mk_cptr (rev l ++ b) (newline :: r).
Proof.
  induction a as [|x a IH]; intros b e H; [discriminate|].
  cbn [strchr_from] in H. destruct (Ascii.eqb_spec x newline) as [->|Hx].
  - injection H as <-. exists [], a. repeat split.
  - destruct (IH _ _ H) as (l & r & E & Hl & He).
    exists (x :: l), r. split; [rewrite E; reflexivity|]. split.
    + unfold no_newline in *. cbn [forallb].
      rewrite (proj2 (Ascii.eqb_neq _ _) Hx). exact Hl.
    + rewrite He. cbn [rev]. rewrite <- app_assoc. reflexivity.
Qed.

(** The scan of one line, read backwards: when the prefix test and the
    search for the newline succeed, the text at the pointer is white
    space, the prefix, a text without newline, the newline. *)
Lemma line_found (b a pre : list ascii) (end1 : cptr) :
  let end0 := skip_space (mk_cptr b a) in
  let start := advance (List.length pre) end0 in
  strncmp0 (after end0) pre (List.length pre) = true ->
  strchr start newline = Some end1 ->
  exists ws x rest,
    a = ws ++ pre ++ x ++ newline :: rest
    /\ all_space ws /\ no_newline x
    /\ start = mk_cptr (rev pre ++ rev ws ++ b) (x ++ newline :: rest)
    /\ end1 = mk_cptr (rev x ++ rev pre ++ rev ws ++ b) (newline :: rest).
Proof.
  intros end0 start Hpre Hnl.
  destruct (skip_space_from_split a b) as (ws & r & Ea & Hws & _ & Hs).
  assert (E0 : end0 = mk_cptr (rev ws ++ b) r) by exact Hs.
  rewrite E0 in Hpre. cbn [after] in Hpre.
  destruct (strncmp0_prefix_inv pre r Hpre) as [r' ->].
  assert (Es : start = mk_cptr (rev pre ++ rev ws ++ b) r').
  { unfold start. rewrite E0. apply advance_app. }
  rewrite Es in Hnl. unfold strchr in Hnl. cbn [before after] in Hnl.
  destruct (strchr_from_split _ _ _ Hnl) as (x & rest & -> & Hx & He).
  exists ws, x, rest. repeat split; assumption.
Qed.

(** The line-end test, read backwards. *)
Lemma line_end_found (x b r : list ascii) :
  bad_line_end (mk_cptr (rev x ++ b) r) = false ->
  (2 <= List.length x)%nat ->
  exists val, x = val ++ [dquote; semicolon].
Proof.
  intros Hbad Hlen.
  destruct (rev x) as [|y [|z t]] eqn:Er.
  - apply (f_equal (@List.length ascii)) in Er. rewrite length_rev in Er.
    cbn in Er. lia.
  - apply (f_equal (@List.length ascii)) in Er. rewrite length_rev in Er.
    cbn in Er. lia.
  - unfold bad_line_end, at_m1, at_m2 in Hbad. cbn [before app nth] in Hbad.
    apply orb_false_elim in Hbad. destruct Hbad as [Hy Hz].
    apply negb_false_iff, Ascii.eqb_eq in Hy.
    apply negb_false_iff, Ascii.eqb_eq in Hz. subst y z.
    exists (rev t). rewrite <- (rev_involutive x), Er. cbn [rev].
    rewrite <- app_assoc. reflexivity.
Qed.

Lemma strndup_value (val r b : list ascii) (n : Z) :
  n = Z.of_nat (List.length val) ->
  strndup (mk_cptr b (val ++ r)) n = val.
Proof.
  intros ->. unfold strndup. cbn [after]. rewrite Nat2Z.id.
  rewrite firstn_app, firstn_all, Nat.sub_diag. cbn [firstn].
  apply app_nil_r.
Qed.

End JsInverse.

Section JsSound.
Import CStr Js.

(** The second and the third line, read backwards: the pointer is at the
    newline that ended the line before. *)
Lemma value_line (b rest0 pre : list ascii) (end1 : cptr) :
  hd newline pre <> newline ->
  let end0 := skip_space (mk_cptr b (newline :: rest0)) in
  let start := advance (List.length pre) end0 in
  strncmp0 (after end0) pre (List.length pre) = true ->
  strchr start newline = Some end1 ->
  bad_line_end end1 || (ptr_diff end1 start <? 2) = false ->
  exists ws val rest,
    rest0 = ws ++ pre ++ val ++ eol ++ rest
    /\ all_space ws /\ no_newline val
    /\ strndup start (ptr_diff end1 start - 2) = val
    /\ end1 = mk_cptr (semicolon :: dquote :: rev val ++ rev pre
                         ++ rev (newline :: ws) ++ b) (newline :: rest).
Proof.
  intros Hpre end0 start H1 H2 H3.
  destruct (line_found b (newline :: rest0) pre end1 H1 H2)
    as (ws & x & rest & Ea & Hws & Hx & Es & Ee).
  apply orb_false_elim in H3. destruct H3 as [Hbad Hlen].
  fold end0 in Es. fold start in Es.
  assert (Hd : ptr_diff end1 start = Z.of_nat (List.length x)).
  { rewrite Es, Ee. unfold ptr_diff. cbn [before].
    rewrite !length_app, !length_rev. lia. }
  rewrite Hd in Hlen. apply Z.ltb_ge in Hlen.
  rewrite Ee in Hbad.
  destruct (line_end_found x _ _ Hbad) as [val ->]; [lia|].
  destruct ws as [|w ws].
  { exfalso. cbn [app] in Ea. destruct pre as [|c pre'].
    - cbn [app] in Ea. destruct val; cbn in Ea; injection Ea as E _;
        cbn in Hx; rewrite <- E in Hx; discriminate.
    - cbn [app hd] in *. injection Ea as E _. congruence. }
  cbn [app] in Ea. injection Ea as <- Ea.
  exists ws, val, rest. split.
  { rewrite Ea, <- !app_assoc. reflexivity. }
  split.
  { unfold all_space in *. cbn [forallb] in Hws.
    apply andb_prop in Hws. tauto. }
  split.
  { unfold no_newline in *. rewrite forallb_app in Hx.
    apply andb_prop in Hx. tauto. }
  split.
  { rewrite Hd, Es, <- app_assoc. apply strndup_value.
    rewrite length_app. cbn [List.length]. lia. }
  rewrite Ee, rev_app_distr. reflexivity.
Qed.

End JsSound.

(** X6. The converse: [parse_javascript] accepts nothing else.  For
    every body (a C string, so without NUL byte) the parser either fails
    with [-EINVAL] and hands out no string, or the body is three
    well-formed lines, each ended by quote, semicolon, newline, with
    only white space before, between and after them, the status word
    starts with [Challeng] or [Error], and the result is that status (0
    or 1) with exactly the prompt and the input string of the second and
    third line. *)
Theorem accepted_body_is_three_lines (buf : list ascii) :
  ~ In CStr.NUL buf ->
  Js.parse_javascript buf = Js.mk_js (- EINVAL) None None
  \/ exists ws0 st ws1 msg ws2 inp ws3 status,
       buf = three_lines ws0 st ws1 msg ws2 inp ws3
       /\ all_space ws0 /\ all_space ws1 /\ all_space ws2 /\ all_space ws3
       /\ no_newline st /\ no_newline msg /\ no_newline inp
       /\ status_of st = Some status
       /\ Js.parse_javascript buf = Js.mk_js status (Some msg) (Some inp).
Proof.
  intros Hnul. unfold Js.parse_javascript. cbv zeta.
  set (end0 := CStr.skip_space (CStr.mk_cptr [] buf)).
  destruct (CStr.strncmp0 (CStr.after end0) Js.pre_status
              (List.length Js.pre_status)) eqn:E1;
    cbn [negb]; [|left; reflexivity].
  set (start1 := CStr.advance (List.length Js.pre_status) end0).
  destruct (CStr.strchr start1 Js.newline) as [end1|] eqn:E2;
    [|left; reflexivity].
  destruct (Js.bad_line_end end1) eqn:E3; [left; reflexivity|].
  destruct (line_found [] buf Js.pre_status end1 E1 E2)
    as (ws0 & x1 & rest1 & Ebuf & Hws0 & Hx1 & Es1 & Ee1).
  fold end0 in Es1. fold start1 in Es1.
  destruct (if CStr.strncmp0 (CStr.after start1) (Js.chars "Challenge") 8
            then Some 0
            else if CStr.strncmp0 (CStr.after start1) (Js.chars "Error") 5
                 then Some 1 else None) as [status|] eqn:Est;
    [|left; reflexivity].
  assert (Hst : exists st, x1 = st ++ [Js.dquote; Js.semicolon]).
  { rewrite Ee1 in E3. apply (line_end_found x1 _ _ E3).
    rewrite Es1 in Est. cbn [CStr.after] in Est.
    destruct x1 as [|c [|d x1']]; [discriminate Est| |cbn; lia].
    exfalso. unfold Js.bad_line_end, CStr.at_m1 in E3.
    cbn [CStr.before rev app nth] in E3.
    apply orb_false_elim in E3. destruct E3 as [Hc _].
    apply negb_false_iff, Ascii.eqb_eq in Hc. subst c.
    discriminate Est. }
  destruct Hst as [st ->].
  assert (Hstatus : status_of st = Some status).
  { rewrite Es1 in Est. cbn [CStr.after] in Est.
    rewrite <- Est, <- (status_test st rest1), <- app_assoc. reflexivity. }
  assert (Hst : no_newline st).
  { unfold no_newline in *. rewrite forallb_app in Hx1.
    apply andb_prop in Hx1. tauto. }
  rewrite Ee1.
  match goal with
  | |- context [CStr.skip_space ?p] => set (end1' := CStr.skip_space p)
  end.
  destruct (CStr.strncmp0 (CStr.after end1') Js.pre_prompt
              (List.length Js.pre_prompt)) eqn:F1;
    cbn [negb]; [|left; reflexivity].
  set (start2 := CStr.advance (List.length Js.pre_prompt) end1').
  destruct (CStr.strchr start2 Js.newline) as [end2|] eqn:F2;
    [|left; reflexivity].
  destruct (Js.bad_line_end end2 || (CStr.ptr_diff end2 start2 <? 2)) eqn:F3;
    [left; reflexivity|].
  destruct (value_line _ rest1 Js.pre_prompt end2 ltac:(discriminate) F1 F2 F3)
    as (ws1 & msg & rest2 & Er1 & Hws1 & Hmsg & Hdup1 & Ee2).
  fold end1' in Hdup1. fold start2 in Hdup1. rewrite Hdup1.
  rewrite Ee2.
  match goal with
  | |- context [CStr.skip_space ?p] => set (end2' := CStr.skip_space p)
  end.
  destruct (CStr.strncmp0 (CStr.after end2') Js.pre_inputStr
              (List.length Js.pre_inputStr)) eqn:G1;
    cbn [negb]; [|left; reflexivity].
  set (start3 := CStr.advance (List.length Js.pre_inputStr) end2').
  destruct (CStr.strchr start3 Js.newline) as [end3|] eqn:G2;
    [|left; reflexivity].
  destruct (Js.bad_line_end end3 || (CStr.ptr_diff end3 start3 <? 2)) eqn:G3;
    [left; reflexivity|].
  destruct (value_line _ rest2 Js.pre_inputStr end3 ltac:(discriminate)
              G1 G2 G3)
    as (ws2 & inp & rest3 & Er2 & Hws2 & Hinp & Hdup2 & Ee3).
  fold end2' in Hdup2. fold start3 in Hdup2. rewrite Hdup2.
  rewrite Ee3. unfold CStr.skip_space. cbn [CStr.before CStr.after].
  match goal with
  | |- context [CStr.skip_space_from ?b (Js.newline :: rest3)] =>
      destruct (skip_space_from_split (Js.newline :: rest3) b)
        as (ws & r & Ews & Hws & Hr & ->)
  end.
  unfold CStr.deref. cbn [CStr.after].
  destruct r as [|c r].
  - cbn [hd]. rewrite Ascii.eqb_refl. cbn [negb]. right.
    rewrite app_nil_r in Ews.
    destruct ws as [|w ws3]; [discriminate Ews|].
    injection Ews as <- ->.
    exists ws0, st, ws1, msg, ws2, inp, ws3, status.
    split.
    { rewrite Ebuf, Er1, Er2. unfold three_lines, eol.
      rewrite <- !app_assoc. reflexivity. }
    repeat (split; [assumption|]). reflexivity.
  - cbn [hd]. destruct (Ascii.eqb_spec c CStr.NUL) as [->|_];
      cbn [negb]; [|left; reflexivity].
    exfalso. apply Hnul. rewrite Ebuf, Er1, Er2.
    assert (Hin : In CStr.NUL (Js.newline :: rest3))
      by (rewrite Ews; apply in_or_app; right; left; reflexivity).
    destruct Hin as [Hin|Hin]; [discriminate Hin|].
    unfold eol. repeat (rewrite in_app_iff || cbn [In]). tauto.
Qed.

Lemma accepted_body_is_three_lines_witness :
  Js.parse_javascript
    (three_lines [] (Js.chars "Error") [] (Js.chars "Bad") []
       (Js.chars "x") [])
  = Js.mk_js (- EINVAL) None None
  \/ exists ws0 st ws1 msg ws2 inp ws3 status,
       three_lines [] (Js.chars "Error") [] (Js.chars "Bad") []
         (Js.chars "x") []
       = three_lines ws0 st ws1 msg ws2 inp ws3
       /\ all_space ws0 /\ all_space ws1 /\ all_space ws2 /\ all_space ws3
       /\ no_newline st /\ no_newline msg /\ no_newline inp
       /\ status_of st = Some status
       /\ Js.parse_javascript
            (three_lines [] (Js.chars "Error") [] (Js.chars "Bad") []
               (Js.chars "x") [])
          = Js.mk_js status (Some msg) (Some inp).
Proof.
  apply (accepted_body_is_three_lines
           (three_lines [] (Js.chars "Error") [] (Js.chars "Bad") []
              (Js.chars "x") [])).
  apply notin_existsb. reflexivity.
Defined.

(* ------------------------------------------------------------------ *)
(** ** [gpst_xml_or_error] *)

Section Classifier.

Lemma script_reply_parse (ws0 st ws1 msg ws2 inp ws3 : list ascii) :
  clean_lines ws0 st ws1 msg ws2 inp ws3 ->
  forall body,
    response (script_reply ws0 st ws1 msg ws2 inp ws3) = Some body ->
    Js.parse_javascript (list_ascii_of_string body)
    = match status_of st with
      | Some status => Js.mk_js status (Some msg) (Some inp)
      | None => Js.mk_js (- EINVAL) None None
      end.
Proof.
  intros (H0 & H1 & H2 & H3 & Hs & Hm & Hi) body [= <-].
  rewrite list_ascii_of_string_of_list_ascii.
  apply parse_three_lines; assumption.
Qed.

End Classifier.

(** X7. A challenge script (a body that is no XML document and whose
    three lines carry a status word starting with [Challeng]) is not an
    error of its own: when the caller passes both out-parameters the
    classifier returns [-EAGAIN] and hands out exactly the prompt and
    the input string of the script; when it does not, the classifier
    returns 0.  In both cases the callback is not called and [vpninfo]
    stays as it was. *)
Theorem challenge_script_is_handed_to_caller
    (v : openconnect_info) (result : Z) (xml_cb : option xml_cb_t)
    (ws0 st ws1 msg ws2 inp ws3 : list ascii) :
  0 <= result ->
  clean_lines ws0 st ws1 msg ws2 inp ws3 ->
  status_of st = Some 0 ->
  gpst_xml_or_error v result (script_reply ws0 st ws1 msg ws2 inp ws3)
    xml_cb true
  = (- EAGAIN, v, Some (msg, inp))
  /\ gpst_xml_or_error v result (script_reply ws0 st ws1 msg ws2 inp ws3)
       xml_cb false
     = (0, v, None).
Proof.
  intros Hr Hc Hs.
  pose proof (script_reply_parse ws0 st ws1 msg ws2 inp ws3 Hc _ eq_refl)
    as Hp.
  rewrite Hs in Hp.
  unfold gpst_xml_or_error.
  replace (result <? 0) with false by (symmetry; apply Z.ltb_ge; exact Hr).
  cbn [response xml_doc script_reply]. cbv zeta. rewrite Hp.
  split; reflexivity.
Qed.

Lemma challenge_script_is_handed_to_caller_witness :
  gpst_xml_or_error Sample.vpn0 100
    (script_reply [] (Js.chars "Challenge") [] (Js.chars "Enter PIN") []
       (Js.chars "abc") [])
    None true
  = (- EAGAIN, Sample.vpn0, Some (Js.chars "Enter PIN", Js.chars "abc")).
Proof.
  refine (proj1 (challenge_script_is_handed_to_caller Sample.vpn0 100 None
                   [] (Js.chars "Challenge") [] (Js.chars "Enter PIN") []
                   (Js.chars "abc") [] _ _ _));
    [lia | repeat split | reflexivity].
Defined.

(** X8. An [Error] script is reported with the positive value 1, not
    with a negative errno: the classifier returns 1 whatever callback
    and out-parameters it was given, hands out no string and leaves
    [vpninfo] as it was; [gpst_get_config] then returns 1 at once,
    releasing no option list, and [gpst_setup] returns 1 whatever the
    tunnel handshake would have answered. *)
Theorem error_script_returns_one
    (v : openconnect_info) (e : getconfig_env) (ce : connect_env)
    (ws0 st ws1 msg ws2 inp ws3 : list ascii) :
  gc_buf_error e = 0 -> 0 <= gc_https_result e ->
  gc_reply e = script_reply ws0 st ws1 msg ws2 inp ws3 ->
  clean_lines ws0 st ws1 msg ws2 inp ws3 ->
  status_of st = Some 1 ->
  (forall xml_cb want_challenge,
     gpst_xml_or_error v (gc_https_result e) (gc_reply e) xml_cb
       want_challenge = (1, v, None))
  /\ gpst_get_config v e = GcRet 1 v []
  /\ gpst_setup v e ce = Some (1, v).
Proof.
  intros Hb Hr He Hc Hs.
  pose proof (script_reply_parse ws0 st ws1 msg ws2 inp ws3 Hc _ eq_refl)
    as Hp.
  rewrite Hs in Hp.
  assert (Hx : forall xml_cb want_challenge,
             gpst_xml_or_error v (gc_https_result e) (gc_reply e) xml_cb
               want_challenge = (1, v, None)).
  { intros xml_cb wc. unfold gpst_xml_or_error.
    replace (gc_https_result e <? 0) with false
      by (symmetry; apply Z.ltb_ge; exact Hr).
    rewrite He. cbn [response xml_doc script_reply]. cbv zeta.
    rewrite Hp. reflexivity. }
  assert (Hg : gpst_get_config v e = GcRet 1 v []).
  { unfold gpst_get_config. rewrite Hb. cbn [Z.eqb negb].
    replace (gc_https_result e <? 0) with false
      by (symmetry; apply Z.ltb_ge; exact Hr).
    rewrite Hx. reflexivity. }
  split; [exact Hx|]. split; [exact Hg|].
  unfold gpst_setup. rewrite Hg. reflexivity.
Qed.

Lemma error_script_returns_one_witness :
  gpst_setup Sample.vpn0
    (mk_gc_env 0 100
       (script_reply [] (Js.chars "Error") [] (Js.chars "Bad") []
          (Js.chars "x") [])
       no_diag 1000)
    Sample.cn_good
  = Some (1, Sample.vpn0).
Proof.
  refine (proj2 (proj2 (error_script_returns_one Sample.vpn0
                          (mk_gc_env 0 100
                             (script_reply [] (Js.chars "Error") []
                                (Js.chars "Bad") [] (Js.chars "x") [])
                             no_diag 1000)
                          Sample.cn_good
                          [] (Js.chars "Error") [] (Js.chars "Bad") []
                          (Js.chars "x") [] _ _ _ _ _)));
    [reflexivity | cbn; lia | reflexivity | repeat split | reflexivity].
Defined.

(** X9. An error response never reaches the callback and never changes
    [vpninfo].  Its result is read off the first [<error>] child that
    has a text: [-EEXIST] for the two texts saying that the gateway or
    the portal does not exist, [-EPERM] for an invalid authentication
    cookie, [-EINVAL] for any other text.  When no [<error>] child has a
    text, the classifier logs the failure to parse but returns the
    result it was given, which is not negative. *)
Theorem error_response_result
    (v : openconnect_info) (result : Z) (r : reply) (body : string)
    (root : xmlNode) (xml_cb : option xml_cb_t) (want_challenge : bool) :
  0 <= result ->
  response r = Some body -> xml_doc r = Some root ->
  is_error_response root ->
  exists ret,
    gpst_xml_or_error v result r xml_cb want_challenge = (ret, v, None)
    /\ (forall pre n post err,
          node_children root = pre ++ n :: post ->
          Forall (fun m => forall s, xmlnode_get_text m "error" <> Ok s) pre ->
          xmlnode_get_text n "error" = Ok err ->
          ret = (if String.eqb err "GlobalProtect gateway does not exist"
                    || String.eqb err "GlobalProtect portal does not exist"
                 then - EEXIST
                 else if String.eqb err "Invalid authentication cookie"
                      then - EPERM else - EINVAL))
    /\ (Forall (fun m => forall s, xmlnode_get_text m "error" <> Ok s)
          (node_children root) ->
        ret = result /\ 0 <= ret).
Proof.
  intros Hr Hb Hx (Hn & Hs).
  assert (Hfind : forall pre n post err,
            Forall (fun m => forall s, xmlnode_get_text m "error" <> Ok s)
              pre ->
            xmlnode_get_text n "error" = Ok err ->
            find_error_text (pre ++ n :: post) = Some err).
  { induction pre as [|m pre IH]; intros n post err Hpre Hok.
    - cbn [app find_error_text]. rewrite Hok. reflexivity.
    - inversion Hpre as [|? ? Hm Hrest]; subst.
      cbn [app find_error_text].
      destruct (xmlnode_get_text m "error") as [s|c] eqn:Em.
      + exfalso. exact (Hm s eq_refl).
      + apply IH; assumption. }
  assert (Hnone : forall l,
            Forall (fun m => forall s, xmlnode_get_text m "error" <> Ok s) l ->
            find_error_text l = None).
  { induction l as [|m l IH]; intros Hl; [reflexivity|].
    inversion Hl as [|? ? Hm Hrest]; subst. cbn [find_error_text].
    destruct (xmlnode_get_text m "error") as [s|c] eqn:Em.
    - exfalso. exact (Hm s eq_refl).
    - apply IH. exact Hrest. }
  unfold gpst_xml_or_error.
  replace (result <? 0) with false by (symmetry; apply Z.ltb_ge; exact Hr).
  rewrite Hb, Hx, Hn, Hs. cbn [Z.eqb andb].
  destruct (find_error_text (node_children root)) as [err0|] eqn:Ef.
  - exists (map_error_text err0). split; [reflexivity|]. split.
    + intros pre n post err Hch Hpre Hok.
      rewrite Hch, (Hfind pre n post err Hpre Hok) in Ef.
      injection Ef as <-. reflexivity.
    + intros Hall. rewrite (Hnone _ Hall) in Ef. discriminate Ef.
  - exists result. split; [reflexivity|]. split.
    + intros pre n post err Hch Hpre Hok.
      rewrite Hch, (Hfind pre n post err Hpre Hok) in Ef. discriminate Ef.
    + intros _. split; [reflexivity | exact Hr].
Qed.

Lemma error_response_result_witness :
  exists ret,
    gpst_xml_or_error Sample.vpn0 100
      (mk_reply (Some "<response status=error/>"%string)
         (Some (XmlNode "response" [("status"%string, "error"%string)] None
                  [Sample.text_node "error" "Invalid authentication cookie"])))
      (Some (gpst_parse_config_xml 1000)) false
    = (ret, Sample.vpn0, None)
    /\ ret = - EPERM.
Proof.
  destruct (error_response_result Sample.vpn0 100
              (mk_reply (Some "<response status=error/>"%string)
                 (Some (XmlNode "response" [("status"%string, "error"%string)] None
                          [Sample.text_node "error"
                             "Invalid authentication cookie"])))
              "<response status=error/>"%string
              (XmlNode "response" [("status"%string, "error"%string)] None
                 [Sample.text_node "error" "Invalid authentication cookie"])
              (Some (gpst_parse_config_xml 1000)) false)
    as (ret & E & Hfirst & _);
    [lia | reflexivity | reflexivity | split; reflexivity |].
  exists ret. split; [exact E|].
  exact (Hfirst [] (Sample.text_node "error" "Invalid authentication cookie")
           [] "Invalid authentication cookie"%string eq_refl
           (Forall_nil _) eq_refl).
Defined.

(** X27. The classifier itself never writes to [vpninfo] and hands out
    strings on one path only.  For every input: when [vpninfo] differs
    afterwards, the reply was an XML document and the result and the new
    state are those of the callback applied to its root; when a prompt
    and an input string are handed out, the caller had passed both
    out-parameters and the result is [-EAGAIN]; and a negative result
    passed in comes back unchanged. *)
Theorem classifier_changes_state_through_callback_only
    (v : openconnect_info) (result : Z) (r : reply)
    (xml_cb : option xml_cb_t) (want_challenge : bool)
    (ret : Z) (v' : openconnect_info)
    (out : option (list ascii * list ascii)) :
  gpst_xml_or_error v result r xml_cb want_challenge = (ret, v', out) ->
  (v' <> v ->
     exists root cb, xml_doc r = Some root /\ xml_cb = Some cb
                     /\ cb v root = (ret, v'))
  /\ (out <> None -> want_challenge = true /\ ret = - EAGAIN /\ v' = v)
  /\ (result < 0 -> ret = result /\ v' = v /\ out = None).
Proof.
  unfold gpst_xml_or_error.
  destruct (Z.ltb_spec result 0) as [Hneg|Hpos].
  { intros [= <- <- <-]. repeat split; try congruence; tauto. }
  assert (Hsame : forall ret0,
            (ret0, v, @None (list ascii * list ascii)) = (ret, v', out) ->
            (v' <> v ->
               exists root cb, xml_doc r = Some root /\ xml_cb = Some cb
                               /\ cb v root = (ret, v'))
            /\ (out <> None ->
                want_challenge = true /\ ret = - EAGAIN /\ v' = v)
            /\ (result < 0 -> ret = result /\ v' = v /\ out = None)).
  { intros ret0 [= <- <- <-]. split; [congruence|].
    split; [congruence | lia]. }
  destruct (response r) as [body|]; [|apply Hsame].
  destruct (xml_doc r) as [root|].
  - destruct (_ && _).
    + destruct (find_error_text _); apply Hsame.
    + destruct xml_cb as [cb|]; [|apply Hsame].
      destruct (cb v root) as [ret0 v0] eqn:Ecb. intros [= <- <- <-].
      split; [intros _; exists root, cb; auto|].
      split; [congruence | lia].
  - cbv zeta.
    destruct (_ =? 1); [apply Hsame|].
    destruct (_ =? 0); [|apply Hsame].
    destruct want_challenge; [|apply Hsame].
    destruct (Js.js_prompt _) as [p|]; [|apply Hsame].
    destruct (Js.js_inputStr _) as [i|]; [|apply Hsame].
    intros [= <- <- <-]. split; [congruence|].
    split; [intros _; repeat split | lia].
Qed.

Lemma classifier_changes_state_through_callback_only_witness :
  gpst_xml_or_error Sample.vpn_full (- EPERM) (mk_reply None None)
    (Some (gpst_parse_config_xml 1000)) false
  = (- EPERM, Sample.vpn_full, None)
  /\ (- EPERM = - EPERM /\ Sample.vpn_full = Sample.vpn_full
      /\ @None (list ascii * list ascii) = None).
Proof.
  assert (E : gpst_xml_or_error Sample.vpn_full (- EPERM) (mk_reply None None)
                (Some (gpst_parse_config_xml 1000)) false
              = (- EPERM, Sample.vpn_full, None)) by reflexivity.
  split; [exact E|].
  refine (proj2 (proj2 (classifier_changes_state_through_callback_only
                          Sample.vpn_full (- EPERM) (mk_reply None None)
                          (Some (gpst_parse_config_xml 1000)) false
                          (- EPERM) Sample.vpn_full None E)) _).
  vm_compute. reflexivity.
Defined.

(* ------------------------------------------------------------------ *)
(** ** Tunnel opener *)

Section Connect.

Lemma bytes_eqb_eq (a b : list byte) : bytes_eqb a b = true <-> a = b.
Proof.
  revert b. induction a as [|x a IH]; intros [|y b]; cbn [bytes_eqb];
    try (split; [discriminate | discriminate]); [split; reflexivity|].
  rewrite andb_true_iff, IH. split.
  - intros [Hx ->]. apply Byte.byte_dec_bl in Hx. subst. reflexivity.
  - intros [= -> ->]. split; [apply Byte.byte_dec_lb|]; reflexivity.
Qed.

(** The twelve bytes read are START_TUNNEL: the tunnel is live and the
    three timestamps are the current time. *)
Lemma gpst_connect_start_tunnel (v : openconnect_info) (e : connect_env) :
  cn_open_https e = 0 -> cn_buf_error e = 0 ->
  cn_ssl_read e = Rd_bytes start_tunnel ->
  gpst_connect v e
  = (0, stamp_all (cn_now e) v,
     [CnOpenHttps; CnSendRequest; CnRead 12; CnMonitor]).
Proof.
  intros Ho Hb Hr. unfold gpst_connect. rewrite Ho, Hb, Hr. reflexivity.
Qed.

(** The read returns 0 and the array does not hold START_TUNNEL: the
    gateway has hung up. *)
Lemma gpst_connect_closed (v : openconnect_info) (e : connect_env) :
  cn_open_https e = 0 -> cn_buf_error e = 0 ->
  cn_ssl_read e = Rd_bytes [] ->
  firstn 12 (cn_stack e) <> start_tunnel ->
  gpst_connect v e
  = (- EPIPE, v, [CnOpenHttps; CnSendRequest; CnRead 12; CnCloseHttps]).
Proof.
  intros Ho Hb Hr Hs. unfold gpst_connect. rewrite Ho, Hb, Hr.
  cbn [negb Z.eqb List.length app skipn Z.of_nat].
  destruct (bytes_eqb (firstn 12 (cn_stack e)) start_tunnel) eqn:E.
  - apply bytes_eqb_eq in E. contradiction.
  - reflexivity.
Qed.

(** Twelve other bytes: one more line is fetched and logged, and the
    handshake fails with [-EINVAL]. *)
Lemma gpst_connect_other (v : openconnect_info) (e : connect_env)
    (got : list byte) :
  cn_open_https e = 0 -> cn_buf_error e = 0 ->
  cn_ssl_read e = Rd_bytes got ->
  List.length got = 12%nat -> got <> start_tunnel ->
  exists n,
    gpst_connect v e
    = (- EINVAL, v,
       [CnOpenHttps; CnSendRequest; CnRead 12; CnGets 244;
        CnLogResponse n; CnCloseHttps]).
Proof.
  intros Ho Hb Hr Hl Hne. unfold gpst_connect. rewrite Ho, Hb, Hr, Hl.
  assert (Hf : firstn 12 (got ++ skipn 12 (cn_stack e)) = got).
  { rewrite <- Hl at 1. rewrite firstn_app.
    rewrite firstn_all, Nat.sub_diag. cbn [firstn]. apply app_nil_r. }
  rewrite Hf.
  destruct (bytes_eqb got start_tunnel) eqn:E.
  - apply bytes_eqb_eq in E. contradiction.
  - eexists. reflexivity.
Qed.

End Connect.

(** C9 at the failing input: [ssl_read] returns 0, the automatic array
    [buf] still holds START_TUNNEL, and [gpst_connect] reports an open
    tunnel (return value 0, descriptor monitored, timestamps set) where a
    closed connection should be reported. *)
Theorem zero_read_on_stale_buffer_opens_tunnel :
  gpst_connect Sample.vpn0 Sample.cn_stale
  = (0, stamp_all 1000 Sample.vpn0,
     [CnOpenHttps; CnSendRequest; CnRead 12; CnMonitor]).
Proof. vm_compute. reflexivity. Qed.

(* ------------------------------------------------------------------ *)
(** ** Config callback: the split-include list *)

Section Routes.

Lemma collect_members_routes limit opt store :
  (forall ii p i, split_includes (store ii p i) = split_includes i) ->
  forall members ii v,
    routes (collect_members limit opt store members ii v) = routes v.
Proof.
  intros Hst. induction members as [|m rest IH]; intros ii v;
    cbn [collect_members]; [reflexivity|].
  destruct (Nat.ltb ii limit); [|reflexivity].
  destruct (xmlnode_get_text m "member") as [s|c]; [|apply IH].
  cbn [add_option]. rewrite IH. unfold routes. cbn. apply Hst.
Qed.

Lemma push_routes_routes (members : list xmlNode) :
  forall v, routes (push_routes members v)
            = rev (member_texts members) ++ routes v.
Proof.
  induction members as [|m rest IH]; intros v;
    cbn [push_routes member_texts flat_map]; [reflexivity|].
  destruct (xmlnode_get_text m "member") as [s|c].
  - cbn [add_option]. rewrite IH. cbn [app rev].
    rewrite <- app_assoc. reflexivity.
  - rewrite IH. reflexivity.
Qed.

Lemma config_child_routes (now : Z) (v : openconnect_info) (n : xmlNode) :
  routes (config_child now v n)
  = rev (if xmlnode_is_named n "access-routes"
         then member_texts (node_children n) else []) ++ routes v.
Proof.
  destruct n as [nm props content ch].
  unfold config_child, xmlnode_get_text, xmlnode_is_named.
  cbn [node_name node_content node_children].
  repeat match goal with
  | |- context [String.eqb nm ?lit] =>
      let E := fresh "E" in
      destruct (String.eqb nm lit) eqn:E;
      [ apply String.eqb_eq in E; subst nm; cbn [negb String.eqb Ascii.eqb
          Bool.eqb andb]; try (destruct content; reflexivity)
      | cbn [negb] ]
  end.
  - apply collect_members_routes. reflexivity.
  - apply collect_members_routes. reflexivity.
  - apply collect_members_routes. reflexivity.
  - apply push_routes_routes.
  - reflexivity.
Qed.

Lemma fold_config_routes (now : Z) (children : list xmlNode) :
  forall v,
    routes (fold_left (config_child now) children v)
    = rev (flat_map (fun n => if xmlnode_is_named n "access-routes"
                              then member_texts (node_children n) else [])
                    children) ++ routes v.
Proof.
  induction children as [|n rest IH]; intros v; cbn [fold_left flat_map];
    [reflexivity|].
  rewrite IH, config_child_routes, rev_app_distr, <- app_assoc.
  reflexivity.
Qed.

End Routes.

(** C6, as the specification states it, fails: two access routes in the
    response come out with the second one first. *)
Lemma access_routes_come_out_reversed :
  access_route_members Sample.full_config
    = ["10.0.0.0/8"; "192.168.0.0/16"]%string
  /\ (let '(r, v) := gpst_parse_config_xml 1000 Sample.vpn0
                       Sample.full_config in
      r = 0
      /\ split_includes (ip_info v)
         = ["192.168.0.0/16"; "10.0.0.0/8"]%string).
Proof. vm_compute. repeat split. Qed.

(** C6 (amended). After a successful parse of a getconfig response the
    split-include list, read from its head, holds exactly the members of
    the [<access-routes>] element in reverse document order: each member
    is linked in at the head. *)
Theorem split_includes_reverse_document_order
    (now : Z) (v : openconnect_info) (root : xmlNode) :
  xmlnode_is_named root "response" = true ->
  fst (gpst_parse_config_xml now v root) = 0
  /\ split_includes (ip_info (snd (gpst_parse_config_xml now v root)))
     = rev (access_route_members root).
Proof.
  intros Hn. unfold gpst_parse_config_xml. rewrite Hn. cbn [negb fst snd].
  split; [reflexivity|].
  change (routes (finish_config
            (fold_left (config_child now) (node_children root)
               (clear_old_options v)))
          = rev (access_route_members root)).
  assert (Hfin : forall w, routes (finish_config w) = routes w).
  { intros w. unfold finish_config.
    destruct (dpd (ssl_times (set_disable_ipv6 true w)) =? 0); reflexivity. }
  rewrite Hfin, fold_config_routes. unfold access_route_members.
  apply app_nil_r.
Qed.

Lemma split_includes_reverse_document_order_witness :
  split_includes
    (ip_info (snd (gpst_parse_config_xml 1000 Sample.vpn0 Sample.full_config)))
  = rev (access_route_members Sample.full_config).
Proof.
  refine (proj2 (split_includes_reverse_document_order 1000 Sample.vpn0
                   Sample.full_config _)).
  reflexivity.
Defined.

(* ------------------------------------------------------------------ *)
(** ** [gpst_parse_config_xml] *)

(** Case analysis on the name of a child, in the order of the tests of
    the "Parse config" loop. *)
Ltac by_child_name nm content :=
  repeat match goal with
  | |- context [String.eqb nm ?lit] =>
      let E := fresh "E" in
      destruct (String.eqb nm lit) eqn:E;
      [ apply String.eqb_eq in E; subst nm; cbn [negb String.eqb Ascii.eqb
          Bool.eqb andb]; try (destruct content; reflexivity)
      | cbn [negb] ]
  end.

Section ConfigFacts.

Lemma collect_members_times limit opt store members :
  forall ii v,
    ssl_times (collect_members limit opt store members ii v) = ssl_times v.
Proof.
  induction members as [|m rest IH]; intros ii v;
    cbn [collect_members]; [reflexivity|].
  destruct (Nat.ltb ii limit); [|reflexivity].
  destruct (xmlnode_get_text m "member") as [s|c]; [|apply IH].
  cbn [add_option]. rewrite IH. reflexivity.
Qed.

Lemma push_routes_times (members : list xmlNode) :
  forall v, ssl_times (push_routes members v) = ssl_times v.
Proof.
  induction members as [|m rest IH]; intros v; cbn [push_routes];
    [reflexivity|].
  destruct (xmlnode_get_text m "member") as [s|c]; [|apply IH].
  cbn [add_option]. rewrite IH. reflexivity.
Qed.

(** Only a [<timeout>] child with a text touches the timers. *)
Lemma config_child_times (now : Z) (v : openconnect_info) (n : xmlNode) :
  ssl_times (config_child now v n)
  = match xmlnode_get_text n "timeout" with
    | Ok s => set_rekey_method REKEY_TUNNEL
                (set_rekey (to_int (atoi s - 60))
                   (set_last_rekey now (ssl_times v)))
    | Err _ => ssl_times v
    end.
Proof.
  destruct n as [nm props content ch].
  unfold config_child, xmlnode_get_text, xmlnode_is_named.
  cbn [node_name node_content node_children].
  by_child_name nm content.
  - apply collect_members_times.
  - apply collect_members_times.
  - apply collect_members_times.
  - apply push_routes_times.
  - reflexivity.
Qed.

Lemma fold_config_dpd (now : Z) (children : list xmlNode) :
  forall v,
    dpd (ssl_times (fold_left (config_child now) children v))
    = dpd (ssl_times v).
Proof.
  induction children as [|n rest IH]; intros v; cbn [fold_left];
    [reflexivity|].
  rewrite IH, config_child_times.
  destruct (xmlnode_get_text n "timeout"); reflexivity.
Qed.

Lemma fold_config_no_timeout (now : Z) (children : list xmlNode) :
  Forall (fun m => forall s, xmlnode_get_text m "timeout" <> Ok s) children ->
  forall v,
    ssl_times (fold_left (config_child now) children v) = ssl_times v.
Proof.
  induction 1 as [|n rest Hn Hrest IH]; intros v; cbn [fold_left];
    [reflexivity|].
  rewrite IH, config_child_times.
  destruct (xmlnode_get_text n "timeout") as [s|c] eqn:E; [|reflexivity].
  exfalso. exact (Hn s eq_refl).
Qed.

(** [int] range of what [atoi] returns, and [atoi] on small numbers. *)
Lemma to_int_range (z : Z) : - 2 ^ 31 <= to_int z < 2 ^ 31.
Proof.
  unfold to_int.
  pose proof (Z.mod_pos_bound (z + 2 ^ 31) (2 ^ 32) ltac:(lia)). lia.
Qed.

Lemma to_int_small (z : Z) : - 2 ^ 31 <= z < 2 ^ 31 -> to_int z = z.
Proof.
  intros H. unfold to_int. rewrite Z.mod_small; lia.
Qed.

End ConfigFacts.

Section ConfigTimers.

Lemma finish_config_times (w : openconnect_info) :
  let k := ssl_times (finish_config w) in
  dpd k = (if dpd (ssl_times w) =? 0 then 10 else dpd (ssl_times w))
  /\ keepalive k = dpd k
  /\ rekey k = rekey (ssl_times w)
  /\ rekey_method k = rekey_method (ssl_times w)
  /\ last_rekey k = last_rekey (ssl_times w).
Proof.
  unfold finish_config. cbn [ssl_times set_disable_ipv6].
  destruct (dpd (ssl_times w) =? 0); repeat split.
Qed.

Lemma finish_config_ip_info (w : openconnect_info) :
  ip_info (finish_config w) = ip_info w
  /\ cstp_options (finish_config w) = cstp_options w
  /\ disable_ipv6 (finish_config w) = true.
Proof.
  unfold finish_config. cbn [ssl_times set_disable_ipv6].
  destruct (dpd (ssl_times w) =? 0); repeat split.
Qed.

End ConfigTimers.

(** X12. After every successful parse of a config response the
    keepalive interval equals the DPD interval and neither is 0: a DPD
    interval set before the parse is kept, otherwise it becomes 10
    seconds.  Nothing in the response can change it.  IPv6 is switched
    off. *)
Theorem config_sets_keepalive_to_dpd
    (now : Z) (v : openconnect_info) (root : xmlNode) :
  xmlnode_is_named root "response" = true ->
  let v' := snd (gpst_parse_config_xml now v root) in
  fst (gpst_parse_config_xml now v root) = 0
  /\ dpd (ssl_times v')
     = (if dpd (ssl_times v) =? 0 then 10 else dpd (ssl_times v))
  /\ keepalive (ssl_times v') = dpd (ssl_times v')
  /\ dpd (ssl_times v') <> 0
  /\ disable_ipv6 v' = true.
Proof.
  intros Hn. unfold gpst_parse_config_xml. rewrite Hn. cbn [negb fst snd].
  set (w := fold_left (config_child now) (node_children root)
              (clear_old_options v)).
  destruct (finish_config_times w) as (Hd & Hk & _).
  destruct (finish_config_ip_info w) as (_ & _ & H6).
  assert (Hw : dpd (ssl_times w) = dpd (ssl_times v)).
  { unfold w. rewrite fold_config_dpd. reflexivity. }
  rewrite Hw in Hd.
  split; [reflexivity|]. split; [exact Hd|]. split; [exact Hk|].
  split; [|exact H6].
  rewrite Hd. destruct (Z.eqb_spec (dpd (ssl_times v)) 0); [discriminate|].
  assumption.
Qed.

Lemma config_sets_keepalive_to_dpd_witness :
  keepalive
    (ssl_times (snd (gpst_parse_config_xml 1000 Sample.vpn0
                       Sample.full_config)))
  = 10.
Proof.
  destruct (config_sets_keepalive_to_dpd 1000 Sample.vpn0 Sample.full_config
              eq_refl) as (_ & Hd & Hk & _).
  exact (eq_trans Hk Hd).
Defined.

(** X13. The rekey timer follows the [<timeout>] element.  The last
    [<timeout>] child that has a text decides: the method is
    [REKEY_TUNNEL], the time of the last rekey is the time of the parse,
    and the rekey interval is the [int] that [atoi] makes of the text,
    less 60, whenever that subtraction does not overflow an [int]
    (what [atoi] returns is always in the range of [int]).  A response
    in which no [<timeout>] child has a text switches rekeying off
    ([REKEY_NONE]), whatever the method was before, and leaves interval
    and time as they were. *)
Theorem timeout_sets_rekey
    (now : Z) (v : openconnect_info) (root : xmlNode) :
  xmlnode_is_named root "response" = true ->
  let k := ssl_times (snd (gpst_parse_config_xml now v root)) in
  (forall pre t post s,
     node_children root = pre ++ t :: post ->
     xmlnode_get_text t "timeout" = Ok s ->
     Forall (fun m => forall s', xmlnode_get_text m "timeout" <> Ok s') post ->
     rekey_method k = REKEY_TUNNEL
     /\ last_rekey k = now
     /\ - 2 ^ 31 <= atoi s < 2 ^ 31
     /\ (- 2 ^ 31 + 60 <= atoi s -> rekey k = atoi s - 60))
  /\ (Forall (fun m => forall s', xmlnode_get_text m "timeout" <> Ok s')
        (node_children root) ->
      rekey_method k = REKEY_NONE
      /\ rekey k = rekey (ssl_times v)
      /\ last_rekey k = last_rekey (ssl_times v)).
Proof.
  intros Hn. unfold gpst_parse_config_xml. rewrite Hn. cbn [negb fst snd].
  set (w := fold_left (config_child now) (node_children root)
              (clear_old_options v)).
  destruct (finish_config_times w) as (_ & _ & Hr & Hm & Hl).
  cbv zeta. rewrite Hr, Hm, Hl. split.
  - intros pre t post s Hch Ht Hpost. unfold w.
    rewrite Hch, fold_left_app. cbn [fold_left].
    rewrite (fold_config_no_timeout now post Hpost), config_child_times, Ht.
    pose proof (to_int_range (strtol s)) as Hrange.
    fold (atoi s) in Hrange.
    split; [reflexivity|]. split; [reflexivity|]. split; [exact Hrange|].
    intros Hlow. cbn [rekey set_rekey_method set_rekey].
    apply to_int_small. lia.
  - intros Hall. unfold w.
    rewrite (fold_config_no_timeout now _ Hall). repeat split.
Qed.

Lemma timeout_sets_rekey_witness :
  rekey
    (ssl_times
       (snd (gpst_parse_config_xml 1000 Sample.vpn0
               (Sample.response_of
                  [Sample.text_node "ip-address" "10.0.0.2";
                   Sample.text_node "timeout" "1800";
                   XmlNode "timeout" [] None []]))))
  = 1740.
Proof.
  destruct (timeout_sets_rekey 1000 Sample.vpn0
              (Sample.response_of
                 [Sample.text_node "ip-address" "10.0.0.2";
                  Sample.text_node "timeout" "1800";
                  XmlNode "timeout" [] None []]) eq_refl)
    as (Hlast & _).
  destruct (Hlast [Sample.text_node "ip-address" "10.0.0.2"]
              (Sample.text_node "timeout" "1800")
              [XmlNode "timeout" [] None []] "1800"%string
              eq_refl eq_refl)
    as (_ & _ & _ & Hr).
  - apply Forall_cons; [intros s' H; discriminate H | apply Forall_nil].
  - refine (eq_trans (Hr _) _); [vm_compute; discriminate | reflexivity].
Defined.

Section ConfigOptions.

Lemma backed_same (v w : openconnect_info) :
  ip_info w = ip_info v -> cstp_options w = cstp_options v ->
  backed_by_options v -> backed_by_options w.
Proof.
  unfold backed_by_options, has_option. intros -> ->. tauto.
Qed.

Lemma in_set_slot (ii : nat) (p : option string) :
  forall (a : list (option string)) x,
    In x (set_slot ii p a) -> x = p \/ In x a.
Proof.
  induction ii as [|ii IH]; intros [|y a] x H; cbn [set_slot] in H;
    try contradiction.
  - destruct H as [H|H]; [left; congruence | right; right; exact H].
  - destruct H as [H|H]; [right; left; exact H|].
    destruct (IH a x H) as [E|E]; [left; exact E | right; right; exact E].
Qed.

(** One value stored together with its option. *)
Lemma backed_store (v : openconnect_info) (opt s : string)
    (f : oc_ip_info -> oc_ip_info) :
  backed_by_options v ->
  (forall x, addr (f (ip_info v)) = Some x ->
     addr (ip_info v) = Some x \/ (opt = "ipaddr"%string /\ x = s)) ->
  (forall x, netmask (f (ip_info v)) = Some x ->
     netmask (ip_info v) = Some x \/ (opt = "netmask"%string /\ x = s)) ->
  (forall x, domain (f (ip_info v)) = Some x ->
     domain (ip_info v) = Some x \/ (opt = "search"%string /\ x = s)) ->
  (forall x, In (Some x) (dns (f (ip_info v))) ->
     In (Some x) (dns (ip_info v)) \/ (opt = "DNS"%string /\ x = s)) ->
  (forall x, In (Some x) (nbns (f (ip_info v))) ->
     In (Some x) (nbns (ip_info v)) \/ (opt = "WINS"%string /\ x = s)) ->
  (forall x, In x (split_includes (f (ip_info v))) ->
     In x (split_includes (ip_info v))
     \/ (opt = "split-include"%string /\ x = s)) ->
  backed_by_options
    (set_ip_info f (set_cstp_options (mk_opt opt s :: cstp_options v) v)).
Proof.
  intros (A & B & C & D & E & F) Ha Hb Hc Hd He Hf.
  unfold backed_by_options, has_option in *.
  cbn [ip_info cstp_options set_ip_info set_cstp_options].
  repeat split; intros x Hx.
  - destruct (Ha x Hx) as [H|[-> ->]]; [right; auto | left; reflexivity].
  - destruct (Hb x Hx) as [H|[-> ->]]; [right; auto | left; reflexivity].
  - destruct (Hc x Hx) as [H|[-> ->]]; [right; auto | left; reflexivity].
  - destruct (Hd x Hx) as [H|[-> ->]]; [right; auto | left; reflexivity].
  - destruct (He x Hx) as [H|[-> ->]]; [right; auto | left; reflexivity].
  - destruct (Hf x Hx) as [H|[-> ->]]; [right; auto | left; reflexivity].
Qed.

Lemma collect_members_backed limit opt store :
  (forall ii s v, backed_by_options v ->
     backed_by_options
       (set_ip_info (store ii (Some s))
          (set_cstp_options (mk_opt opt s :: cstp_options v) v))) ->
  forall members ii v,
    backed_by_options v ->
    backed_by_options (collect_members limit opt store members ii v).
Proof.
  intros Hst. induction members as [|m rest IH]; intros ii v Hv;
    cbn [collect_members]; [exact Hv|].
  destruct (Nat.ltb ii limit); [|exact Hv].
  destruct (xmlnode_get_text m "member") as [s|c]; [|apply IH; exact Hv].
  cbn [add_option]. apply IH. apply Hst. exact Hv.
Qed.

Lemma push_routes_backed (members : list xmlNode) :
  forall v, backed_by_options v -> backed_by_options (push_routes members v).
Proof.
  induction members as [|m rest IH]; intros v Hv; cbn [push_routes];
    [exact Hv|].
  destruct (xmlnode_get_text m "member") as [s|c]; [|apply IH; exact Hv].
  cbn [add_option]. apply IH.
  apply (backed_store v "split-include" s
           (fun i => set_split_includes (s :: split_includes i) i) Hv);
    cbn; intros x Hx; try (left; exact Hx).
  destruct Hx as [<-|Hx]; [right; split; reflexivity | left; exact Hx].
Qed.

Lemma config_child_backed (now : Z) (v : openconnect_info) (n : xmlNode) :
  backed_by_options v -> backed_by_options (config_child now v n).
Proof.
  intros Hv. destruct n as [nm props content ch].
  unfold config_child, xmlnode_get_text, xmlnode_is_named.
  cbn [node_name node_content node_children].
  repeat match goal with
  | |- context [String.eqb nm ?lit] =>
      let E := fresh "E" in
      destruct (String.eqb nm lit) eqn:E;
      [ apply String.eqb_eq in E; subst nm; cbn [negb String.eqb Ascii.eqb
          Bool.eqb andb]
      | cbn [negb] ]
  end; try exact Hv.
  - destruct content as [s|]; [|exact Hv]. cbn [add_option].
    apply (backed_store v "ipaddr" s (set_addr (Some s)) Hv);
      cbn; intros x Hx; try (left; exact Hx).
    injection Hx as <-. right. split; reflexivity.
  - destruct content as [s|]; [|exact Hv]. cbn [add_option].
    apply (backed_store v "netmask" s (set_netmask (Some s)) Hv);
      cbn; intros x Hx; try (left; exact Hx).
    injection Hx as <-. right. split; reflexivity.
  - destruct content as [s|]; [|exact Hv].
    exact (backed_same v _ eq_refl eq_refl Hv).
  - destruct content as [s|]; [|exact Hv].
    exact (backed_same v _ eq_refl eq_refl Hv).
  - destruct content as [s|]; [|exact Hv].
    exact (backed_same v _ eq_refl eq_refl Hv).
  - destruct content as [s|]; exact Hv.
  - apply collect_members_backed; [|exact Hv].
    intros ii s w Hw.
    apply (backed_store w "DNS" s
             (fun i => set_dns (set_slot ii (Some s) (dns i)) i) Hw);
      cbn; intros x Hx; try (left; exact Hx).
    destruct (in_set_slot _ _ _ _ Hx) as [[= ->]|H];
      [right; split; reflexivity | left; exact H].
  - apply collect_members_backed; [|exact Hv].
    intros ii s w Hw.
    apply (backed_store w "WINS" s
             (fun i => set_nbns (set_slot ii (Some s) (nbns i)) i) Hw);
      cbn; intros x Hx; try (left; exact Hx).
    destruct (in_set_slot _ _ _ _ Hx) as [[= ->]|H];
      [right; split; reflexivity | left; exact H].
  - apply collect_members_backed; [|exact Hv].
    intros ii s w Hw.
    apply (backed_store w "search" s (fun i => set_domain (Some s) i) Hw);
      cbn; intros x Hx; try (left; exact Hx).
    injection Hx as <-. right. split; reflexivity.
  - apply push_routes_backed. exact Hv.
Qed.

Lemma clear_old_options_backed (v : openconnect_info) :
  backed_by_options (clear_old_options v).
Proof.
  unfold backed_by_options, has_option, clear_old_options. cbn.
  repeat split; intros s H; try discriminate H; try contradiction.
  - destruct H as [H|[H|[H|H]]]; try discriminate H; contradiction.
  - destruct H as [H|[H|[H|H]]]; try discriminate H; contradiction.
Qed.

Lemma fold_config_backed (now : Z) (children : list xmlNode) :
  forall v, backed_by_options v ->
    backed_by_options (fold_left (config_child now) children v).
Proof.
  induction children as [|n rest IH]; intros v Hv; cbn [fold_left];
    [exact Hv|].
  apply IH, config_child_backed, Hv.
Qed.

End ConfigOptions.

(** X14. What the comment on [add_option] promises holds after every
    successful parse, whatever [vpninfo] held before: every string the
    callback leaves in [ip_info] (the address, the netmask, the search
    domain, each DNS and WINS server and each split-include route) is the
    value of an entry of the new option list, under the option name
    [ipaddr], [netmask], [search], [DNS], [WINS] or [split-include]. *)
Theorem ip_info_strings_are_option_values
    (now : Z) (v : openconnect_info) (root : xmlNode) :
  xmlnode_is_named root "response" = true ->
  backed_by_options (snd (gpst_parse_config_xml now v root)).
Proof.
  intros Hn. unfold gpst_parse_config_xml. rewrite Hn. cbn [negb snd].
  set (w := fold_left (config_child now) (node_children root)
              (clear_old_options v)).
  destruct (finish_config_ip_info w) as (Hi & Ho & _).
  apply (backed_same w _ Hi Ho).
  apply fold_config_backed, clear_old_options_backed.
Qed.

Lemma ip_info_strings_are_option_values_witness :
  backed_by_options
    (snd (gpst_parse_config_xml 1000 Sample.vpn_addr_only Sample.full_config)).
Proof.
  apply (ip_info_strings_are_option_values 1000 Sample.vpn_addr_only
           Sample.full_config).
  reflexivity.
Defined.

Section ConfigDns.

Lemma collect_members_dns_kept limit opt store :
  (forall ii p i, dns (store ii p i) = dns i) ->
  forall members ii v,
    dns (ip_info (collect_members limit opt store members ii v))
    = dns (ip_info v).
Proof.
  intros Hst. induction members as [|m rest IH]; intros ii v;
    cbn [collect_members]; [reflexivity|].
  destruct (Nat.ltb ii limit); [|reflexivity].
  destruct (xmlnode_get_text m "member") as [s|c]; [|apply IH].
  cbn [add_option]. rewrite IH. cbn. apply Hst.
Qed.

Lemma push_routes_dns_kept (members : list xmlNode) :
  forall v, dns (ip_info (push_routes members v)) = dns (ip_info v).
Proof.
  induction members as [|m rest IH]; intros v; cbn [push_routes];
    [reflexivity|].
  destruct (xmlnode_get_text m "member") as [s|c]; [|apply IH].
  cbn [add_option]. rewrite IH. reflexivity.
Qed.

(** The loop over the members of [<dns>]. *)
Lemma collect_members_dns_filled (members : list xmlNode) :
  forall ii v,
    dns (ip_info
           (collect_members 3 "DNS"
              (fun ii p i => set_dns (set_slot ii p (dns i)) i)
              members ii v))
    = fill_slots 3 ii (member_texts members) (dns (ip_info v)).
Proof.
  induction members as [|m rest IH]; intros ii v;
    cbn [collect_members member_texts flat_map]; [reflexivity|].
  fold (member_texts rest).
  destruct (Nat.ltb ii 3) eqn:Hlt.
  - destruct (xmlnode_get_text m "member") as [s|c].
    + cbn [add_option app fill_slots]. rewrite Hlt, IH. reflexivity.
    + cbn [app]. apply IH.
  - destruct (match xmlnode_get_text m "member" with
              | Ok s => [s] | Err _ => [] end ++ member_texts rest)
      as [|t r]; cbn [fill_slots]; [reflexivity|].
    rewrite Hlt. reflexivity.
Qed.

Lemma fill_three_slots (texts : list string) :
  fill_slots 3 0 texts [None; None; None] = three_slots texts.
Proof.
  destruct texts as [|a [|b [|c [|d r]]]]; reflexivity.
Qed.

Lemma config_child_dns (now : Z) (v : openconnect_info) (n : xmlNode) :
  dns (ip_info (config_child now v n))
  = if xmlnode_is_named n "dns"
    then fill_slots 3 0 (member_texts (node_children n)) (dns (ip_info v))
    else dns (ip_info v).
Proof.
  destruct n as [nm props content ch].
  unfold config_child, xmlnode_get_text, xmlnode_is_named.
  cbn [node_name node_content node_children].
  by_child_name nm content.
  - apply collect_members_dns_filled.
  - apply collect_members_dns_kept. reflexivity.
  - apply collect_members_dns_kept. reflexivity.
  - apply push_routes_dns_kept.
  - reflexivity.
Qed.

Lemma fold_config_dns_kept (now : Z) (children : list xmlNode) :
  Forall (fun m => xmlnode_is_named m "dns" = false) children ->
  forall v,
    dns (ip_info (fold_left (config_child now) children v))
    = dns (ip_info v).
Proof.
  induction 1 as [|n rest Hn Hrest IH]; intros v; cbn [fold_left];
    [reflexivity|].
  rewrite IH, config_child_dns, Hn. reflexivity.
Qed.

End ConfigDns.

(** X15. The DNS servers of a response with one [<dns>] element: the
    three slots hold the texts of its first three [<member>] children, in
    document order (the split-include routes, in contrast, come out
    reversed); further members are dropped and unused slots are empty,
    whatever the slots held before the parse. *)
Theorem dns_servers_first_three_in_order
    (now : Z) (v : openconnect_info) (root d : xmlNode)
    (pre post : list xmlNode) :
  xmlnode_is_named root "response" = true ->
  node_children root = pre ++ d :: post ->
  xmlnode_is_named d "dns" = true ->
  only_child_named "dns" pre post ->
  dns (ip_info (snd (gpst_parse_config_xml now v root)))
  = three_slots (member_texts (node_children d)).
Proof.
  intros Hn Hch Hd Honly. unfold gpst_parse_config_xml.
  rewrite Hn. cbn [negb snd].
  destruct (finish_config_ip_info
              (fold_left (config_child now) (node_children root)
                 (clear_old_options v))) as (Hi & _).
  rewrite Hi, Hch, fold_left_app. cbn [fold_left].
  unfold only_child_named in Honly. apply Forall_app in Honly.
  destruct Honly as [Hpre Hpost].
  rewrite (fold_config_dns_kept now post Hpost), config_child_dns, Hd.
  rewrite (fold_config_dns_kept now pre Hpre).
  apply fill_three_slots.
Qed.

Lemma dns_servers_first_three_in_order_witness :
  dns (ip_info
         (snd (gpst_parse_config_xml 1000 Sample.vpn0
                 (Sample.response_of
                    [Sample.text_node "ip-address" "10.0.0.2";
                     XmlNode "dns" [] None
                       [Sample.text_node "member" "10.0.0.53";
                        Sample.text_node "member" "10.0.0.54";
                        Sample.text_node "member" "10.0.0.55";
                        Sample.text_node "member" "10.0.0.56"]]))))
  = [Some "10.0.0.53"; Some "10.0.0.54"; Some "10.0.0.55"]%string.
Proof.
  refine (eq_trans
            (dns_servers_first_three_in_order 1000 Sample.vpn0
               (Sample.response_of
                  [Sample.text_node "ip-address" "10.0.0.2";
                   XmlNode "dns" [] None
                     [Sample.text_node "member" "10.0.0.53";
                      Sample.text_node "member" "10.0.0.54";
                      Sample.text_node "member" "10.0.0.55";
                      Sample.text_node "member" "10.0.0.56"]])
               (XmlNode "dns" [] None
                  [Sample.text_node "member" "10.0.0.53";
                   Sample.text_node "member" "10.0.0.54";
                   Sample.text_node "member" "10.0.0.55";
                   Sample.text_node "member" "10.0.0.56"])
               [Sample.text_node "ip-address" "10.0.0.2"] []
               _ _ _ _) _);
    try reflexivity.
  repeat constructor.
Defined.

(* ------------------------------------------------------------------ *)
(** ** Config callback: what each field holds afterwards *)

Section ConfigFields.

Lemma atoi_is_int (s : string) : - 2 ^ 31 <= atoi s < 2 ^ 31.
Proof. unfold atoi. apply to_int_range. Qed.

Lemma last_text_from (name : string) (children : list xmlNode) :
  forall acc,
    fold_left (fun acc n => match xmlnode_get_text n name with
                            | Ok s => Some s
                            | Err _ => acc
                            end) children acc
    = match last_text name children with
      | Some s => Some s
      | None => acc
      end.
Proof.
  unfold last_text.
  induction children as [|n rest IH]; intros acc; cbn [fold_left];
    [reflexivity|].
  rewrite IH, (IH (match xmlnode_get_text n name with
                   | Ok s => Some s | Err _ => None end)).
  destruct (fold_left _ rest None); [reflexivity|].
  destruct (xmlnode_get_text n name); reflexivity.
Qed.

Lemma last_text_cons (name : string) (n : xmlNode) (rest : list xmlNode) :
  last_text name (n :: rest)
  = match last_text name rest with
    | Some s => Some s
    | None => match xmlnode_get_text n name with
              | Ok s => Some s
              | Err _ => None
              end
    end.
Proof.
  unfold last_text at 1. cbn [fold_left]. apply last_text_from.
Qed.

Lemma collect_members_ip_field {A : Type} (get : oc_ip_info -> A)
    limit opt store :
  (forall ii p i, get (store ii p i) = get i) ->
  forall members ii v,
    get (ip_info (collect_members limit opt store members ii v))
    = get (ip_info v).
Proof.
  intros Hst. induction members as [|m rest IH]; intros ii v;
    cbn [collect_members]; [reflexivity|].
  destruct (Nat.ltb ii limit); [|reflexivity].
  destruct (xmlnode_get_text m "member") as [s|c]; [|apply IH].
  cbn [add_option]. rewrite IH. cbn. apply Hst.
Qed.

Lemma push_routes_ip_field {A : Type} (get : oc_ip_info -> A) :
  (forall l i, get (set_split_includes l i) = get i) ->
  forall members v, get (ip_info (push_routes members v)) = get (ip_info v).
Proof.
  intros Hst. induction members as [|m rest IH]; intros v;
    cbn [push_routes]; [reflexivity|].
  destruct (xmlnode_get_text m "member") as [s|c]; [|apply IH].
  cbn [add_option]. rewrite IH. cbn. apply Hst.
Qed.

Lemma config_child_addr (now : Z) (v : openconnect_info) (n : xmlNode) :
  addr (ip_info (config_child now v n))
  = match xmlnode_get_text n "ip-address" with
    | Ok s => Some s
    | Err _ => addr (ip_info v)
    end.
Proof.
  destruct n as [nm props content ch].
  unfold config_child, xmlnode_get_text, xmlnode_is_named.
  cbn [node_name node_content node_children].
  by_child_name nm content;
    first [ apply (collect_members_ip_field addr); reflexivity
          | apply (push_routes_ip_field addr); reflexivity
          | reflexivity ].
Qed.

Lemma config_child_netmask (now : Z) (v : openconnect_info) (n : xmlNode) :
  netmask (ip_info (config_child now v n))
  = match xmlnode_get_text n "netmask" with
    | Ok s => Some s
    | Err _ => netmask (ip_info v)
    end.
Proof.
  destruct n as [nm props content ch].
  unfold config_child, xmlnode_get_text, xmlnode_is_named.
  cbn [node_name node_content node_children].
  by_child_name nm content;
    first [ apply (collect_members_ip_field netmask); reflexivity
          | apply (push_routes_ip_field netmask); reflexivity
          | reflexivity ].
Qed.

Lemma config_child_mtu (now : Z) (v : openconnect_info) (n : xmlNode) :
  mtu (ip_info (config_child now v n))
  = match xmlnode_get_text n "mtu" with
    | Ok s => atoi s
    | Err _ => mtu (ip_info v)
    end.
Proof.
  destruct n as [nm props content ch].
  unfold config_child, xmlnode_get_text, xmlnode_is_named.
  cbn [node_name node_content node_children].
  by_child_name nm content;
    first [ apply (collect_members_ip_field mtu); reflexivity
          | apply (push_routes_ip_field mtu); reflexivity
          | reflexivity ].
Qed.

Lemma fold_config_addr (now : Z) (children : list xmlNode) :
  forall v,
    addr (ip_info (fold_left (config_child now) children v))
    = match last_text "ip-address" children with
      | Some s => Some s
      | None => addr (ip_info v)
      end.
Proof.
  induction children as [|n rest IH]; intros v; [reflexivity|].
  cbn [fold_left]. rewrite IH, last_text_cons, config_child_addr.
  destruct (last_text "ip-address" rest); [reflexivity|].
  destruct (xmlnode_get_text n "ip-address"); reflexivity.
Qed.

Lemma fold_config_netmask (now : Z) (children : list xmlNode) :
  forall v,
    netmask (ip_info (fold_left (config_child now) children v))
    = match last_text "netmask" children with
      | Some s => Some s
      | None => netmask (ip_info v)
      end.
Proof.
  induction children as [|n rest IH]; intros v; [reflexivity|].
  cbn [fold_left]. rewrite IH, last_text_cons, config_child_netmask.
  destruct (last_text "netmask" rest); [reflexivity|].
  destruct (xmlnode_get_text n "netmask"); reflexivity.
Qed.

Lemma fold_config_mtu (now : Z) (children : list xmlNode) :
  forall v,
    mtu (ip_info (fold_left (config_child now) children v))
    = match last_text "mtu" children with
      | Some s => atoi s
      | None => mtu (ip_info v)
      end.
Proof.
  induction children as [|n rest IH]; intros v; [reflexivity|].
  cbn [fold_left]. rewrite IH, last_text_cons, config_child_mtu.
  destruct (last_text "mtu" rest); [reflexivity|].
  destruct (xmlnode_get_text n "mtu"); reflexivity.
Qed.

(** *** The callback leaves the MTU settings alone *)

(** What [calculate_mtu] reads in [vpninfo]. *)
Lemma calculate_mtu_reads (v w : openconnect_info) (so : sockdiag) :
  reqmtu w = reqmtu v -> basemtu w = basemtu v ->
  peer_family w = peer_family v ->
  calculate_mtu w so = calculate_mtu v so.
Proof.
  intros H1 H2 H3. unfold calculate_mtu, probe_base_mtu.
  rewrite H1, H2, H3. reflexivity.
Qed.

Lemma collect_members_settings limit opt store members :
  forall ii v,
    let w := collect_members limit opt store members ii v in
    reqmtu w = reqmtu v /\ basemtu w = basemtu v
    /\ peer_family w = peer_family v.
Proof.
  induction members as [|m rest IH]; intros ii v;
    cbn [collect_members]; [repeat split|].
  destruct (Nat.ltb ii limit); [|repeat split].
  destruct (xmlnode_get_text m "member") as [s|c]; [|apply IH].
  cbn [add_option]. cbv zeta.
  destruct (IH (S ii) (set_ip_info (store ii (Some s))
                         (set_cstp_options (mk_opt opt s :: cstp_options v) v)))
    as (A & B & C).
  rewrite A, B, C. repeat split.
Qed.

Lemma push_routes_settings (members : list xmlNode) :
  forall v,
    let w := push_routes members v in
    reqmtu w = reqmtu v /\ basemtu w = basemtu v
    /\ peer_family w = peer_family v.
Proof.
  induction members as [|m rest IH]; intros v;
    cbn [push_routes]; [repeat split|].
  destruct (xmlnode_get_text m "member") as [s|c]; [|apply IH].
  cbn [add_option]. cbv zeta.
  match goal with |- context [push_routes rest ?x] =>
    destruct (IH x) as (A & B & C) end.
  rewrite A, B, C. repeat split.
Qed.

Lemma config_child_settings (now : Z) (v : openconnect_info) (n : xmlNode) :
  let w := config_child now v n in
  reqmtu w = reqmtu v /\ basemtu w = basemtu v
  /\ peer_family w = peer_family v.
Proof.
  destruct n as [nm props content ch].
  unfold config_child, xmlnode_get_text, xmlnode_is_named.
  cbn [node_name node_content node_children]. cbv zeta.
  repeat match goal with
  | |- context [String.eqb nm ?lit] =>
      let E := fresh "E" in
      destruct (String.eqb nm lit) eqn:E;
      [ apply String.eqb_eq in E; subst nm; cbn [negb String.eqb Ascii.eqb
          Bool.eqb andb]; try (destruct content; repeat split)
      | cbn [negb] ]
  end;
  first [ apply collect_members_settings
        | apply push_routes_settings
        | repeat split ].
Qed.

Lemma fold_config_settings (now : Z) (children : list xmlNode) :
  forall v,
    let w := fold_left (config_child now) children v in
    reqmtu w = reqmtu v /\ basemtu w = basemtu v
    /\ peer_family w = peer_family v.
Proof.
  induction children as [|n rest IH]; intros v; cbn [fold_left];
    [repeat split|].
  cbv zeta. destruct (IH (config_child now v n)) as (A & B & C).
  destruct (config_child_settings now v n) as (A' & B' & C').
  rewrite A, B, C. repeat split; assumption.
Qed.

(** The state the callback builds for a [<response>] document. *)
Lemma callback_settings (now : Z) (v : openconnect_info)
    (children : list xmlNode) (so : sockdiag) :
  calculate_mtu
    (finish_config (fold_left (config_child now) children
                      (clear_old_options v))) so
  = calculate_mtu v so.
Proof.
  destruct (fold_config_settings now children (clear_old_options v))
    as (A & B & C).
  cbv zeta in A, B, C.
  apply calculate_mtu_reads.
  - change (reqmtu v) with (reqmtu (clear_old_options v)). rewrite <- A.
    unfold finish_config. destruct (dpd _ =? 0); reflexivity.
  - change (basemtu v) with (basemtu (clear_old_options v)). rewrite <- B.
    unfold finish_config. destruct (dpd _ =? 0); reflexivity.
  - change (peer_family v) with (peer_family (clear_old_options v)).
    rewrite <- C.
    unfold finish_config. destruct (dpd _ =? 0); reflexivity.
Qed.

(** *** The callback builds the state from the reply alone *)

Lemma collect_members_negotiated limit opt store :
  (forall ii p i1 i2,
     (addr i1, netmask i1, domain i1, dns i1, nbns i1, split_includes i1)
     = (addr i2, netmask i2, domain i2, dns i2, nbns i2, split_includes i2) ->
     let j1 := store ii p i1 in
     let j2 := store ii p i2 in
     (addr j1, netmask j1, domain j1, dns j1, nbns j1, split_includes j1)
     = (addr j2, netmask j2, domain j2, dns j2, nbns j2, split_includes j2)) ->
  forall members ii v1 v2,
    negotiated v1 = negotiated v2 ->
    negotiated (collect_members limit opt store members ii v1)
    = negotiated (collect_members limit opt store members ii v2).
Proof.
  intros Hst. induction members as [|m rest IH]; intros ii v1 v2 H;
    cbn [collect_members]; [exact H|].
  destruct (Nat.ltb ii limit); [|exact H].
  destruct (xmlnode_get_text m "member") as [s|c]; [|apply IH; exact H].
  cbn [add_option]. apply IH.
  unfold negotiated in *. cbn.
  injection H as H1 H2 H3 H4 H5 H6 H7.
  assert (Hi := Hst ii (Some s) (ip_info v1) (ip_info v2)).
  cbv zeta in Hi. rewrite H1, H2, H3, H4, H5, H6 in Hi.
  specialize (Hi eq_refl). injection Hi as K1 K2 K3 K4 K5 K6.
  rewrite K1, K2, K3, K4, K5, K6, H7. reflexivity.
Qed.

Lemma push_routes_negotiated (members : list xmlNode) :
  forall v1 v2,
    negotiated v1 = negotiated v2 ->
    negotiated (push_routes members v1) = negotiated (push_routes members v2).
Proof.
  induction members as [|m rest IH]; intros v1 v2 H;
    cbn [push_routes]; [exact H|].
  destruct (xmlnode_get_text m "member") as [s|c]; [|apply IH; exact H].
  cbn [add_option]. apply IH.
  unfold negotiated in *. cbn.
  injection H as H1 H2 H3 H4 H5 H6 H7.
  rewrite H1, H2, H3, H4, H5, H6, H7. reflexivity.
Qed.

Lemma config_child_negotiated (now : Z) (v1 v2 : openconnect_info)
    (n : xmlNode) :
  negotiated v1 = negotiated v2 ->
  negotiated (config_child now v1 n) = negotiated (config_child now v2 n).
Proof.
  intros H. destruct n as [nm props content ch].
  unfold config_child, xmlnode_get_text, xmlnode_is_named.
  cbn [node_name node_content node_children].
  assert (Hset : forall f : oc_ip_info -> oc_ip_info,
            (forall i1 i2,
               (addr i1, netmask i1, domain i1, dns i1, nbns i1,
                split_includes i1)
               = (addr i2, netmask i2, domain i2, dns i2, nbns i2,
                  split_includes i2) ->
               (addr (f i1), netmask (f i1), domain (f i1), dns (f i1),
                nbns (f i1), split_includes (f i1))
               = (addr (f i2), netmask (f i2), domain (f i2), dns (f i2),
                  nbns (f i2), split_includes (f i2))) ->
            forall o,
              negotiated (set_ip_info f
                            (set_cstp_options (o :: cstp_options v1) v1))
              = negotiated (set_ip_info f
                              (set_cstp_options (o :: cstp_options v2) v2))).
  { intros f Hf o. unfold negotiated in *. cbn.
    injection H as H1 H2 H3 H4 H5 H6 H7.
    assert (Hi := Hf (ip_info v1) (ip_info v2)).
    rewrite H1, H2, H3, H4, H5, H6 in Hi. specialize (Hi eq_refl).
    injection Hi as K1 K2 K3 K4 K5 K6.
    rewrite K1, K2, K3, K4, K5, K6, H7. reflexivity. }
  assert (Hplain : forall f g,
            negotiated (set_ssl_times f v1) = negotiated (set_ssl_times g v2)).
  { intros f g. exact H. }
  assert (Hmtu : forall z,
            negotiated (set_ip_info (set_mtu z) v1)
            = negotiated (set_ip_info (set_mtu z) v2)).
  { intros z. exact H. }
  assert (Hurl : forall u,
            negotiated (set_urlpath u v1) = negotiated (set_urlpath u v2)).
  { intros u. exact H. }
  repeat match goal with
  | |- context [String.eqb nm ?lit] =>
      let E := fresh "E" in
      destruct (String.eqb nm lit) eqn:E;
      [ apply String.eqb_eq in E; subst nm; cbn [negb String.eqb Ascii.eqb
          Bool.eqb andb];
        try (destruct content;
             first [ exact H | apply Hplain | apply Hmtu | apply Hurl
                   | cbn [add_option]; cbv beta iota zeta; apply Hset;
                     intros i1 i2 Hi; injection Hi as J1 J2 J3 J4 J5 J6;
                     cbn; rewrite ?J1, ?J2, ?J3, ?J4, ?J5, ?J6;
                     reflexivity ])
      | cbn [negb] ]
  end;
  first [ exact H
        | apply push_routes_negotiated; exact H
        | apply collect_members_negotiated;
          [ intros ii p i1 i2 Hi; cbv zeta;
            injection Hi as J1 J2 J3 J4 J5 J6; cbn;
            rewrite ?J1, ?J2, ?J3, ?J4, ?J5, ?J6; reflexivity
          | exact H ] ].
Qed.

Lemma fold_config_negotiated (now : Z) (children : list xmlNode) :
  forall v1 v2,
    negotiated v1 = negotiated v2 ->
    negotiated (fold_left (config_child now) children v1)
    = negotiated (fold_left (config_child now) children v2).
Proof.
  induction children as [|n rest IH]; intros v1 v2 H; cbn [fold_left];
    [exact H|].
  apply IH, config_child_negotiated, H.
Qed.

End ConfigFields.

(* ------------------------------------------------------------------ *)
(** ** Config negotiator *)

Section Negotiation.

(** When the classifier returns an error, the config callback has not
    touched [vpninfo]. *)
Lemma classify_error_keeps_state (v : openconnect_info) (e : getconfig_env) :
  fst (fst (classify v e)) <> 0 -> snd (fst (classify v e)) = v.
Proof.
  unfold classify, gpst_xml_or_error.
  destruct (gc_https_result e <? 0); [reflexivity|].
  destruct (response (gc_reply e)) as [body|]; [|reflexivity].
  destruct (xml_doc (gc_reply e)) as [root|].
  - destruct (_ && _).
    + destruct (find_error_text _); reflexivity.
    + unfold gpst_parse_config_xml.
      destruct (negb _); [reflexivity|].
      cbn [fst snd]. intros H. contradiction H. reflexivity.
  - destruct (_ =? 1); [reflexivity|].
    destruct (_ =? 0); reflexivity.
Qed.

(** A [<response>] document that is not an error response goes to the
    config callback, and the classifier returns 0 with the state the
    callback built. *)
Lemma classify_config_root (v : openconnect_info) (e : getconfig_env)
    (body : string) (root : xmlNode) :
  0 <= gc_https_result e ->
  response (gc_reply e) = Some body ->
  xml_doc (gc_reply e) = Some root ->
  xmlnode_is_named root "response" = true ->
  xmlnode_match_prop root "status" "error" <> 0 ->
  classify v e
  = (0, finish_config
          (fold_left (config_child (gc_now e)) (node_children root)
             (clear_old_options v)), None).
Proof.
  intros Hh Hb Hx Hn Hs. unfold classify, gpst_xml_or_error.
  replace (gc_https_result e <? 0) with false
    by (symmetry; apply Z.ltb_ge; exact Hh).
  rewrite Hb, Hx, Hn, (proj2 (Z.eqb_neq _ _) Hs). cbn [andb].
  unfold gpst_parse_config_xml. rewrite Hn. reflexivity.
Qed.

(** The facts recorded for a return of [-EINVAL] after the callback. *)
Ltac fails_with_einval :=
  split; [reflexivity|]; split; [reflexivity|];
  split; [right; reflexivity|];
  split; [intros H; vm_compute in H; discriminate H | intros _; reflexivity].

(** The three ways [gpst_get_config] goes once the request is built. *)
Lemma gpst_get_config_cases (v : openconnect_info) (e : getconfig_env) :
  gc_buf_error e = 0 ->
  (fst (fst (classify v e)) <> 0 ->
     gpst_get_config v e = GcRet (fst (fst (classify v e))) v [])
  /\ (fst (fst (classify v e)) = 0 ->
      forall r v' fr, gpst_get_config v e = GcRet r v' fr ->
        fr = [cstp_options v]
        /\ v' = fill_in_mtu (gc_diag e) (snd (fst (classify v e)))
        /\ (r = 0 \/ r = - EINVAL)
        /\ (r = 0 -> exists new_addr,
              addr (ip_info v') = Some new_addr
              /\ (forall a, addr (ip_info v) = Some a -> a = new_addr)
              /\ (forall m, netmask (ip_info v) = Some m ->
                    netmask (ip_info v') = Some m))
        /\ (addr (ip_info v') = None -> r = - EINVAL)).
Proof.
  intros Hb.
  pose proof (classify_error_keeps_state v e) as Hkeep.
  unfold gpst_get_config. rewrite Hb. cbn [Z.eqb negb].
  fold (classify v e).
  assert (Hneg : (gc_https_result e <? 0) = true ->
                 classify v e = (gc_https_result e, v, None)).
  { intros H. unfold classify, gpst_xml_or_error. rewrite H. reflexivity. }
  destruct (gc_https_result e <? 0) eqn:Hh.
  - rewrite (Hneg eq_refl). cbn [fst snd]. split.
    + reflexivity.
    + intros H0. apply Z.ltb_lt in Hh. lia.
  - clear Hneg.
    destruct (classify v e) as [[res v1] ch]. cbn [fst snd] in *.
    split.
    + intros Hne. rewrite (proj2 (Z.eqb_neq _ _) Hne). cbn [negb].
      rewrite (Hkeep Hne). reflexivity.
    + intros ->. cbn [Z.eqb negb]. intros r v' fr.
      destruct (addr (ip_info (fill_in_mtu (gc_diag e) v1)))
        as [new_addr|] eqn:Ea.
      * assert (Hold : forall b : bool,
                  match addr (ip_info v) with
                  | Some a => negb (CStr.streq a new_addr)
                  | None => false
                  end = b ->
                  b = false ->
                  forall a, addr (ip_info v) = Some a -> a = new_addr).
        { intros b Hb' -> a Ha. rewrite Ha in Hb'.
          apply negb_false_iff in Hb'. apply String.eqb_eq in Hb'.
          exact Hb'. }
        destruct (match addr (ip_info v) with
                  | Some a => negb (CStr.streq a new_addr)
                  | None => false
                  end) eqn:Eold.
        { intros [= <- <- <-]. rewrite Ea. fails_with_einval. }
        specialize (Hold false eq_refl eq_refl).
        destruct (netmask (ip_info v)) as [m|] eqn:Em.
        -- destruct (netmask (ip_info (fill_in_mtu (gc_diag e) v1)))
             as [new_netmask|] eqn:En; [|discriminate].
           destruct (negb (CStr.streq m new_netmask)) eqn:Enm.
           ++ intros [= <- <- <-]. rewrite Ea. fails_with_einval.
           ++ intros [= <- <- <-].
              split; [reflexivity|]. split; [reflexivity|].
              split; [left; reflexivity|]. split; [|rewrite Ea; discriminate].
              intros _. exists new_addr. split; [exact Ea|].
              split; [exact Hold|].
              intros m' [= <-]. rewrite En.
              apply negb_false_iff in Enm. apply String.eqb_eq in Enm.
              congruence.
        -- intros [= <- <- <-].
           split; [reflexivity|]. split; [reflexivity|].
           split; [left; reflexivity|]. split; [|rewrite Ea; discriminate].
           intros _. exists new_addr. split; [exact Ea|].
           split; [exact Hold|]. intros m' H; discriminate H.
      * intros [= <- <- <-]. rewrite Ea. fails_with_einval.
Qed.

End Negotiation.

(* ------------------------------------------------------------------ *)
(** ** Config negotiator: the outcome by kind of reply *)

Section NegotiationOutcome.

Lemma config_document_classify (v : openconnect_info) (e : getconfig_env)
    (root : xmlNode) :
  config_document e root ->
  classify v e
  = (0, finish_config
          (fold_left (config_child (gc_now e)) (node_children root)
             (clear_old_options v)), None).
Proof.
  intros (Hh & (body & Hb) & Hx & Hn & Hs).
  exact (classify_config_root v e body root Hh Hb Hx Hn Hs).
Qed.



Lemma fill_in_mtu_keeps (so : sockdiag) (w : openconnect_info) :
  negotiated (fill_in_mtu so w) = negotiated w.
Proof. unfold fill_in_mtu. destruct (mtu (ip_info w) =? 0); reflexivity. Qed.

Lemma finish_config_keeps (w : openconnect_info) :
  negotiated (finish_config w) = negotiated w.
Proof.
  destruct (finish_config_ip_info w) as (A & B & _).
  unfold negotiated. rewrite A, B. reflexivity.
Qed.

(** What the state holds once the callback has run on the children of a
    [<response>] document and the MTU has been filled in. *)
Lemma rebuilt_state_fields (now : Z) (so : sockdiag) (v : openconnect_info)
    (root : xmlNode) :
  let build v0 :=
    fill_in_mtu so
      (finish_config (fold_left (config_child now) (node_children root)
                        (clear_old_options v0))) in
  addr (ip_info (build v)) = last_text "ip-address" (node_children root)
  /\ netmask (ip_info (build v)) = last_text "netmask" (node_children root)
  /\ split_includes (ip_info (build v)) = rev (access_route_members root)
  /\ mtu (ip_info (build v))
     = (if last_mtu (node_children root) =? 0 then calculate_mtu v so
        else last_mtu (node_children root))
  /\ forall v2, negotiated (build v2) = negotiated (build v).
Proof.
  cbv beta zeta.
  set (w := fold_left (config_child now) (node_children root)
              (clear_old_options v)).
  assert (Hn : forall v0,
            negotiated (fill_in_mtu so
              (finish_config (fold_left (config_child now)
                                (node_children root) (clear_old_options v0))))
            = negotiated (fold_left (config_child now) (node_children root)
                            (clear_old_options v0))).
  { intros v0. rewrite fill_in_mtu_keeps. apply finish_config_keeps. }
  pose proof (Hn v) as Hv. fold w in Hv. unfold negotiated in Hv.
  injection Hv as H1 H2 _ _ _ H6 _.
  split; [|split; [|split; [|split]]].
  - rewrite H1. unfold w. rewrite fold_config_addr.
    destruct (last_text "ip-address" _); reflexivity.
  - rewrite H2. unfold w. rewrite fold_config_netmask.
    destruct (last_text "netmask" _); reflexivity.
  - rewrite H6. unfold w.
    change (routes (fold_left (config_child now) (node_children root)
                      (clear_old_options v))
            = rev (access_route_members root)).
    rewrite fold_config_routes. unfold access_route_members.
    apply app_nil_r.
  - assert (Hm : mtu (ip_info (finish_config w))
                 = last_mtu (node_children root)).
    { destruct (finish_config_ip_info w) as (A & _). rewrite A. unfold w.
      rewrite fold_config_mtu. unfold last_mtu.
      destruct (last_text "mtu" _); reflexivity. }
    unfold fill_in_mtu. rewrite Hm.
    destruct (last_mtu (node_children root) =? 0) eqn:E0.
    + cbn [ip_info set_ip_info mtu set_mtu]. unfold w.
      apply callback_settings.
    + exact Hm.
  - intros v2. unfold w. rewrite !Hn. apply fold_config_negotiated.
    reflexivity.
Qed.

End NegotiationOutcome.








(* ------------------------------------------------------------------ *)
(** ** [gpst_get_config], [gpst_connect] and [gpst_setup] *)

Section SetupFacts.

Lemma fill_in_mtu_nonzero (so : sockdiag) (v : openconnect_info) :
  mtu (ip_info (fill_in_mtu so v)) <> 0.
Proof.
  unfold fill_in_mtu. destruct (Z.eqb_spec (mtu (ip_info v)) 0) as [E|E].
  - cbn. apply calculate_mtu_floor_general.
  - exact E.
Qed.

(** The three ways [gpst_get_config] ends. *)
Lemma gpst_get_config_release (v : openconnect_info) (e : getconfig_env)
    (r : Z) (v' : openconnect_info) (fr : list (list oc_vpn_option)) :
  gpst_get_config v e = GcRet r v' fr ->
  (gc_buf_error e <> 0 /\ r = gc_buf_error e /\ v' = v
   /\ fr = [cstp_options v])
  \/ (gc_buf_error e = 0 /\ r <> 0 /\ v' = v /\ fr = [])
  \/ (gc_buf_error e = 0 /\ fr = [cstp_options v]
      /\ v' = fill_in_mtu (gc_diag e) (snd (fst (classify v e)))
      /\ fst (fst (classify v e)) = 0).
Proof.
  intros E.
  destruct (Z.eq_dec (gc_buf_error e) 0) as [Hb|Hb].
  - right. destruct (gpst_get_config_cases v e Hb) as [Herr Hok].
    destruct (Z.eq_dec (fst (fst (classify v e))) 0) as [H0|Hne].
    + right. destruct (Hok H0 r v' fr E) as (A & B & _). tauto.
    + left. rewrite (Herr Hne) in E. injection E as <- <- <-. tauto.
  - left. unfold gpst_get_config in E.
    rewrite (proj2 (Z.eqb_neq _ _) Hb) in E. cbn [negb] in E.
    injection E as <- <- <-. tauto.
Qed.

Lemma gpst_get_config_mtu (v : openconnect_info) (e : getconfig_env)
    (v' : openconnect_info) (fr : list (list oc_vpn_option)) :
  gpst_get_config v e = GcRet 0 v' fr -> mtu (ip_info v') <> 0.
Proof.
  intros E.
  destruct (gpst_get_config_release v e 0 v' fr E)
    as [(Hb & Hr & _)|[(_ & Hr & _)|(_ & _ & -> & _)]].
  - congruence.
  - congruence.
  - apply fill_in_mtu_nonzero.
Qed.


End SetupFacts.

(** X16. Whenever [gpst_get_config] returns 0 the tunnel MTU it leaves
    in [ip_info] is not 0.  When the reply is a [<response>] document
    that is not an error response, that MTU is the [int] that [atoi]
    makes of the text of the last [<mtu>] child, and when that is 0 (the
    text stands for 0 or for a multiple of 2^32, or the response has no
    [<mtu>] with a text) it is the estimate that [calculate_mtu] makes
    from the settings [vpninfo] had before the call; whatever MTU
    [vpninfo] held before is forgotten. *)
Theorem negotiated_mtu_is_never_zero
    (v : openconnect_info) (e : getconfig_env)
    (v' : openconnect_info) (fr : list (list oc_vpn_option)) :
  gpst_get_config v e = GcRet 0 v' fr ->
  mtu (ip_info v') <> 0
  /\ (forall root, config_document e root ->
      let m := last_mtu (node_children root) in
      - 2 ^ 31 <= m < 2 ^ 31
      /\ mtu (ip_info v')
         = (if m =? 0 then calculate_mtu v (gc_diag e) else m)).
Proof.
  intros E. split; [exact (gpst_get_config_mtu v e v' fr E)|].
  intros root Hdoc. cbv zeta. split.
  - unfold last_mtu. destruct (last_text "mtu" (node_children root));
      [apply atoi_is_int | lia].
  - destruct (gpst_get_config_release v e 0 v' fr E)
      as [(Hb & Hr & _)|[(_ & Hr & _)|(_ & _ & -> & _)]];
      [congruence | congruence |].
    rewrite (config_document_classify v e root Hdoc). cbn [fst snd].
    destruct (rebuilt_state_fields (gc_now e) (gc_diag e) v root)
      as (_ & _ & _ & Fm & _).
    exact Fm.
Qed.

(** A response whose [<mtu>] text is 2^32: [atoi] makes 0 of it, and
    the negotiation leaves the estimate. *)
Lemma negotiated_mtu_is_never_zero_witness :
  exists v',
    gpst_get_config Sample.vpn0
      (Sample.gc_env_of
         (Sample.response_of
            [Sample.text_node "ip-address" "10.0.0.2";
             Sample.text_node "mtu" "4294967296"]))
    = GcRet 0 v' [[]]
    /\ mtu (ip_info v') = 1300.
Proof.
  eexists. split; [vm_compute; reflexivity|].
  match goal with |- mtu (ip_info ?w) = _ =>
    refine (eq_trans
              (proj2 (proj2 (negotiated_mtu_is_never_zero Sample.vpn0
                 (Sample.gc_env_of
                    (Sample.response_of
                       [Sample.text_node "ip-address" "10.0.0.2";
                        Sample.text_node "mtu" "4294967296"]))
                 w [[]] _) _ _)) _)
  end.
  - vm_compute. reflexivity.
  - split; [vm_compute; discriminate|].
    split; [eexists; reflexivity|].
    split; [reflexivity|]. split; [reflexivity|].
    vm_compute. discriminate.
  - vm_compute. reflexivity.
Defined.

(** X17. Which option list [gpst_get_config] hands to [free_optlist].
    It releases either nothing or the list [vpninfo] had on entry.  It
    releases nothing exactly when the HTTPS exchange or the classifier
    failed; then it returns a value that is not 0 and [vpninfo] is
    untouched.  When building the request failed, it returns the error of
    the request buffer and leaves [vpninfo] untouched, but has released
    the old list all the same: the list that [vpninfo] still points
    to. *)
Theorem old_option_list_release
    (v : openconnect_info) (e : getconfig_env)
    (r : Z) (v' : openconnect_info) (fr : list (list oc_vpn_option)) :
  gpst_get_config v e = GcRet r v' fr ->
  (fr = [] \/ fr = [cstp_options v])
  /\ (fr = [] -> r <> 0 /\ v' = v)
  /\ (gc_buf_error e <> 0 ->
      r = gc_buf_error e /\ v' = v /\ fr = [cstp_options v']).
Proof.
  intros E.
  destruct (gpst_get_config_release v e r v' fr E)
    as [(Hb & -> & -> & ->)|[(Hb & Hr & -> & ->)|(Hb & -> & _ & _)]].
  - split; [right; reflexivity|]. split; [discriminate|].
    intros _. repeat split.
  - split; [left; reflexivity|]. split; [intros _; tauto|].
    intros H. contradiction.
  - split; [right; reflexivity|]. split; [discriminate|].
    intros H. contradiction.
Qed.

Lemma old_option_list_release_witness :
  gpst_get_config Sample.vpn_full
    (mk_gc_env (- 12) 0 (mk_reply None None) no_diag 1000)
  = GcRet (- 12) Sample.vpn_full [cstp_options Sample.vpn_full]
  /\ (- 12 = - 12 /\ Sample.vpn_full = Sample.vpn_full
      /\ [cstp_options Sample.vpn_full] = [cstp_options Sample.vpn_full]).
Proof.
  assert (E : gpst_get_config Sample.vpn_full
                (mk_gc_env (- 12) 0 (mk_reply None None) no_diag 1000)
              = GcRet (- 12) Sample.vpn_full [cstp_options Sample.vpn_full])
    by reflexivity.
  split; [exact E|].
  refine (proj2 (proj2 (old_option_list_release Sample.vpn_full
                          (mk_gc_env (- 12) 0 (mk_reply None None)
                             no_diag 1000)
                          (- 12) Sample.vpn_full
                          [cstp_options Sample.vpn_full] E)) _).
  discriminate.
Defined.





(* ------------------------------------------------------------------ *)
(** ** [gpst_mainloop]: the receive side *)

Section FirstRead.

(** The start of the read loop when a block is at hand. *)
Lemma ensure_receive_block (s : lstate) (c : pkt) :
  receive_block s = Some c ->
  exists s1,
    ensure_cstp_pkt (set_work_done 0 s) = (Some c, s1)
    /\ cstp_pkt (vi s1) = Some c
    /\ current_ssl_pkt (vi s1) = current_ssl_pkt (vi s)
    /\ outgoing_queue (vi s1) = outgoing_queue (vi s)
    /\ incoming_queue (vi s1) = incoming_queue (vi s)
    /\ quit_reason (vi s1) = quit_reason (vi s)
    /\ ssl_times (vi s1) = ssl_times (vi s)
    /\ tr s1 = tr s
    /\ work_done s1 = 0
    /\ reconnect_script (ev s1) = reconnect_script (ev s)
    /\ clock (ev s1) = clock (ev s).
Proof.
  unfold receive_block, ensure_cstp_pkt. cbn [vi ev set_work_done].
  destruct (cstp_pkt (vi s)) as [c0|] eqn:Ec.
  - intros [= <-]. eexists. split; [reflexivity|]. cbn. rewrite Ec.
    repeat split.
  - destruct (hd None (malloc_script (ev s))) as [a|]; [|discriminate].
    intros [= <-]. eexists. split; [reflexivity|]. cbn. repeat split.
Qed.

Lemma mainloop_first_read (s : lstate) (c : pkt) (r : rd_result)
    (rest : list rd_result) :
  ssl_fd (vi s) <> -1 -> receive_block s = Some c ->
  rd_script (ev s) = r :: rest ->
  exists s1,
    ensure_cstp_pkt (set_work_done 0 s) = (Some c, s1)
    /\ gpst_mainloop s
       = match
           match r with
           | Rd_err _ => RxReconnect (pop_read rest s1)
           | Rd_bytes [] => RxBreak (pop_read rest s1)
           | Rd_bytes buf =>
               match rx_frame c buf (pop_read rest s1) with
               | RxContinue s2 => rx_loop rest s2
               | RxExit e => e
               end
           end
         with
         | RxBreak s2 =>
             match current_ssl_pkt (vi s2) with
             | Some _ => handle_outgoing (fuel_for s2) s2
             | None => ka_switch (handle_outgoing (fuel_for s2)) s2
             end
         | RxReconnect s2 => do_reconnect s2
         | RxReturn r s2 => Ret r s2
         | RxFault => Fault
         end.
Proof.
  intros Hfd Hb Hrd.
  destruct (ensure_receive_block s c Hb) as (s1 & E & _).
  exists s1. split; [exact E|].
  unfold gpst_mainloop.
  replace (ssl_fd (vi (set_work_done 0 s)) =? -1) with false
    by (symmetry; apply Z.eqb_neq; exact Hfd).
  change (ev (set_work_done 0 s)) with (ev s). rewrite Hrd.
  cbn [rx_loop]. rewrite E.
  destruct r as [e|[|b buf]]; reflexivity.
Qed.

Lemma do_reconnect_result (s : lstate) :
  do_reconnect s
  = Ret (if reconnect_answer s =? 0 then 1 else reconnect_answer s)
      (let s1 := log_ev (EvReconnect (reconnect_answer s))
                   (set_ev (set_reconnect_script
                              (tl (reconnect_script (ev s))) (ev s)) s) in
       if reconnect_answer s =? 0 then s1
       else upd_vi (set_quit_reason "GPST reconnect failed"%string) s1).
Proof.
  unfold do_reconnect, ssl_reconnect, reconnect_answer.
  destruct (hd 0 (reconnect_script (ev s)) =? 0); reflexivity.
Qed.

End FirstRead.

(** X20. An invocation that cannot read does nothing but reconnect.
    When the socket is closed ([ssl_fd] is -1), or when a block to read
    into is at hand and the first read fails, the invocation calls
    [ssl_reconnect] and returns: 1 when the
    reconnect succeeded, else the error of the reconnect with
    [quit_reason] set to "GPST reconnect failed".  Nothing is written,
    dequeued or freed, also when a packet is waiting in the slot or in
    the queue, and the packet in the slot stays there. *)
Theorem failed_read_only_reconnects (s : lstate) :
  (ssl_fd (vi s) = -1
   \/ exists c e rest,
        receive_block s = Some c /\ rd_script (ev s) = Rd_err e :: rest) ->
  exists s',
    gpst_mainloop s
      = Ret (if reconnect_answer s =? 0 then 1 else reconnect_answer s) s'
    /\ tr s' = EvReconnect (reconnect_answer s) :: tr s
    /\ current_ssl_pkt (vi s') = current_ssl_pkt (vi s)
    /\ outgoing_queue (vi s') = outgoing_queue (vi s)
    /\ incoming_queue (vi s') = incoming_queue (vi s)
    /\ quit_reason (vi s')
       = (if reconnect_answer s =? 0 then quit_reason (vi s)
          else Some "GPST reconnect failed"%string).
Proof.
  intros [Hfd|(c & e & rest & Hb & Hrd)].
  - unfold gpst_mainloop.
    replace (ssl_fd (vi (set_work_done 0 s)) =? -1) with true
      by (symmetry; apply Z.eqb_eq; exact Hfd).
    rewrite do_reconnect_result.
    change (reconnect_answer (set_work_done 0 s)) with (reconnect_answer s).
    eexists. split; [reflexivity|].
    destruct (reconnect_answer s =? 0); cbn; repeat split.
  - destruct (Z.eq_dec (ssl_fd (vi s)) (-1)) as [Hfd|Hfd].
    + unfold gpst_mainloop.
      replace (ssl_fd (vi (set_work_done 0 s)) =? -1) with true
        by (symmetry; apply Z.eqb_eq; exact Hfd).
      rewrite do_reconnect_result.
      change (reconnect_answer (set_work_done 0 s)) with (reconnect_answer s).
      eexists. split; [reflexivity|].
      destruct (reconnect_answer s =? 0); cbn; repeat split.
    + destruct (mainloop_first_read s c (Rd_err e) rest Hfd Hb Hrd)
        as (s1 & E & ->).
      destruct (ensure_receive_block s c Hb)
        as (s1' & E' & _ & K1 & K2 & K3 & K4 & _ & K5 & _ & K6 & _).
      rewrite E in E'. injection E' as <-.
      rewrite do_reconnect_result.
      assert (Ha : reconnect_answer (pop_read rest s1) = reconnect_answer s).
      { unfold reconnect_answer. cbn. rewrite K6. reflexivity. }
      rewrite Ha. eexists. split; [reflexivity|].
      destruct (reconnect_answer s =? 0); cbn;
        rewrite ?K1, ?K2, ?K3, ?K4, ?K5; repeat split.
Qed.

Lemma failed_read_only_reconnects_witness :
  exists s',
    gpst_mainloop
      (mk_lstate (set_current_ssl_pkt (Some (stamp_header Sample.out1))
                    Sample.vpn0)
         (set_rd_script [Rd_err 104%positive] Sample.env0) [] 0)
      = Ret 1 s'
    /\ tr s' = [EvReconnect 0]
    /\ current_ssl_pkt (vi s') = Some (stamp_header Sample.out1).
Proof.
  destruct (failed_read_only_reconnects
              (mk_lstate (set_current_ssl_pkt
                            (Some (stamp_header Sample.out1)) Sample.vpn0)
                 (set_rd_script [Rd_err 104%positive] Sample.env0) [] 0))
    as (s' & E & T & C & _).
  - right. exists (mk_pkt (Heap 4096) 0 [] []), 104%positive, [].
    split; reflexivity.
  - exists s'. split; [exact E|]. split; [exact T | exact C].
Defined.

(** X21. A first read of fewer than 16 bytes (into the block that
    [cstp_pkt] points to or that [malloc] has just returned) ends the
    invocation at once: it returns 1 with [quit_reason]
    "Short packet received".  The
    header is not looked at, [last_rx] is not stamped, and nothing is
    written, dequeued or queued, also when a packet is waiting to be
    sent. *)
Theorem short_packet_is_fatal
    (s : lstate) (c : pkt) (buf : list byte) (rest : list rd_result) :
  ssl_fd (vi s) <> -1 -> receive_block s = Some c ->
  rd_script (ev s) = Rd_bytes buf :: rest ->
  (0 < List.length buf < 16)%nat ->
  exists s',
    gpst_mainloop s = Ret 1 s'
    /\ quit_reason (vi s') = Some "Short packet received"%string
    /\ tr s' = tr s
    /\ last_rx (ssl_times (vi s')) = last_rx (ssl_times (vi s))
    /\ current_ssl_pkt (vi s') = current_ssl_pkt (vi s)
    /\ outgoing_queue (vi s') = outgoing_queue (vi s)
    /\ incoming_queue (vi s') = incoming_queue (vi s).
Proof.
  intros Hfd Hb Hrd Hlen.
  destruct (mainloop_first_read s c (Rd_bytes buf) rest Hfd Hb Hrd)
    as (s1 & E & ->).
  destruct (ensure_receive_block s c Hb)
    as (s1' & E' & _ & K1 & K2 & K3 & _ & K4 & K5 & _).
  rewrite E in E'. injection E' as <-.
  destruct buf as [|b buf]; [cbn in Hlen; lia|].
  assert (Hd : gpst_decode (b :: buf) = ShortFrame).
  { unfold gpst_decode.
    replace (Z.of_nat (List.length (b :: buf)) <? 16) with true
      by (symmetry; apply Z.ltb_lt; lia).
    reflexivity. }
  unfold rx_frame. rewrite Hd.
  eexists. split; [reflexivity|]. cbn.
  rewrite K1, K2, K3, K4, K5. repeat split.
Qed.

Lemma short_packet_is_fatal_witness :
  exists s',
    gpst_mainloop
      (mk_lstate (set_outgoing_queue [Sample.out1] Sample.vpn0)
         (set_rd_script [Rd_bytes [x1a; x2b; x3c]] Sample.env0) [] 0)
      = Ret 1 s'
    /\ quit_reason (vi s') = Some "Short packet received"%string
    /\ tr s' = [].
Proof.
  destruct (short_packet_is_fatal
              (mk_lstate (set_outgoing_queue [Sample.out1] Sample.vpn0)
                 (set_rd_script [Rd_bytes [x1a; x2b; x3c]] Sample.env0) [] 0)
              (mk_pkt (Heap 4096) 0 [] []) [x1a; x2b; x3c] [])
    as (s' & E & Q & T & _).
  - vm_compute. discriminate.
  - reflexivity.
  - reflexivity.
  - cbn. lia.
  - exists s'. split; [exact E|]. split; [exact Q | exact T].
Defined.

(** X22. A first frame read that is a data frame with an otherwise
    good header (magic, length, EtherType 0x0800) but whose last eight
    header bytes are not
    01 00 00 00 00 00 00 00 is queued inbound, the slot [cstp_pkt] is
    set to NULL, and then the hex dump of those eight bytes is given the
    address [cstp_pkt->gpst.hdr + 8], computed through the pointer that
    has just been set to NULL: the invocation dereferences NULL. *)
Theorem odd_trailer_on_data_frame_faults
    (s : lstate) (c : pkt) (buf : list byte) (rest : list rd_result) :
  ssl_fd (vi s) <> -1 -> receive_block s = Some c ->
  rd_script (ev s) = Rd_bytes buf :: rest ->
  magic (load_header buf) = GPST_MAGIC ->
  Z.of_nat (List.length buf) = 16 + payload_len (load_header buf) ->
  ethertype (load_header buf) = ETH_IPV4 ->
  one (load_header buf) <> 1 \/ zero (load_header buf) <> 0 ->
  gpst_mainloop s = Fault.
Proof.
  intros Hfd Hb Hrd Hm Hl He Ht.
  destruct (mainloop_first_read s c (Rd_bytes buf) rest Hfd Hb Hrd)
    as (s1 & E & ->).
  assert (Hp : 0 <= payload_len (load_header buf))
    by apply load_be16_nonneg.
  destruct buf as [|b buf]; [cbn [List.length Z.of_nat] in Hl; lia|].
  assert (Hd : gpst_decode (b :: buf) = Decoded Data (skipn 16 (b :: buf)) true).
  { unfold gpst_decode.
    replace (Z.of_nat (List.length (b :: buf)) <? 16) with false
      by (symmetry; apply Z.ltb_ge; lia).
    rewrite Hm, Z.eqb_refl. cbn [negb].
    rewrite (proj2 (Z.eqb_eq _ _) Hl). cbn [negb].
    rewrite He. change (ETH_IPV4 =? 0) with false.
    rewrite Z.eqb_refl. cbv beta iota. f_equal.
    destruct Ht as [Ht|Ht]; rewrite (proj2 (Z.eqb_neq _ _) Ht);
      [reflexivity | apply orb_true_r]. }
  unfold rx_frame. rewrite Hd. reflexivity.
Qed.

Lemma odd_trailer_on_data_frame_faults_witness :
  gpst_mainloop
    (mk_lstate Sample.vpn0
       (set_rd_script
          [Rd_bytes [x1a; x2b; x3c; x4d; x08; x00; x00; x01;
                     x00; x00; x00; x00; x00; x00; x00; x00; x45]]
          Sample.env0) [] 0)
  = Fault.
Proof.
  apply (odd_trailer_on_data_frame_faults
           (mk_lstate Sample.vpn0
              (set_rd_script
                 [Rd_bytes [x1a; x2b; x3c; x4d; x08; x00; x00; x01;
                            x00; x00; x00; x00; x00; x00; x00; x00; x45]]
                 Sample.env0) [] 0)
           (mk_pkt (Heap 4096) 0 [] [])
           [x1a; x2b; x3c; x4d; x08; x00; x00; x01;
            x00; x00; x00; x00; x00; x00; x00; x00; x45] []).
  - vm_compute. discriminate.
  - reflexivity.
  - reflexivity.
  - vm_compute. reflexivity.
  - vm_compute. reflexivity.
  - vm_compute. reflexivity.
  - left. vm_compute. discriminate.
Defined.

(* ------------------------------------------------------------------ *)
(** ** [gpst_mainloop]: what an invocation leaves alone *)

Section WriteSide.

Lemma write_side_step_ret (s s' : lstate) (r : Z) (l : list event) :
  incoming_queue (vi s') = incoming_queue (vi s) ->
  (r = 0 -> work_done s = 0) ->
  tr s' = l ++ tr s -> ~ In (EvFree Static_dpd) l ->
  write_side_step s r s'.
Proof.
  intros H1 H2 H3 H4. split; [exact H1|]. split; [exact H2|].
  exists l. split; assumption.
Qed.

(** A step that changes neither the inbound queue nor [work_done] and
    logs the events [l0], followed by the rest of the write side. *)
Lemma write_side_step_after (s s1 s' : lstate) (r : Z) (l0 : list event) :
  incoming_queue (vi s1) = incoming_queue (vi s) ->
  work_done s1 = work_done s ->
  tr s1 = l0 ++ tr s -> ~ In (EvFree Static_dpd) l0 ->
  write_side_step s1 r s' -> write_side_step s r s'.
Proof.
  intros H1 H2 H3 H4 (A & B & l & C & D).
  split; [congruence|]. split; [intros Hr; rewrite <- H2; auto|].
  exists (l ++ l0). split.
  - rewrite C, H3, app_assoc. reflexivity.
  - intros Hin. apply in_app_or in Hin. tauto.
Qed.

Lemma do_reconnect_step (s : lstate) r s' :
  do_reconnect s = Ret r s' -> write_side_step s r s'.
Proof.
  rewrite do_reconnect_result. intros [= <- <-].
  apply (write_side_step_ret _ _ _ [EvReconnect (reconnect_answer s)]).
  - destruct (reconnect_answer s =? 0); reflexivity.
  - destruct (Z.eqb_spec (reconnect_answer s) 0); [discriminate|].
    intros H. contradiction.
  - destruct (reconnect_answer s =? 0); reflexivity.
  - cbn. intuition discriminate.
Qed.

Lemma service_queue_step (handle : lstate -> outcome) (s : lstate) r s' :
  (forall s1 r s', handle s1 = Ret r s' -> write_side_step s1 r s') ->
  service_queue handle s = Ret r s' -> write_side_step s r s'.
Proof.
  intros H. unfold service_queue.
  destruct (is_dtls_connected _).
  { intros [= <- <-]. apply (write_side_step_ret _ _ _ []); auto. }
  destruct (outgoing_queue (vi s)) as [|this q].
  - intros [= <- <-]. apply (write_side_step_ret _ _ _ []); auto.
  - intros E. apply H in E.
    refine (write_side_step_after s _ s' r [EvDequeue (stamp_header this)]
              _ _ _ _ E); try reflexivity.
    cbn. intuition discriminate.
Qed.

Lemma ka_switch_step (handle : lstate -> outcome) (s : lstate) r s' :
  (forall s1 r s', handle s1 = Ret r s' -> write_side_step s1 r s') ->
  ka_switch handle s = Ret r s' -> write_side_step s r s'.
Proof.
  intros H. unfold ka_switch, keepalive_action.
  assert (Hsq : forall s0,
            incoming_queue (vi s0) = incoming_queue (vi s) ->
            work_done s0 = work_done s -> tr s0 = tr s ->
            service_queue handle s0 = Ret r s' -> write_side_step s r s').
  { intros s0 A B C E. apply (service_queue_step handle s0 r s' H) in E.
    apply (write_side_step_after s s0 s' r []); auto. }
  assert (Hh : forall s0,
            incoming_queue (vi s0) = incoming_queue (vi s) ->
            work_done s0 = work_done s -> tr s0 = tr s ->
            handle s0 = Ret r s' -> write_side_step s r s').
  { intros s0 A B C E. apply H in E.
    apply (write_side_step_after s s0 s' r []); auto. }
  assert (Hr : forall s0,
            incoming_queue (vi s0) = incoming_queue (vi s) ->
            work_done s0 = work_done s -> tr s0 = tr s ->
            do_reconnect s0 = Ret r s' -> write_side_step s r s').
  { intros s0 A B C E. apply do_reconnect_step in E.
    apply (write_side_step_after s s0 s' r []); auto. }
  destruct (hd KA_NONE _).
  - apply Hsq; reflexivity.
  - apply Hh; reflexivity.
  - apply Hr; reflexivity.
  - destruct (_ && _); [apply Hsq | apply Hh]; reflexivity.
  - apply Hr; reflexivity.
Qed.

Lemma pkt_ptr_eqb_static (a : pkt_ptr) :
  pkt_ptr_eqb a Static_dpd = false -> a <> Static_dpd.
Proof. destruct a; [discriminate|]. intros _. discriminate. Qed.

Lemma finish_write_step (next : lstate -> outcome) p ret (s : lstate) r s' :
  (forall s1 r s', next s1 = Ret r s' -> write_side_step s1 r s') ->
  finish_write next p ret s = Ret r s' -> write_side_step s r s'.
Proof.
  intros H. unfold finish_write.
  destruct (negb _).
  { intros [= <- <-]. apply (write_side_step_ret _ _ _ []); auto.
    discriminate. }
  destruct (pkt_ptr_eqb (pkt_at p) Static_dpd) eqn:Ep; intros E; apply H in E.
  - refine (write_side_step_after s _ s' r [] _ _ _ _ E);
      try reflexivity. intros [].
  - refine (write_side_step_after s _ s' r [EvFree (pkt_at p)] _ _ _ _ E);
      try reflexivity.
    apply pkt_ptr_eqb_static in Ep. cbn. intros [[= Hp]|[]]. congruence.
Qed.

Lemma after_write_step (next : lstate -> outcome) p ret (s : lstate) r s' :
  (forall s1 r s', next s1 = Ret r s' -> write_side_step s1 r s') ->
  after_write next p ret s = Ret r s' -> write_side_step s r s'.
Proof.
  intros H. unfold after_write.
  destruct (ret <? 0); [apply do_reconnect_step|].
  destruct (ret =? 0); [|apply finish_write_step; exact H].
  unfold ka_stalled_action.
  assert (Hf : forall s0,
            incoming_queue (vi s0) = incoming_queue (vi s) ->
            work_done s0 = work_done s -> tr s0 = tr s ->
            finish_write next p ret s0 = Ret r s' -> write_side_step s r s').
  { intros s0 A B C E. apply (finish_write_step next p ret s0 r s' H) in E.
    apply (write_side_step_after s s0 s' r []); auto. }
  assert (Hr : forall s0,
            incoming_queue (vi s0) = incoming_queue (vi s) ->
            work_done s0 = work_done s -> tr s0 = tr s ->
            do_reconnect s0 = Ret r s' -> write_side_step s r s').
  { intros s0 A B C E. apply do_reconnect_step in E.
    apply (write_side_step_after s s0 s' r []); auto. }
  destruct (hd KA_NONE _).
  - intros [= <- <-]. apply (write_side_step_ret _ _ _ []); auto.
  - apply Hf; reflexivity.
  - apply Hr; reflexivity.
  - apply Hf; reflexivity.
  - apply Hr; reflexivity.
Qed.

Lemma handle_outgoing_step (fuel : nat) :
  forall s r s', handle_outgoing fuel s = Ret r s' -> write_side_step s r s'.
Proof.
  induction fuel as [|fuel IH]; intros s r s'; [discriminate|].
  cbn [handle_outgoing].
  destruct (current_ssl_pkt (vi s)) as [p|]; [|discriminate].
  destruct (write_current p s) as [ret s1] eqn:Ew.
  assert (Hs1 : incoming_queue (vi s1) = incoming_queue (vi s)
                /\ work_done s1 = work_done s
                /\ tr s1 = [write_of p ret] ++ tr s).
  { unfold write_current, time, ssl_nonblock_write in Ew.
    injection Ew as <- <-. repeat split. }
  destruct Hs1 as (A & B & C).
  intros E. apply after_write_step in E.
  - apply (write_side_step_after s s1 s' r [write_of p ret]); auto.
    cbn. intuition discriminate.
  - intros s2 r2 s2'. apply ka_switch_step. exact IH.
Qed.

End WriteSide.

Section ReceiveSide.




End ReceiveSide.



(** X24. The [dpd_pkt] sentinel is never handed to [free]: whatever the
    timers, the reads and the writes answer, the events an invocation
    adds are put in front of the earlier ones and none of them frees the
    sentinel. *)
Theorem static_dpd_packet_is_never_freed
    (s : lstate) (r : Z) (s' : lstate) :
  gpst_mainloop s = Ret r s' ->
  exists l, tr s' = l ++ tr s /\ ~ In (EvFree Static_dpd) l.
Proof.
  unfold gpst_mainloop.
  destruct (_ =? -1).
  { intros E. apply do_reconnect_step in E. destruct E as (_ & _ & E).
    exact E. }
  pose proof (rx_loop_trace (rd_script (ev (set_work_done 0 s)))
                (set_work_done 0 s)) as Ht.
  change (tr (set_work_done 0 s)) with (tr s) in Ht.
  destruct (rx_loop _ _) as [s1|s1|r1 s1|]; [| | |discriminate].
  - assert (Hstep : forall r s',
              write_side_step s1 r s' ->
              exists l, tr s' = l ++ tr s /\ ~ In (EvFree Static_dpd) l).
    { intros r0 s0 (_ & _ & l & E & H). exists l. rewrite <- Ht.
      split; assumption. }
    destruct (current_ssl_pkt (vi s1)); intros E; apply (Hstep r).
    + apply (handle_outgoing_step _ _ _ _ E).
    + apply (ka_switch_step _ _ _ _ (handle_outgoing_step _) E).
  - intros E. apply do_reconnect_step in E.
    destruct E as (_ & _ & l & E & H). exists l. rewrite <- Ht.
    split; assumption.
  - intros [= <- <-]. exists []. split; [exact Ht | intros []].
Qed.

Lemma static_dpd_packet_is_never_freed_witness :
  exists l,
    tr (match gpst_mainloop
                (mk_lstate Sample.vpn0 (set_ka_script [KA_DPD] Sample.env0)
                   [] 0)
        with Ret _ s' => s' | _ => Sample.s_two end)
    = l ++ []
    /\ ~ In (EvFree Static_dpd) l.
Proof.
  apply (static_dpd_packet_is_never_freed
           (mk_lstate Sample.vpn0 (set_ka_script [KA_DPD] Sample.env0) [] 0)
           0).
  vm_compute. reflexivity.
Defined.

(* ------------------------------------------------------------------ *)
(** ** [gpst_mainloop]: keepalive and DPD requests *)

Section Keepalive.

(** An invocation with nothing to read and an empty slot goes straight
    to the switch on the timer. *)
Lemma idle_invocation (s : lstate) :
  ssl_fd (vi s) <> -1 -> rd_script (ev s) = [] ->
  current_ssl_pkt (vi s) = None ->
  exists s1,
    gpst_mainloop s = ka_switch (handle_outgoing (fuel_for s1)) s1
    /\ current_ssl_pkt (vi s1) = None
    /\ outgoing_queue (vi s1) = outgoing_queue (vi s)
    /\ dtls_state (vi s1) = dtls_state (vi s)
    /\ tr s1 = tr s
    /\ ka_script (ev s1) = ka_script (ev s)
    /\ wr_script (ev s1) = wr_script (ev s).
Proof.
  intros Hfd Hrd Hslot. unfold gpst_mainloop.
  replace (ssl_fd (vi (set_work_done 0 s)) =? -1) with false
    by (symmetry; apply Z.eqb_neq; exact Hfd).
  change (ev (set_work_done 0 s)) with (ev s). rewrite Hrd.
  pose proof (ensure_cstp_pkt_keeps (set_work_done 0 s)) as K.
  cbv zeta in K. cbn [rx_loop].
  destruct (ensure_cstp_pkt (set_work_done 0 s)) as [block s1].
  cbn [snd] in K. destruct K as (K1 & K2 & K3 & K4 & _ & K6 & K7).
  cbn [vi ev tr set_work_done] in K1, K2, K3, K4, K6, K7.
  assert (Hs1 : current_ssl_pkt (vi s1) = None) by congruence.
  exists s1. split.
  - destruct block; rewrite Hs1; reflexivity.
  - repeat split; assumption.
Qed.

(** The first thing [handle_outgoing] does, with enough fuel. *)
Lemma handle_outgoing_writes_first (fuel : nat) (s : lstate) (p : pkt) :
  (budget s < fuel)%nat -> current_ssl_pkt (vi s) = Some p ->
  exists r s' l,
    handle_outgoing fuel s = Ret r s'
    /\ tr s' = l ++ write_of p (hd (pkt_len p + 16) (wr_script (ev s)))
                    :: tr s.
Proof.
  intros Hf Hp.
  destruct (handle_outgoing_returns fuel s Hf) as (r & s' & E);
    [rewrite Hp; discriminate|].
  destruct (handle_outgoing_first_write fuel s p r s' Hp E) as [l Hl].
  exists r, s', l. split; assumption.
Qed.

End Keepalive.

(** X25. Keepalive and DPD requests.  In an invocation with nothing to
    read and no packet waiting in the slot: when the timer asks for DPD,
    or asks for a keepalive while no data packet is queued (or the data
    path is DTLS), the first thing written is the [dpd_pkt] sentinel,
    sixteen bytes: the magic 1a 2b 3c 4d followed by twelve zero bytes.
    When the timer asks for a keepalive while a data packet is queued,
    no such request is sent: the head of the queue is dequeued, stamped
    and written instead. *)
Theorem keepalive_request_or_queued_data (s : lstate) :
  ssl_fd (vi s) <> -1 -> rd_script (ev s) = [] ->
  current_ssl_pkt (vi s) = None ->
  (hd KA_NONE (ka_script (ev s)) = KA_DPD
   \/ (hd KA_NONE (ka_script (ev s)) = KA_KEEPALIVE
       /\ (is_dtls_connected (dtls_state (vi s)) = true
           \/ outgoing_queue (vi s) = [])) ->
   exists r s' l,
     gpst_mainloop s = Ret r s'
     /\ tr s' = l ++ EvWrite Static_dpd dpd_request 16
                       (hd 16 (wr_script (ev s))) :: tr s)
  /\ (forall this q,
        hd KA_NONE (ka_script (ev s)) = KA_KEEPALIVE ->
        is_dtls_connected (dtls_state (vi s)) = false ->
        outgoing_queue (vi s) = this :: q ->
        exists r s' l,
          gpst_mainloop s = Ret r s'
          /\ tr s' = l ++ write_of (stamp_header this)
                            (hd (pkt_len this + 16) (wr_script (ev s)))
                          :: EvDequeue (stamp_header this) :: tr s).
Proof.
  intros Hfd Hrd Hslot.
  destruct (idle_invocation s Hfd Hrd Hslot)
    as (s1 & -> & C1 & Q1 & D1 & T1 & K1 & W1).
  unfold ka_switch, keepalive_action. cbn [vi set_ev]. rewrite K1, D1, Q1.
  assert (Hka : forall a, hd KA_NONE (ka_script (ev s)) = a -> a <> KA_NONE ->
                  (List.length (tl (ka_script (ev s)))
                   < List.length (ka_script (ev s)))%nat).
  { intros a Ha Hne. destruct (ka_script (ev s)); cbn in *;
      [congruence | lia]. }
  assert (Hdpd : exists r s' l,
            handle_outgoing (fuel_for s1)
              (upd_vi (set_current_ssl_pkt (Some dpd_pkt))
                 (set_ev (set_ka_script (tl (ka_script (ev s))) (ev s1)) s1))
            = Ret r s'
            /\ tr s' = l ++ EvWrite Static_dpd dpd_request 16
                              (hd 16 (wr_script (ev s))) :: tr s
          \/ hd KA_NONE (ka_script (ev s)) = KA_NONE).
  { destruct (ka_script (ev s)) as [|a0 rest] eqn:Eka.
    - exists 0, s1, []. right. reflexivity.
    - destruct (handle_outgoing_writes_first (fuel_for s1)
                  (upd_vi (set_current_ssl_pkt (Some dpd_pkt))
                     (set_ev (set_ka_script rest (ev s1)) s1)) dpd_pkt)
        as (r & s' & l & E & Hl).
      + unfold fuel_for, budget. cbn. rewrite K1. cbn. lia.
      + reflexivity.
      + exists r, s', l. left. split; [exact E|].
        rewrite Hl. cbn. rewrite W1, T1. reflexivity. }
  destruct Hdpd as (r & s' & l & Hdpd).
  split.
  - intros [Ha|(Ha & Hq)]; rewrite Ha.
    + destruct Hdpd as [Hd|Hn]; [|congruence].
      exists r, s', l. exact Hd.
    + destruct Hdpd as [Hd|Hn]; [|congruence].
      replace (negb (is_dtls_connected (dtls_state (vi s)))
               && match outgoing_queue (vi s) with
                  | [] => false | _ :: _ => true end) with false.
      * exists r, s', l. exact Hd.
      * destruct Hq as [-> | ->]; [reflexivity|].
        symmetry. apply andb_false_r.
  - intros this q Ha Hd Hq. rewrite Ha, Hd, Hq. cbn [negb andb].
    unfold service_queue. cbn [vi set_ev]. rewrite D1, Hd, Q1, Hq.
    destruct (handle_outgoing_writes_first (fuel_for s1)
                (log_ev (EvDequeue (stamp_header this))
                   (upd_vi (fun v => set_current_ssl_pkt
                                       (Some (stamp_header this))
                                       (set_outgoing_queue q v))
                      (set_ev (set_ka_script (tl (ka_script (ev s)))
                                 (ev s1)) s1)))
                (stamp_header this))
      as (r2 & s2 & l2 & E & Hl).
    + unfold fuel_for, budget. cbn. rewrite K1, Q1, Hq.
      pose proof (Hka _ Ha ltac:(discriminate)). cbn. lia.
    + reflexivity.
    + exists r2, s2, l2. split; [exact E|].
      rewrite Hl. cbn. rewrite W1, T1. reflexivity.
Qed.

Lemma keepalive_request_or_queued_data_witness :
  exists r s' l,
    gpst_mainloop
      (mk_lstate Sample.vpn0 (set_ka_script [KA_KEEPALIVE] Sample.env0) [] 0)
    = Ret r s'
    /\ tr s' = l ++ [EvWrite Static_dpd dpd_request 16 16].
Proof.
  refine (proj1 (keepalive_request_or_queued_data
                   (mk_lstate Sample.vpn0
                      (set_ka_script [KA_KEEPALIVE] Sample.env0) [] 0)
                   _ _ _) _).
  - vm_compute. discriminate.
  - reflexivity.
  - reflexivity.
  - right. split; [reflexivity|]. right. reflexivity.
Defined.

(* ------------------------------------------------------------------ *)
(** ** [gpst_mainloop]: a write that does not complete *)

Section PendingWrite.

(** An invocation with nothing to read and a packet waiting in the slot
    goes straight to [handle_outgoing]. *)
Lemma pending_invocation (s : lstate) (p : pkt) :
  ssl_fd (vi s) <> -1 -> rd_script (ev s) = [] ->
  current_ssl_pkt (vi s) = Some p ->
  exists s1,
    gpst_mainloop s = handle_outgoing (fuel_for s1) s1
    /\ current_ssl_pkt (vi s1) = Some p
    /\ outgoing_queue (vi s1) = outgoing_queue (vi s)
    /\ tr s1 = tr s
    /\ wr_script (ev s1) = wr_script (ev s)
    /\ quit_reason (vi s1) = quit_reason (vi s)
    /\ reconnect_script (ev s1) = reconnect_script (ev s).
Proof.
  intros Hfd Hrd Hslot. unfold gpst_mainloop.
  replace (ssl_fd (vi (set_work_done 0 s)) =? -1) with false
    by (symmetry; apply Z.eqb_neq; exact Hfd).
  change (ev (set_work_done 0 s)) with (ev s). rewrite Hrd.
  pose proof (ensure_cstp_pkt_keeps (set_work_done 0 s)) as K.
  assert (K' : quit_reason (vi (snd (ensure_cstp_pkt (set_work_done 0 s))))
               = quit_reason (vi s)
               /\ reconnect_script
                    (ev (snd (ensure_cstp_pkt (set_work_done 0 s))))
                  = reconnect_script (ev s)).
  { unfold ensure_cstp_pkt. cbn [vi ev set_work_done].
    destruct (cstp_pkt (vi s)); [split; reflexivity|].
    destruct (hd None (malloc_script (ev s))); split; reflexivity. }
  cbv zeta in K. cbn [rx_loop].
  destruct (ensure_cstp_pkt (set_work_done 0 s)) as [block s1].
  cbn [snd] in K, K'. destruct K as (K1 & K2 & _ & K4 & _ & _ & K7).
  destruct K' as (K8 & K9).
  cbn [vi ev tr set_work_done] in K1, K2, K4, K7.
  assert (Hs1 : current_ssl_pkt (vi s1) = Some p) by congruence.
  exists s1. split.
  - destruct block; rewrite Hs1; reflexivity.
  - repeat split; assumption.
Qed.

End PendingWrite.

(** X26. A write that does not complete.  With a packet waiting in the
    slot and nothing to read: when [ssl_nonblock_write] returns a
    positive count other than [len + 16], the invocation returns 1 with
    [quit_reason] "Internal error"; when it returns a negative value, the
    invocation reconnects and returns as the reconnect decides.  In both
    cases the packet stays in the slot, it is not freed, and no further
    packet is dequeued or written. *)
Theorem incomplete_write_keeps_packet (s : lstate) (p : pkt) (ret : Z) :
  ssl_fd (vi s) <> -1 -> rd_script (ev s) = [] ->
  current_ssl_pkt (vi s) = Some p ->
  hd (pkt_len p + 16) (wr_script (ev s)) = ret ->
  (0 < ret -> ret <> pkt_len p + 16 ->
   exists s',
     gpst_mainloop s = Ret 1 s'
     /\ quit_reason (vi s') = Some "Internal error"%string
     /\ tr s' = [write_of p ret] ++ tr s
     /\ current_ssl_pkt (vi s') = Some p
     /\ outgoing_queue (vi s') = outgoing_queue (vi s))
  /\ (ret < 0 ->
      exists s',
        gpst_mainloop s
          = Ret (if reconnect_answer s =? 0 then 1 else reconnect_answer s) s'
        /\ tr s' = [EvReconnect (reconnect_answer s); write_of p ret] ++ tr s
        /\ current_ssl_pkt (vi s') = Some p
        /\ outgoing_queue (vi s') = outgoing_queue (vi s)).
Proof.
  intros Hfd Hrd Hslot Hret.
  destruct (pending_invocation s p Hfd Hrd Hslot)
    as (s1 & -> & C1 & Q1 & T1 & W1 & R1 & RS1).
  unfold fuel_for. cbn [handle_outgoing]. rewrite C1.
  unfold write_current, time, ssl_nonblock_write.
  cbn [ev vi tr upd_vi set_ev log_ev wr_script set_wr_script set_clock].
  rewrite W1, Hret. unfold after_write. split.
  - intros Hpos Hne.
    replace (ret <? 0) with false by (symmetry; apply Z.ltb_ge; lia).
    replace (ret =? 0) with false by (symmetry; apply Z.eqb_neq; lia).
    unfold finish_write. rewrite (proj2 (Z.eqb_neq _ _) Hne). cbn [negb].
    eexists. split; [reflexivity|]. cbn. rewrite C1, Q1, T1.
    repeat split.
  - intros Hneg.
    replace (ret <? 0) with true by (symmetry; apply Z.ltb_lt; lia).
    rewrite do_reconnect_result.
    match goal with
    | |- context [reconnect_answer ?x] =>
        assert (Ha : reconnect_answer x = reconnect_answer s)
          by (unfold reconnect_answer; cbn; rewrite RS1; reflexivity);
        rewrite Ha
    end.
    eexists. split; [reflexivity|].
    destruct (reconnect_answer s =? 0); cbn; rewrite C1, Q1, T1;
      repeat split.
Qed.

Lemma incomplete_write_keeps_packet_witness :
  exists s',
    gpst_mainloop
      (mk_lstate (set_current_ssl_pkt (Some (stamp_header Sample.out1))
                    Sample.vpn0)
         (set_wr_script [5] Sample.env0) [] 0)
    = Ret 1 s'
    /\ quit_reason (vi s') = Some "Internal error"%string
    /\ tr s' = [write_of (stamp_header Sample.out1) 5] ++ []
    /\ current_ssl_pkt (vi s') = Some (stamp_header Sample.out1)
    /\ outgoing_queue (vi s') = [].
Proof.
  refine (proj1 (incomplete_write_keeps_packet
                   (mk_lstate (set_current_ssl_pkt
                                 (Some (stamp_header Sample.out1)) Sample.vpn0)
                      (set_wr_script [5] Sample.env0) [] 0)
                   (stamp_header Sample.out1) 5 _ _ _ _) _ _).
  - vm_compute. discriminate.
  - reflexivity.
  - reflexivity.
  - reflexivity.
  - lia.
  - vm_compute. discriminate.
Defined.
